(** * The frame renderer of mol-gl (src/mol-gl/renderer.ts)

    A shallow embedding of [Renderer.create] and of the methods of the object
    it returns ([render], [clear], [setProps], [setViewport], [stats],
    [dispose]), together with [getClip] and the per-drawable [renderObject].

    The renderer talks to a WebGL context through the wrappers of
    mol-gl/webgl (state cache, resources, textures, framebuffers).  Those
    wrappers are not part of the source tree; they are modelled below as a
    small state-and-trace monad over the context, each operation doing what
    its WebGL counterpart does.  The closure variables of [Renderer.create]
    become the record [Renderer], passed explicitly. *)

From stdpp Require Import base tactics option list gmap strings.
From Stdlib Require Import ZArith QArith Ascii.

Local Open Scope Z_scope.

(** * JavaScript values *)

(** JavaScript numbers that the renderer stores, copies and compares: a
    number or [NaN].  Fractions are exact rationals; pixel coordinates and
    colors hold integers. *)
Inductive js (A : Type) : Type :=
| Num (a : A)
| NaN.
Arguments Num {A} _.
Arguments NaN {A}.

Definition num := js Q.
Definition jsint := js Z.
Definition Color := jsint.
Definition Vec3 := (num * num * num)%type.
Definition Vec4 := (num * num * num * num)%type.
Definition Quat := (num * num * num * num)%type.

Definition n0 : num := Num 0%Q.
Definition n1 : num := Num 1%Q.

(** [a === b] on numbers: [NaN] is equal to nothing, itself included, so
    that [a !== a] holds of it. *)
Definition num_same (a b : num) : bool :=
  match a, b with
  | Num x, Num y => Qeq_bool x y
  | _, _ => false
  end.

Definition int_same (a b : jsint) : bool :=
  match a, b with
  | Num x, Num y => Z.eqb x y
  | _, _ => false
  end.

(** An integer as a number of the uniform block. *)
Definition num_of_int (a : jsint) : num :=
  match a with
  | Num z => Num (inject_Z z)
  | NaN => NaN
  end.

Definition vec3_same (a b : Vec3) : bool :=
  let '(a0, a1, a2) := a in
  let '(b0, b1, b2) := b in
  num_same a0 b0 && num_same a1 b1 && num_same a2 b2.

(** A JavaScript array of numbers; [None] is an empty slot (a hole, read as
    [undefined]). *)
Definition jsarray := list (option num).

(** [(new Array(n)).fill(v)] *)
Definition Array_fill (n : nat) (v : num) : jsarray := replicate n (Some v).

(** [a[i] = v]: inside the array the slot is overwritten, outside the array
    grows up to index [i], the skipped slots staying empty. *)
Definition js_store (a : jsarray) (i : nat) (v : num) : jsarray :=
  if decide (i < length a)%nat then <[i := Some v]> a
  else a ++ replicate (i - length a) None ++ [Some v].

(** [Vec3.toArray(v, out, offset)] and [Quat.toArray(q, out, offset)] write
    the components at consecutive indices starting at [offset]. *)
Definition Vec3_toArray (v : Vec3) (out : jsarray) (offset : nat) : jsarray :=
  let '(x, y, z) := v in
  js_store (js_store (js_store out offset x) (offset + 1) y) (offset + 2) z.

Definition Quat_toArray (q : Quat) (out : jsarray) (offset : nat) : jsarray :=
  let '(x, y, z, w) := q in
  js_store (js_store (js_store (js_store out offset x) (offset + 1) y)
              (offset + 2) z) (offset + 3) w.

(** ** Value cells (mol-util) *)

(** Modelled from the spec: [ValueCell] of mol-util is not in the source tree.
    A cell holds a value and a version that is bumped on every update, so that
    an unchanged cell is not uploaded again. *)
Record ValueCell (A : Type) := mkCell { version : nat; value : A }.
Arguments mkCell {A} _ _.
Arguments version {A} _.
Arguments value {A} _.

Module ValueCell.

Definition create {A} (v : A) : ValueCell A := mkCell 0%nat v.

Definition update {A} (c : ValueCell A) (v : A) : ValueCell A :=
  mkCell (S (version c)) v.

Definition updateIfChanged {A} (same : A -> A -> bool)
    (c : ValueCell A) (v : A) : ValueCell A :=
  if same (value c) v then c else update c v.

End ValueCell.

(** The values held by the global uniforms. *)
Inductive UValue :=
| UNum (x : num)
| UBool (b : bool)
| UVec (v : list num)
| UArr (a : jsarray).

(** [!==] as [updateIfChanged] sees it: primitives by value, arrays by
    reference (the renderer never passes an array there). *)
Definition uvalue_same (a b : UValue) : bool :=
  match a, b with
  | UNum x, UNum y => num_same x y
  | UBool x, UBool y => Bool.eqb x y
  | _, _ => false
  end.

Definition UVec3 (v : Vec3) : UValue := let '(x, y, z) := v in UVec [x; y; z].

(** * The WebGL context (mol-gl/webgl) *)

Inductive Capability := BLEND | DEPTH_TEST | SCISSOR_TEST | CULL_FACE.
Inductive BlendFactor := ZERO | ONE | SRC_ALPHA | ONE_MINUS_SRC_ALPHA.
Inductive Winding := CW | CCW.
Inductive Face := FRONT | BACK.
Inductive Attachment := COLOR_ATTACHMENT0 | COLOR_ATTACHMENT1.

(** What is bound to [gl.FRAMEBUFFER]: the canvas, the framebuffer of a
    render target handed in by the caller, or a framebuffer made by
    [resources.framebuffer()]. *)
Inductive Binding :=
| DefaultFramebuffer
| RenderTargetFramebuffer (rt : nat)
| FramebufferObject (fb : nat).

Definition Rect := (jsint * jsint * jsint * jsint)%type.
Definition BlendFunc := (BlendFactor * BlendFactor * BlendFactor * BlendFactor)%type.

(** The state cache [ctx.state] and the GL state behind it. *)
Record WebGLState := mkState {
  st_blend : bool;
  st_depthTest : bool;
  st_scissorTest : bool;
  st_cullFace : bool;
  st_frontFace : Winding;
  st_cullFaceMode : Face;
  st_depthMask : bool;
  st_colorMask : bool * bool * bool * bool;
  st_blendFunc : BlendFunc;
  st_clearColor : Vec4;
  st_viewport : Rect;
  st_scissor : Rect;
  st_bound : Binding;
  currentProgramId : Z;
  currentRenderItemId : Z;
}.

Record Framebuffer := mkFramebuffer {
  fb_color0 : option nat;
  fb_color1 : option nat;
  fb_drawBuffers : list Attachment;
}.

(** A fresh framebuffer object draws into its first color attachment. *)
Definition new_framebuffer : Framebuffer :=
  mkFramebuffer None None [COLOR_ATTACHMENT0].

Record TextureObj := mkTexture { tex_width : jsint; tex_height : jsint }.

(** [ctx.resources] with the counters of [ctx.stats.resourceCounts]. *)
Record Resources := mkResources {
  framebuffers : gmap nat Framebuffer;
  textures : gmap nat TextureObj;
  next_id : nat;
  count_framebuffer : Z;
  count_texture : Z;
}.

Record Extensions := mkExtensions {
  drawBuffers : bool;
  textureFloat : bool;
  colorBufferFloat : bool;
  depthTexture : bool;
  fragDepth : bool;
}.

Record WebGLContext := mkContext {
  extensions : Extensions;
  state : WebGLState;
  resources : Resources;
  pixelRatio : num;
}.

(** What the context is asked to do, in order.  Draws and clears carry the GL
    state in force when they are issued. *)
Inductive GLEvent :=
| EvViewport (r : Rect)
| EvScissor (r : Rect)
| EvBindFramebuffer (b : Binding)
| EvClear (colorBit depthBit : bool) (st : WebGLState) (cleared : list nat)
| EvFlush
| EvCreateFramebuffer (fb : nat)
| EvDeleteFramebuffer (fb : nat)
| EvCreateTexture (t : nat)
| EvTexImage (t : nat) (w h : jsint)
| EvFramebufferTexture (fb : nat) (a : Attachment) (t : nat)
| EvDrawBuffers (bufs : list Attachment)
| EvUseProgram (p : Z)
| EvSetUniforms (u : gmap string (ValueCell UValue))
| EvUpdateDefines (r : nat)
| EvDraw (r : nat) (variant : string) (shared : list (string * nat)) (st : WebGLState)
| EvDrawQuad (tA tB : nat) (st : WebGLState).

(** ** The monad of context operations

    A computation reads and writes the context, appends to the trace and may
    throw (a [TypeError] on a property of [undefined]). *)
Definition G (A : Type) : Type :=
  WebGLContext -> option (A * WebGLContext * list GLEvent).

Definition G_ret {A} (a : A) : G A := fun c => Some (a, c, []).

Definition G_bind {A B} (k : A -> G B) (m : G A) : G B := fun c =>
  match m c with
  | Some (a, c1, t1) =>
      match k a c1 with
      | Some (b, c2, t2) => Some (b, c2, t1 ++ t2)
      | None => None
      end
  | None => None
  end.

#[global] Instance G_MRet : MRet G := @G_ret.
#[global] Instance G_MBind : MBind G := @G_bind.

Definition throw {A} : G A := fun _ => None.
Definition emit (e : GLEvent) : G unit := fun c => Some (tt, c, [e]).
Definition getCtx : G WebGLContext := fun c => Some (c, c, []).
Definition putCtx (c : WebGLContext) : G unit := fun _ => Some (tt, c, []).

(** [xs[i]] followed by a method call: throws when the element is missing. *)
Definition element {A} (xs : list A) (i : nat) : G A :=
  match xs !! i with
  | Some x => mret x
  | None => throw
  end.

Definition modifyState (f : WebGLState -> WebGLState) : G unit :=
  c ← getCtx;
  putCtx (mkContext (extensions c) (f (state c)) (resources c) (pixelRatio c)).

Definition modifyResources (f : Resources -> Resources) : G unit :=
  c ← getCtx;
  putCtx (mkContext (extensions c) (state c) (f (resources c)) (pixelRatio c)).

(** ** The state cache: [ctx.state] *)

Definition set_capability (cap : Capability) (b : bool) (s : WebGLState) : WebGLState :=
  match cap with
  | BLEND =>
      mkState b (st_depthTest s) (st_scissorTest s) (st_cullFace s) (st_frontFace s)
        (st_cullFaceMode s) (st_depthMask s) (st_colorMask s) (st_blendFunc s)
        (st_clearColor s) (st_viewport s) (st_scissor s) (st_bound s)
        (currentProgramId s) (currentRenderItemId s)
  | DEPTH_TEST =>
      mkState (st_blend s) b (st_scissorTest s) (st_cullFace s) (st_frontFace s)
        (st_cullFaceMode s) (st_depthMask s) (st_colorMask s) (st_blendFunc s)
        (st_clearColor s) (st_viewport s) (st_scissor s) (st_bound s)
        (currentProgramId s) (currentRenderItemId s)
  | SCISSOR_TEST =>
      mkState (st_blend s) (st_depthTest s) b (st_cullFace s) (st_frontFace s)
        (st_cullFaceMode s) (st_depthMask s) (st_colorMask s) (st_blendFunc s)
        (st_clearColor s) (st_viewport s) (st_scissor s) (st_bound s)
        (currentProgramId s) (currentRenderItemId s)
  | CULL_FACE =>
      mkState (st_blend s) (st_depthTest s) (st_scissorTest s) b (st_frontFace s)
        (st_cullFaceMode s) (st_depthMask s) (st_colorMask s) (st_blendFunc s)
        (st_clearColor s) (st_viewport s) (st_scissor s) (st_bound s)
        (currentProgramId s) (currentRenderItemId s)
  end.

Definition set_frontFace (w : Winding) (s : WebGLState) : WebGLState :=
  mkState (st_blend s) (st_depthTest s) (st_scissorTest s) (st_cullFace s) w
    (st_cullFaceMode s) (st_depthMask s) (st_colorMask s) (st_blendFunc s)
    (st_clearColor s) (st_viewport s) (st_scissor s) (st_bound s)
    (currentProgramId s) (currentRenderItemId s).

Definition set_cullFaceMode (f : Face) (s : WebGLState) : WebGLState :=
  mkState (st_blend s) (st_depthTest s) (st_scissorTest s) (st_cullFace s)
    (st_frontFace s) f (st_depthMask s) (st_colorMask s) (st_blendFunc s)
    (st_clearColor s) (st_viewport s) (st_scissor s) (st_bound s)
    (currentProgramId s) (currentRenderItemId s).

Definition set_depthMask (b : bool) (s : WebGLState) : WebGLState :=
  mkState (st_blend s) (st_depthTest s) (st_scissorTest s) (st_cullFace s)
    (st_frontFace s) (st_cullFaceMode s) b (st_colorMask s) (st_blendFunc s)
    (st_clearColor s) (st_viewport s) (st_scissor s) (st_bound s)
    (currentProgramId s) (currentRenderItemId s).

Definition set_colorMask (m : bool * bool * bool * bool) (s : WebGLState) : WebGLState :=
  mkState (st_blend s) (st_depthTest s) (st_scissorTest s) (st_cullFace s)
    (st_frontFace s) (st_cullFaceMode s) (st_depthMask s) m (st_blendFunc s)
    (st_clearColor s) (st_viewport s) (st_scissor s) (st_bound s)
    (currentProgramId s) (currentRenderItemId s).

Definition set_blendFunc (f : BlendFunc) (s : WebGLState) : WebGLState :=
  mkState (st_blend s) (st_depthTest s) (st_scissorTest s) (st_cullFace s)
    (st_frontFace s) (st_cullFaceMode s) (st_depthMask s) (st_colorMask s) f
    (st_clearColor s) (st_viewport s) (st_scissor s) (st_bound s)
    (currentProgramId s) (currentRenderItemId s).

Definition set_clearColor (k : Vec4) (s : WebGLState) : WebGLState :=
  mkState (st_blend s) (st_depthTest s) (st_scissorTest s) (st_cullFace s)
    (st_frontFace s) (st_cullFaceMode s) (st_depthMask s) (st_colorMask s)
    (st_blendFunc s) k (st_viewport s) (st_scissor s) (st_bound s)
    (currentProgramId s) (currentRenderItemId s).

Definition set_viewport (r : Rect) (s : WebGLState) : WebGLState :=
  mkState (st_blend s) (st_depthTest s) (st_scissorTest s) (st_cullFace s)
    (st_frontFace s) (st_cullFaceMode s) (st_depthMask s) (st_colorMask s)
    (st_blendFunc s) (st_clearColor s) r (st_scissor s) (st_bound s)
    (currentProgramId s) (currentRenderItemId s).

Definition set_scissor (r : Rect) (s : WebGLState) : WebGLState :=
  mkState (st_blend s) (st_depthTest s) (st_scissorTest s) (st_cullFace s)
    (st_frontFace s) (st_cullFaceMode s) (st_depthMask s) (st_colorMask s)
    (st_blendFunc s) (st_clearColor s) (st_viewport s) r (st_bound s)
    (currentProgramId s) (currentRenderItemId s).

Definition set_bound (b : Binding) (s : WebGLState) : WebGLState :=
  mkState (st_blend s) (st_depthTest s) (st_scissorTest s) (st_cullFace s)
    (st_frontFace s) (st_cullFaceMode s) (st_depthMask s) (st_colorMask s)
    (st_blendFunc s) (st_clearColor s) (st_viewport s) (st_scissor s) b
    (currentProgramId s) (currentRenderItemId s).

Definition set_currentProgramId (p : Z) (s : WebGLState) : WebGLState :=
  mkState (st_blend s) (st_depthTest s) (st_scissorTest s) (st_cullFace s)
    (st_frontFace s) (st_cullFaceMode s) (st_depthMask s) (st_colorMask s)
    (st_blendFunc s) (st_clearColor s) (st_viewport s) (st_scissor s) (st_bound s)
    p (currentRenderItemId s).

Definition set_currentRenderItemId (i : Z) (s : WebGLState) : WebGLState :=
  mkState (st_blend s) (st_depthTest s) (st_scissorTest s) (st_cullFace s)
    (st_frontFace s) (st_cullFaceMode s) (st_depthMask s) (st_colorMask s)
    (st_blendFunc s) (st_clearColor s) (st_viewport s) (st_scissor s) (st_bound s)
    (currentProgramId s) i.

Definition state_enable (cap : Capability) : G unit := modifyState (set_capability cap true).
Definition state_disable (cap : Capability) : G unit := modifyState (set_capability cap false).
Definition state_frontFace (w : Winding) : G unit := modifyState (set_frontFace w).
Definition state_cullFace (f : Face) : G unit := modifyState (set_cullFaceMode f).
Definition state_depthMask (b : bool) : G unit := modifyState (set_depthMask b).
Definition state_colorMask (r g b a : bool) : G unit := modifyState (set_colorMask (r, g, b, a)).
Definition state_clearColor (r g b a : num) : G unit := modifyState (set_clearColor (r, g, b, a)).
Definition state_blendFuncSeparate (srcRGB dstRGB srcAlpha dstAlpha : BlendFactor) : G unit :=
  modifyState (set_blendFunc (srcRGB, dstRGB, srcAlpha, dstAlpha)).

(** ** The GL entry points the renderer calls directly *)

(** The rectangle is recorded as it is passed (a [NaN] too, which WebGL
    itself reads as 0). *)
Definition gl_viewport (x y w h : jsint) : G unit :=
  modifyState (set_viewport (x, y, w, h));; emit (EvViewport (x, y, w, h)).

Definition gl_scissor (x y w h : jsint) : G unit :=
  modifyState (set_scissor (x, y, w, h));; emit (EvScissor (x, y, w, h)).

Definition bindFramebuffer (b : Binding) : G unit :=
  modifyState (set_bound b);; emit (EvBindFramebuffer b).

(** [gl.bindFramebuffer(gl.FRAMEBUFFER, null)], also [ctx.unbindFramebuffer()] *)
Definition gl_bindFramebuffer_null : G unit := bindFramebuffer DefaultFramebuffer.
Definition ctx_unbindFramebuffer : G unit := bindFramebuffer DefaultFramebuffer.

(** [renderTarget.bind()] *)
Definition renderTarget_bind (rt : nat) : G unit := bindFramebuffer (RenderTargetFramebuffer rt).

Definition attachment_of (f : Framebuffer) (a : Attachment) : option nat :=
  match a with
  | COLOR_ATTACHMENT0 => fb_color0 f
  | COLOR_ATTACHMENT1 => fb_color1 f
  end.

(** The textures a color clear writes: the images attached to the draw buffers
    of the bound framebuffer object.  (The canvas and the caller's render
    targets own their images themselves.) *)
Definition clear_targets (c : WebGLContext) : list nat :=
  match st_bound (state c) with
  | FramebufferObject fb =>
      match framebuffers (resources c) !! fb with
      | Some f => omap (attachment_of f) (fb_drawBuffers f)
      | None => []
      end
  | _ => []
  end.

(** [gl.clear(mask)] with [mask] made of [COLOR_BUFFER_BIT] and
    [DEPTH_BUFFER_BIT]. *)
Definition gl_clear (colorBit depthBit : bool) : G unit :=
  c ← getCtx;
  emit (EvClear colorBit depthBit (state c) (if colorBit then clear_targets c else [])).

Definition gl_flush : G unit := emit EvFlush.

(** ** Resources: [ctx.resources], framebuffers and textures *)

Definition set_framebuffers (m : gmap nat Framebuffer) (r : Resources) : Resources :=
  mkResources m (textures r) (next_id r) (count_framebuffer r) (count_texture r).

(** [resources.framebuffer()]: a new framebuffer object, counted in
    [stats.resourceCounts.framebuffer]. *)
Definition resources_framebuffer : G nat :=
  c ← getCtx;
  let r := resources c in
  let id := next_id r in
  modifyResources (fun r =>
    mkResources (<[id := new_framebuffer]> (framebuffers r)) (textures r)
      (S (next_id r)) (count_framebuffer r + 1) (count_texture r));;
  emit (EvCreateFramebuffer id);;
  mret id.

(** [resources.texture(...)]: a new texture, counted in
    [stats.resourceCounts.texture]. *)
Definition resources_texture : G nat :=
  c ← getCtx;
  let r := resources c in
  let id := next_id r in
  modifyResources (fun r =>
    mkResources (framebuffers r) (<[id := mkTexture (Num 0) (Num 0)]> (textures r))
      (S (next_id r)) (count_framebuffer r) (count_texture r + 1));;
  emit (EvCreateTexture id);;
  mret id.

(** [framebuffer.bind()] *)
Definition framebuffer_bind (fb : nat) : G unit := bindFramebuffer (FramebufferObject fb).

(** [framebuffer.destroy()]: the object is deleted and no longer counted; a
    deleted framebuffer that was bound leaves the canvas bound. *)
Definition framebuffer_destroy (fb : nat) : G unit :=
  modifyResources (fun r =>
    mkResources (delete fb (framebuffers r)) (textures r)
      (next_id r) (count_framebuffer r - 1) (count_texture r));;
  modifyState (fun s =>
    match st_bound s with
    | FramebufferObject fb' => if decide (fb' = fb) then set_bound DefaultFramebuffer s else s
    | _ => s
    end);;
  emit (EvDeleteFramebuffer fb).

(** [texture.define(width, height)]: (re)allocates the image. *)
Definition texture_define (t : nat) (w h : jsint) : G unit :=
  modifyResources (fun r =>
    mkResources (framebuffers r) (<[t := mkTexture w h]> (textures r))
      (next_id r) (count_framebuffer r) (count_texture r));;
  emit (EvTexImage t w h).

Definition attach (a : Attachment) (t : nat) (f : Framebuffer) : Framebuffer :=
  match a with
  | COLOR_ATTACHMENT0 => mkFramebuffer (Some t) (fb_color1 f) (fb_drawBuffers f)
  | COLOR_ATTACHMENT1 => mkFramebuffer (fb_color0 f) (Some t) (fb_drawBuffers f)
  end.

(** [texture.attachFramebuffer(framebuffer, 'color0' | 'color1')]: binds the
    framebuffer and attaches the texture to it. *)
Definition texture_attachFramebuffer (t : nat) (fb : nat) (a : Attachment) : G unit :=
  framebuffer_bind fb;;
  modifyResources (fun r => set_framebuffers (alter (attach a t) fb (framebuffers r)) r);;
  emit (EvFramebufferTexture fb a t).

(** [drawBuffers.drawBuffers(bufs)]: sets the draw buffers of the bound
    framebuffer object. *)
Definition drawBuffers_drawBuffers (bufs : list Attachment) : G unit :=
  c ← getCtx;
  match st_bound (state c) with
  | FramebufferObject fb =>
      modifyResources (fun r =>
        set_framebuffers
          (alter (fun f => mkFramebuffer (fb_color0 f) (fb_color1 f) bufs) fb (framebuffers r)) r)
  | _ => mret tt
  end;;
  emit (EvDrawBuffers bufs).

(** [o?.m()]: nothing happens on [null]. *)
Definition whenSome {A} (o : option A) (k : A -> G unit) : G unit :=
  match o with
  | Some a => k a
  | None => mret tt
  end.

(** * Renderer parameters *)

(** The functions and the table below are imported by renderer.ts from
    mol-util/color, mol-math and mol-theme/clipping, which are not in the
    source tree; they are parameters of the development.  The one fact used
    about them is that the clip type [plane] has code 1, the default that
    [getClip] fills in. *)
Class MathLib := {
  Color_toVec3Normalized : Color -> Vec3;
  Color_fromNormalizedRgb : num -> num -> num -> Color;
  Quat_setAxisAngle : Vec3 -> num -> Quat;
  degToRad : num -> num;
  Clipping_Type : string -> num;
  Clipping_Type_plane : Clipping_Type "plane" = n1;
}.

(** A sample instance, with rational arithmetic in place of floating point:
    colors are split into their three bytes ([NaN] as 0, as the bit
    operations of JavaScript read it), the half-angle sine and cosine are cut
    off after the second term of their series, and arithmetic on [NaN] gives
    [NaN]. *)
Definition color_bits (c : Color) : Z :=
  match c with
  | Num z => z
  | NaN => 0
  end.

Definition channel (c : Color) (shift : Z) : num :=
  Num (Qred (inject_Z (Z.land (Z.shiftr (color_bits c) shift) 255) / inject_Z 255)%Q).

Definition byte_of (x : num) : Z :=
  match x with
  | Num q => let y := (q * inject_Z 255)%Q in Qnum y / Z.pos (Qden y)
  | NaN => 0
  end.

Definition axisAngle (axis : Vec3) (rad : num) : Quat :=
  match axis, rad with
  | (Num x, Num y, Num z), Num r =>
      let h := (r / inject_Z 2)%Q in
      let s := (h - h * h * h / inject_Z 6)%Q in
      (Num (Qred (s * x)), Num (Qred (s * y)), Num (Qred (s * z)),
       Num (Qred (1 - h * h / inject_Z 2)))%Q
  | _, _ => (NaN, NaN, NaN, NaN)
  end.

#[global] Instance RationalMath : MathLib := {|
  Color_toVec3Normalized c := (channel c 16, channel c 8, channel c 0);
  Color_fromNormalizedRgb r g b :=
    Num (Z.lor (Z.lor (Z.shiftl (byte_of r) 16) (Z.shiftl (byte_of g) 8)) (byte_of b));
  Quat_setAxisAngle := axisAngle;
  degToRad deg :=
    match deg with
    | Num d => Num (Qred (d * (355 # 20340))%Q)
    | NaN => NaN
    end;
  Clipping_Type t :=
    if String.eqb t "plane" then n1
    else if String.eqb t "sphere" then Num (inject_Z 2)
    else if String.eqb t "cube" then Num (inject_Z 3)
    else if String.eqb t "cylinder" then Num (inject_Z 4)
    else Num (inject_Z 5);
  Clipping_Type_plane := eq_refl;
|}.

Record StyleValues := mkStyle {
  lightIntensity : num;
  ambientIntensity : num;
  metalness : num;
  roughness : num;
  reflectivity : num;
}.

(** [{ name, params }].  The parameters of a custom style are an object of
    the caller: [obj] tells which one, [params] what it holds when it is
    handed in. *)
Inductive StyleProps :=
| custom (obj : nat) (params : StyleValues)
| flat
| matte
| glossy
| metallic
| plastic.

(** [getStyle] hands back [props.params] itself for a custom style, and a
    new object for a named one. *)
Definition getStyle (props : StyleProps) : StyleValues :=
  match props with
  | custom _ params => params
  | flat => mkStyle (Num 0) (Num 1) (Num 0) (Num (4 # 10)) (Num (5 # 10))
  | matte => mkStyle (Num (6 # 10)) (Num (4 # 10)) (Num 0) (Num 1) (Num (5 # 10))
  | glossy => mkStyle (Num (6 # 10)) (Num (4 # 10)) (Num 0) (Num (4 # 10)) (Num (5 # 10))
  | metallic =>
      mkStyle (Num (6 # 10)) (Num (4 # 10)) (Num (4 # 10)) (Num (6 # 10)) (Num (5 # 10))
  | plastic => mkStyle (Num (6 # 10)) (Num (4 # 10)) (Num 0) (Num (2 # 10)) (Num (5 # 10))
  end%Q.

Definition getStyle_object (props : StyleProps) : option nat :=
  match props with
  | custom obj _ => Some obj
  | _ => None
  end.

(** One entry of [clip.objects] in the parameters. *)
Record ClipObject := mkClipObject {
  co_type : string;
  co_position : Vec3;
  co_axis : Vec3;
  co_angle : num;
  co_scale : Vec3;
}.

Record ClipProps := mkClipProps {
  cp_variant : string;
  cp_objects : list ClipObject;
}.

Record RendererProps := mkProps {
  backgroundColor : Color;
  pickingAlphaThreshold : num;
  transparencyVariant : string;
  interiorDarkening : num;
  interiorColorFlag : bool;
  interiorColor : Color;
  highlightColor : Color;
  selectColor : Color;
  props_style : StyleProps;
  props_clip : ClipProps;
}.

(** [Partial<RendererProps>]: a missing field is [undefined]. *)
Record PartialProps := mkPartial {
  opt_backgroundColor : option Color;
  opt_pickingAlphaThreshold : option num;
  opt_transparencyVariant : option string;
  opt_interiorDarkening : option num;
  opt_interiorColorFlag : option bool;
  opt_interiorColor : option Color;
  opt_highlightColor : option Color;
  opt_selectColor : option Color;
  opt_style : option StyleProps;
  opt_clip : option ClipProps;
}.

Definition noProps : PartialProps :=
  mkPartial None None None None None None None None None None.

(** [deepEqual] on clip parameters: same variant, same objects field by
    field, the numbers compared with [===]. *)
Definition clipObject_deepEqual (a b : ClipObject) : bool :=
  String.eqb (co_type a) (co_type b)
  && vec3_same (co_position a) (co_position b)
  && vec3_same (co_axis a) (co_axis b)
  && num_same (co_angle a) (co_angle b)
  && vec3_same (co_scale a) (co_scale b).

Fixpoint clipObjects_deepEqual (a b : list ClipObject) : bool :=
  match a, b with
  | [], [] => true
  | x :: a', y :: b' => clipObject_deepEqual x y && clipObjects_deepEqual a' b'
  | _, _ => false
  end.

Definition deepEqual (a b : ClipProps) : bool :=
  String.eqb (cp_variant a) (cp_variant b)
  && clipObjects_deepEqual (cp_objects a) (cp_objects b).

(** * Clip state *)

Record ClipObjects := mkClipObjects {
  count : nat;
  type : jsarray;
  position : jsarray;
  rotation : jsarray;
  scale : jsarray;
}.

Record Clip := mkClip {
  variant : string;
  objects : ClipObjects;
}.

(** * Drawables, scene and camera *)

Record RenderableState := mkRenderableState {
  visible : bool;
  pickable : bool;
  opaque : bool;
  writeDepth : bool;
  colorOnly : bool;
}.

(** The values of a drawable that [renderObject] reads.  [dRenderMode],
    [dDoubleSided] and [dFlipSided] exist on some kinds of drawable only, and
    [renderObject] tests for them.  It reads [hasReflection] without a test
    (line 328, when [dDoubleSided] is there and false): the drawables of the
    model are those that carry it, as they carry the three defines; on a
    drawable without it the source throws a [TypeError], which is outside
    the model. *)
Record RenderableValues := mkValues {
  dClipObjectCount : ValueCell nat;
  dClipVariant : ValueCell string;
  dTransparencyVariant : ValueCell string;
  dRenderMode : option (ValueCell string);
  dDoubleSided : option (ValueCell bool);
  hasReflection : ValueCell bool;
  dFlipSided : option (ValueCell bool);
}.

(** [r_program v] is the id of [r.getProgram(v)]. *)
Record Renderable := mkRenderable {
  r_id : nat;
  r_state : RenderableState;
  r_values : RenderableValues;
  r_program : string -> Z;
}.

Record Group := mkGroup { renderables : list Renderable }.

(** The scalar part of [ICamera]; its matrices and vectors only feed the
    matrix uniforms, which are left out of the uniform block below. *)
Record Camera := mkCamera {
  cam_orthographic : bool;
  cam_near : num;
  cam_far : num;
  cam_fogNear : num;
  cam_fogFar : num;
}.

(** A render variant is the name of a program variant: ['color'], ['depth']
    or one of the picking variants, whose names start with the letter p. *)
Definition GraphicsRenderVariant := string.

(** [variant === 'color'] *)
Definition isColor (v : GraphicsRenderVariant) : bool := String.eqb v "color".

(** [variant[0] === 'p'] *)
Definition isPick (v : GraphicsRenderVariant) : bool :=
  match v with
  | String c _ => Ascii.eqb c "p"%char
  | EmptyString => false
  end.

(** * The renderer object *)

(** [evaluateWboitRenderable]: the full-screen quad that samples the two
    accumulation textures. *)
Record EvaluateWboitRenderable := mkEvaluate { tWboitA : nat; tWboitB : nat }.

Definition GlobalUniformValues := gmap string (ValueCell UValue).

(** The variables [Renderer.create] closes over.  [style] is bound once, to
    the object that [getStyle] returns at construction, and [setProps]
    overwrites that object in place: [style] is what the object holds and
    [styleObject] tells which object of the caller it is, if it is one (the
    [params] of a custom style). *)
Record Renderer := mkRenderer {
  p : RendererProps;
  style : StyleValues;
  styleObject : option nat;
  clip : Clip;
  viewport : Rect;
  bgColor : Vec3;
  enableWboit : bool;
  wboitATexture : option nat;
  wboitBTexture : option nat;
  evaluateWboitRenderable : option EvaluateWboitRenderable;
  wboitFramebuffers : list nat;
  globalUniforms : gmap string (ValueCell UValue);
  globalUniformsNeedUpdate : bool;
}.

Definition set_p (x : RendererProps) (rd : Renderer) : Renderer :=
  mkRenderer x (style rd) (styleObject rd) (clip rd) (viewport rd) (bgColor rd)
    (enableWboit rd) (wboitATexture rd) (wboitBTexture rd) (evaluateWboitRenderable rd)
    (wboitFramebuffers rd) (globalUniforms rd) (globalUniformsNeedUpdate rd).

Definition set_style (x : StyleValues) (rd : Renderer) : Renderer :=
  mkRenderer (p rd) x (styleObject rd) (clip rd) (viewport rd) (bgColor rd)
    (enableWboit rd) (wboitATexture rd) (wboitBTexture rd) (evaluateWboitRenderable rd)
    (wboitFramebuffers rd) (globalUniforms rd) (globalUniformsNeedUpdate rd).

Definition set_clip (x : Clip) (rd : Renderer) : Renderer :=
  mkRenderer (p rd) (style rd) (styleObject rd) x (viewport rd) (bgColor rd)
    (enableWboit rd) (wboitATexture rd) (wboitBTexture rd) (evaluateWboitRenderable rd)
    (wboitFramebuffers rd) (globalUniforms rd) (globalUniformsNeedUpdate rd).

Definition set_rendererViewport (x : Rect) (rd : Renderer) : Renderer :=
  mkRenderer (p rd) (style rd) (styleObject rd) (clip rd) x (bgColor rd)
    (enableWboit rd) (wboitATexture rd) (wboitBTexture rd) (evaluateWboitRenderable rd)
    (wboitFramebuffers rd) (globalUniforms rd) (globalUniformsNeedUpdate rd).

Definition set_bgColor (x : Vec3) (rd : Renderer) : Renderer :=
  mkRenderer (p rd) (style rd) (styleObject rd) (clip rd) (viewport rd) x
    (enableWboit rd) (wboitATexture rd) (wboitBTexture rd) (evaluateWboitRenderable rd)
    (wboitFramebuffers rd) (globalUniforms rd) (globalUniformsNeedUpdate rd).

Definition set_wboitFramebuffers (x : list nat) (rd : Renderer) : Renderer :=
  mkRenderer (p rd) (style rd) (styleObject rd) (clip rd) (viewport rd) (bgColor rd)
    (enableWboit rd) (wboitATexture rd) (wboitBTexture rd) (evaluateWboitRenderable rd)
    x (globalUniforms rd) (globalUniformsNeedUpdate rd).

Definition set_globalUniforms (x : GlobalUniformValues) (rd : Renderer) : Renderer :=
  mkRenderer (p rd) (style rd) (styleObject rd) (clip rd) (viewport rd) (bgColor rd)
    (enableWboit rd) (wboitATexture rd) (wboitBTexture rd) (evaluateWboitRenderable rd)
    (wboitFramebuffers rd) x (globalUniformsNeedUpdate rd).

Definition set_globalUniformsNeedUpdate (x : bool) (rd : Renderer) : Renderer :=
  mkRenderer (p rd) (style rd) (styleObject rd) (clip rd) (viewport rd) (bgColor rd)
    (enableWboit rd) (wboitATexture rd) (wboitBTexture rd) (evaluateWboitRenderable rd)
    (wboitFramebuffers rd) (globalUniforms rd) x.

(** [ValueCell.update(globalUniforms.k, v)] *)
Definition updateUniform (k : string) (v : UValue) (rd : Renderer) : Renderer :=
  set_globalUniforms (alter (fun c => ValueCell.update c v) k (globalUniforms rd)) rd.

(** [ValueCell.updateIfChanged(globalUniforms.k, v)] *)
Definition updateUniformIfChanged (k : string) (v : UValue) (rd : Renderer) : Renderer :=
  set_globalUniforms
    (alter (fun c => ValueCell.updateIfChanged uvalue_same c v) k (globalUniforms rd)) rd.

Definition UBit (b : bool) : UValue := UNum (if b then n1 else n0).

(** The counters of [stats] that concern the renderer's own resources. *)
Record RendererStats := mkStats {
  framebufferCount : Z;
  textureCount : Z;
}.

Section Model.
Context `{MathLib}.

(** [PD.merge(RendererParams, PD.getDefaultValues(RendererParams), props)]:
    the defaults of [RendererParams], overridden by what [props] gives. *)
Definition defaultProps : RendererProps :=
  mkProps (Num 0) (Num (5 # 10)%Q) "single" (Num (5 # 10)%Q) true
    (Color_fromNormalizedRgb (Num (3 # 10)%Q) (Num (3 # 10)%Q) (Num (3 # 10)%Q))
    (Color_fromNormalizedRgb (Num 1%Q) (Num (4 # 10)%Q) (Num (6 # 10)%Q))
    (Color_fromNormalizedRgb (Num (2 # 10)%Q) (Num 1%Q) (Num (1 # 10)%Q))
    matte (mkClipProps "instance" []).

Definition PD_merge (d : RendererProps) (props : PartialProps) : RendererProps :=
  mkProps
    (default (backgroundColor d) (opt_backgroundColor props))
    (default (pickingAlphaThreshold d) (opt_pickingAlphaThreshold props))
    (default (transparencyVariant d) (opt_transparencyVariant props))
    (default (interiorDarkening d) (opt_interiorDarkening props))
    (default (interiorColorFlag d) (opt_interiorColorFlag props))
    (default (interiorColor d) (opt_interiorColor props))
    (default (highlightColor d) (opt_highlightColor props))
    (default (selectColor d) (opt_selectColor props))
    (default (props_style d) (opt_style props))
    (default (props_clip d) (opt_clip props)).

(** ** [getClip] (renderer.ts, lines 144-163) *)

(** The body of the loop over [props.objects], from index [i] on. *)
Fixpoint getClip_loop (objs : list ClipObject) (i : nat)
    (type position rotation scale : jsarray) : jsarray * jsarray * jsarray * jsarray :=
  match objs with
  | [] => (type, position, rotation, scale)
  | o :: rest =>
      let type := js_store type i (Clipping_Type (co_type o)) in
      let position := Vec3_toArray (co_position o) position (i * 3) in
      let rotation :=
        Quat_toArray (Quat_setAxisAngle (co_axis o) (degToRad (co_angle o))) rotation (i * 4) in
      let scale := Vec3_toArray (co_scale o) scale (i * 3) in
      getClip_loop rest (S i) type position rotation scale
  end.

Definition getClip (props : ClipProps) (clip : option Clip) : Clip :=
  let o :=
    match clip with
    | Some c => objects c
    | None =>
        mkClipObjects 0 (Array_fill 5 n1) (Array_fill (5 * 3) n0)
          (Array_fill (5 * 4) n0) (Array_fill (5 * 3) n1)
    end in
  let '(type, position, rotation, scale) :=
    getClip_loop (cp_objects props) 0 (type o) (position o) (rotation o) (scale o) in
  mkClip (cp_variant props)
    (mkClipObjects (length (cp_objects props)) type position rotation scale).

(** ** [Renderer.create] (lines 166-274) *)

Definition COLOR01 : list Attachment := [COLOR_ATTACHMENT0; COLOR_ATTACHMENT1].

(** The uniform block.  The matrix and vector uniforms fed by the camera
    ([uModel], [uView], ..., [uCameraDir], [uViewOffset],
    [uDrawingBufferSize]) are left out: they are computed by mol-math and no
    other part of the renderer reads them. *)
Definition initialUniforms (ctx : WebGLContext) (p : RendererProps) (style : StyleValues)
    (clip : Clip) (viewport : Rect) (bgColor : Vec3) : GlobalUniformValues :=
  let '(x, y, w, h) := viewport in
  list_to_map [
    ("uIsOrtho", ValueCell.create (UNum n1));
    ("uPixelRatio", ValueCell.create (UNum (pixelRatio ctx)));
    ("uViewportHeight", ValueCell.create (UNum (num_of_int h)));
    ("uViewport",
     ValueCell.create (UVec [num_of_int x; num_of_int y; num_of_int w; num_of_int h]));
    ("uNear", ValueCell.create (UNum n1));
    ("uFar", ValueCell.create (UNum (Num (inject_Z 10000))));
    ("uFogNear", ValueCell.create (UNum n1));
    ("uFogFar", ValueCell.create (UNum (Num (inject_Z 10000))));
    ("uFogColor", ValueCell.create (UVec3 bgColor));
    ("uRenderWboit", ValueCell.create (UNum n0));
    ("uTransparentBackground", ValueCell.create (UBool false));
    ("uClipObjectType", ValueCell.create (UArr (type (objects clip))));
    ("uClipObjectPosition", ValueCell.create (UArr (position (objects clip))));
    ("uClipObjectRotation", ValueCell.create (UArr (rotation (objects clip))));
    ("uClipObjectScale", ValueCell.create (UArr (scale (objects clip))));
    ("uLightIntensity", ValueCell.create (UNum (lightIntensity style)));
    ("uAmbientIntensity", ValueCell.create (UNum (ambientIntensity style)));
    ("uMetalness", ValueCell.create (UNum (metalness style)));
    ("uRoughness", ValueCell.create (UNum (roughness style)));
    ("uReflectivity", ValueCell.create (UNum (reflectivity style)));
    ("uPickingAlphaThreshold", ValueCell.create (UNum (pickingAlphaThreshold p)));
    ("uInteriorDarkening", ValueCell.create (UNum (interiorDarkening p)));
    ("uInteriorColorFlag", ValueCell.create (UBool (interiorColorFlag p)));
    ("uInteriorColor", ValueCell.create (UVec3 (Color_toVec3Normalized (interiorColor p))));
    ("uHighlightColor", ValueCell.create (UVec3 (Color_toVec3Normalized (highlightColor p))));
    ("uSelectColor", ValueCell.create (UVec3 (Color_toVec3Normalized (selectColor p))))
  ].

(** [enableWboit ? resources.texture(...) : null] followed by
    [texture?.define(viewport.width, viewport.height)] *)
Definition createWboitTexture (enableWboit : bool) (viewport : Rect) : G (option nat) :=
  let '(_, _, w, h) := viewport in
  t ← (if enableWboit then (t ← resources_texture; mret (Some t)) else mret None);
  whenSome t (fun t => texture_define t w h);;
  mret t.

(** The two branches on [drawBuffers] that attach the accumulation textures,
    shared by [create] and [setViewport]. *)
Definition attachWboitTextures (drawBuffersExt : bool) (fbs : list nat)
    (wboitATexture wboitBTexture : option nat) : G unit :=
  if drawBuffersExt then
    fb ← element fbs 0; framebuffer_bind fb;;
    drawBuffers_drawBuffers COLOR01;;
    whenSome wboitATexture (fun t =>
      fb ← element fbs 0; texture_attachFramebuffer t fb COLOR_ATTACHMENT0);;
    whenSome wboitBTexture (fun t =>
      fb ← element fbs 0; texture_attachFramebuffer t fb COLOR_ATTACHMENT1)
  else
    whenSome wboitATexture (fun t =>
      fb ← element fbs 0; texture_attachFramebuffer t fb COLOR_ATTACHMENT0);;
    whenSome wboitBTexture (fun t =>
      fb ← element fbs 1; texture_attachFramebuffer t fb COLOR_ATTACHMENT0).

Definition create (props : PartialProps) : G Renderer :=
  ctx ← getCtx;
  let p := PD_merge defaultProps props in
  let style := getStyle (props_style p) in
  let clip := getClip (props_clip p) None in
  let ext := extensions ctx in
  let viewport : Rect := (Num 0, Num 0, Num 0, Num 0) in
  let bgColor := Color_toVec3Normalized (backgroundColor p) in
  let enableWboit := textureFloat ext && colorBufferFloat ext && depthTexture ext in
  wboitATexture ← createWboitTexture enableWboit viewport;
  wboitBTexture ← createWboitTexture enableWboit viewport;
  let evaluateWboitRenderable :=
    match enableWboit, wboitATexture, wboitBTexture with
    | true, Some a, Some b => Some (mkEvaluate a b)
    | _, _, _ => None
    end in
  fb0 ← resources_framebuffer;
  wboitFramebuffers ←
    (if drawBuffers ext then
       fb1 ← resources_framebuffer; mret [fb0; fb1]
     else
       fb1 ← resources_framebuffer; fb2 ← resources_framebuffer; mret [fb0; fb1; fb2]);
  attachWboitTextures (drawBuffers ext) wboitFramebuffers wboitATexture wboitBTexture;;
  mret (mkRenderer p style (getStyle_object (props_style p)) clip viewport bgColor
          enableWboit
          wboitATexture wboitBTexture evaluateWboitRenderable wboitFramebuffers
          (initialUniforms ctx p style clip viewport bgColor) true).

(** ** [renderObject] (lines 276-356) *)

(** The three defines kept in step with the renderer; the result tells
    whether any of them had to be updated. *)
Definition syncDefines (v : RenderableValues) (rd : Renderer) : RenderableValues * bool :=
  let c1 := negb (Nat.eqb (value (dClipObjectCount v)) (count (objects (clip rd)))) in
  let c2 := negb (String.eqb (value (dClipVariant v)) (variant (clip rd))) in
  let c3 := negb (String.eqb (value (dTransparencyVariant v)) (transparencyVariant (p rd))) in
  (mkValues
     (if c1 then ValueCell.update (dClipObjectCount v) (count (objects (clip rd)))
      else dClipObjectCount v)
     (if c2 then ValueCell.update (dClipVariant v) (variant (clip rd)) else dClipVariant v)
     (if c3 then ValueCell.update (dTransparencyVariant v) (transparencyVariant (p rd))
      else dTransparencyVariant v)
     (dRenderMode v) (dDoubleSided v) (hasReflection v) (dFlipSided v),
   c1 || c2 || c3).

(** Culling, winding and depth state for one drawable (lines 309-353). *)
Definition objectState (r : Renderable) : G unit :=
  ctx ← getCtx;
  match dRenderMode (r_values r) with
  | Some mode =>
      state_enable CULL_FACE;;
      state_frontFace CW;;
      state_cullFace BACK;;
      if String.eqb (value mode) "volume" || negb (fragDepth (extensions ctx)) then
        state_disable DEPTH_TEST;;
        state_depthMask false
      else
        state_enable DEPTH_TEST;;
        state_depthMask (writeDepth (r_state r))
  | None =>
      state_enable DEPTH_TEST;;
      match dDoubleSided (r_values r) with
      | Some d =>
          if value d || value (hasReflection (r_values r)) then state_disable CULL_FACE
          else state_enable CULL_FACE
      | None => state_disable CULL_FACE
      end;;
      match dFlipSided (r_values r) with
      | Some f =>
          if value f then state_frontFace CW;; state_cullFace FRONT
          else state_frontFace CCW;; state_cullFace BACK
      | None => state_frontFace CCW;; state_cullFace BACK
      end;;
      state_depthMask (writeDepth (r_state r))
  end.

(** [r.render(variant, sharedTexturesList)]: the draw call, issued under the
    GL state then in force. *)
Definition renderable_render (r : Renderable) (variant : GraphicsRenderVariant)
    (shared : list (string * nat)) : G unit :=
  ctx ← getCtx;
  emit (EvDraw (r_id r) variant shared (state ctx)).

Definition renderObject (r : Renderable) (variant : GraphicsRenderVariant)
    (shared : list (string * nat)) (rd : Renderer) : G (Renderable * Renderer) :=
  if negb (visible (r_state r)) || (negb (pickable (r_state r)) && isPick variant) then
    mret (r, rd)
  else
    let '(values, definesNeedUpdate) := syncDefines (r_values r) rd in
    let r := mkRenderable (r_id r) (r_state r) values (r_program r) in
    (if definesNeedUpdate then emit (EvUpdateDefines (r_id r)) else mret tt);;
    ctx ← getCtx;
    let program := r_program r variant in
    rd ← (if negb (Z.eqb (currentProgramId (state ctx)) program) then
            modifyState (set_currentProgramId program);;
            emit (EvUseProgram program);;
            mret (set_globalUniformsNeedUpdate true rd)
          else mret rd);
    rd ← (if globalUniformsNeedUpdate rd then
            emit (EvSetUniforms (globalUniforms rd));;
            mret (set_globalUniformsNeedUpdate false rd)
          else mret rd);
    objectState r;;
    renderable_render r variant shared;;
    mret (r, rd).

(** ** [render] (lines 358-526) *)

(** One loop over [renderables] that hands the drawables selected by [sel]
    to [renderObject], in list order. *)
Fixpoint renderBucket (sel : RenderableState -> bool) (variant : GraphicsRenderVariant)
    (shared : list (string * nat)) (rs : list Renderable) (rd : Renderer)
    : G (list Renderable * Renderer) :=
  match rs with
  | [] => mret ([], rd)
  | r :: rest =>
      '(r, rd) ← (if sel (r_state r) then renderObject r variant shared rd else mret (r, rd));
      '(rest, rd) ← renderBucket sel variant shared rest rd;
      mret (r :: rest, rd)
  end.

Definition isOpaque (s : RenderableState) : bool := opaque s.
Definition isTransparentWriteDepth (s : RenderableState) : bool := negb (opaque s) && writeDepth s.
Definition isTransparentNoDepth (s : RenderableState) : bool := negb (opaque s) && negb (writeDepth s).
Definition notColorOnly (s : RenderableState) : bool := negb (colorOnly s).

(** The three loops that every color path runs one after the other. *)
Definition renderBuckets (variant : GraphicsRenderVariant) (shared : list (string * nat))
    (rs : list Renderable) (rd : Renderer) : G (list Renderable * Renderer) :=
  '(rs, rd) ← renderBucket isOpaque variant shared rs rd;
  '(rs, rd) ← renderBucket isTransparentWriteDepth variant shared rs rd;
  renderBucket isTransparentNoDepth variant shared rs rd.

(** [renderTarget ? renderTarget.bind() : gl.bindFramebuffer(gl.FRAMEBUFFER, null)] *)
Definition bindTarget (renderTarget : option nat) : G unit :=
  match renderTarget with
  | Some rt => renderTarget_bind rt
  | None => gl_bindFramebuffer_null
  end.

(** [evaluateWboitRenderable.update(); evaluateWboitRenderable.render()] *)
Definition evaluateWboit_render (q : EvaluateWboitRenderable) : G unit :=
  ctx ← getCtx;
  emit (EvDrawQuad (tWboitA q) (tWboitB q) (state ctx)).

(** The scalar uniforms of lines 374-386. *)
Definition updateCameraUniforms (camera : Camera) (transparentBackground : bool)
    (rd : Renderer) : Renderer :=
  let rd := updateUniformIfChanged "uIsOrtho" (UBit (cam_orthographic camera)) rd in
  let rd := updateUniformIfChanged "uFar" (UNum (cam_far camera)) rd in
  let rd := updateUniformIfChanged "uNear" (UNum (cam_near camera)) rd in
  let rd := updateUniformIfChanged "uFogFar" (UNum (cam_fogFar camera)) rd in
  let rd := updateUniformIfChanged "uFogNear" (UNum (cam_fogNear camera)) rd in
  let rd := updateUniformIfChanged "uTransparentBackground" (UBool transparentBackground) rd in
  updateUniform "uRenderWboit" (UNum n0) rd.

(** The argument [drawingBufferScale] only feeds [uDrawingBufferSize] and is
    left out with it. *)
Definition render (renderTarget : option nat) (group : Group) (camera : Camera)
    (variant : GraphicsRenderVariant) (clear transparentBackground : bool)
    (depthTexture : option nat) (renderTransparent : bool) (rd : Renderer)
    : G (Group * Renderer) :=
  let localSharedTexturesList : list (string * nat) :=
    match depthTexture with
    | Some t => [("tDepth", t)]
    | None => []
    end in
  let rd := updateCameraUniforms camera transparentBackground rd in
  let rd := set_globalUniformsNeedUpdate true rd in
  modifyState (set_currentRenderItemId (-1));;
  let rs := renderables group in
  state_enable SCISSOR_TEST;;
  state_disable BLEND;;
  state_colorMask true true true true;;
  state_enable DEPTH_TEST;;
  bindTarget renderTarget;;
  let '(x, y, width, height) := viewport rd in
  gl_viewport x y width height;;
  gl_scissor x y width height;;
  (if clear then
     state_depthMask true;;
     (if isColor variant then
        let '(r, g, b) := bgColor rd in
        state_clearColor r g b (if transparentBackground then n0 else n1)
      else
        state_clearColor n1 n1 n1 n1);;
     gl_clear true true
   else mret tt);;
  '(rs, rd) ←
    (if isColor variant then
       if enableWboit rd then
         if negb renderTransparent then
           renderBuckets variant localSharedTexturesList rs rd
         else
           fb ← element (wboitFramebuffers rd) 0; framebuffer_bind fb;;
           state_clearColor n0 n0 n0 n1;;
           gl_clear true false;;
           let rd := updateUniform "uRenderWboit" (UNum n1) rd in
           let rd := set_globalUniformsNeedUpdate true rd in
           state_disable DEPTH_TEST;;
           state_enable BLEND;;
           state_blendFuncSeparate ONE ONE ZERO ONE_MINUS_SRC_ALPHA;;
           '(rs, rd) ← renderBuckets variant localSharedTexturesList rs rd;
           bindTarget renderTarget;;
           state_blendFuncSeparate ONE_MINUS_SRC_ALPHA SRC_ALPHA ZERO ONE;;
           state_enable BLEND;;
           state_disable DEPTH_TEST;;
           whenSome (evaluateWboitRenderable rd) evaluateWboit_render;;
           mret (rs, rd)
       else
         '(rs, rd) ← renderBucket isOpaque variant localSharedTexturesList rs rd;
         state_blendFuncSeparate SRC_ALPHA ONE_MINUS_SRC_ALPHA ONE ONE;;
         state_enable BLEND;;
         '(rs, rd) ← renderBucket isTransparentWriteDepth variant localSharedTexturesList rs rd;
         renderBucket isTransparentNoDepth variant localSharedTexturesList rs rd
     else
       if negb renderTransparent then
         renderBucket notColorOnly variant localSharedTexturesList rs rd
       else mret (rs, rd));
  gl_flush;;
  mret (mkGroup rs, rd).

(** ** The other methods (lines 528-654) *)

Definition clear (transparentBackground : bool) (rd : Renderer) : G unit :=
  ctx_unbindFramebuffer;;
  state_enable SCISSOR_TEST;;
  state_depthMask true;;
  state_colorMask true true true true;;
  let '(r, g, b) := bgColor rd in
  state_clearColor r g b (if transparentBackground then n0 else n1);;
  gl_clear true true.

Definition with_backgroundColor (c : Color) (q : RendererProps) : RendererProps :=
  mkProps c (pickingAlphaThreshold q) (transparencyVariant q) (interiorDarkening q)
    (interiorColorFlag q) (interiorColor q) (highlightColor q) (selectColor q)
    (props_style q) (props_clip q).

Definition with_pickingAlphaThreshold (x : num) (q : RendererProps) : RendererProps :=
  mkProps (backgroundColor q) x (transparencyVariant q) (interiorDarkening q)
    (interiorColorFlag q) (interiorColor q) (highlightColor q) (selectColor q)
    (props_style q) (props_clip q).

Definition with_transparencyVariant (x : string) (q : RendererProps) : RendererProps :=
  mkProps (backgroundColor q) (pickingAlphaThreshold q) x (interiorDarkening q)
    (interiorColorFlag q) (interiorColor q) (highlightColor q) (selectColor q)
    (props_style q) (props_clip q).

Definition with_interiorDarkening (x : num) (q : RendererProps) : RendererProps :=
  mkProps (backgroundColor q) (pickingAlphaThreshold q) (transparencyVariant q) x
    (interiorColorFlag q) (interiorColor q) (highlightColor q) (selectColor q)
    (props_style q) (props_clip q).

Definition with_interiorColorFlag (x : bool) (q : RendererProps) : RendererProps :=
  mkProps (backgroundColor q) (pickingAlphaThreshold q) (transparencyVariant q)
    (interiorDarkening q) x (interiorColor q) (highlightColor q) (selectColor q)
    (props_style q) (props_clip q).

Definition with_interiorColor (x : Color) (q : RendererProps) : RendererProps :=
  mkProps (backgroundColor q) (pickingAlphaThreshold q) (transparencyVariant q)
    (interiorDarkening q) (interiorColorFlag q) x (highlightColor q) (selectColor q)
    (props_style q) (props_clip q).

Definition with_highlightColor (x : Color) (q : RendererProps) : RendererProps :=
  mkProps (backgroundColor q) (pickingAlphaThreshold q) (transparencyVariant q)
    (interiorDarkening q) (interiorColorFlag q) (interiorColor q) x (selectColor q)
    (props_style q) (props_clip q).

Definition with_selectColor (x : Color) (q : RendererProps) : RendererProps :=
  mkProps (backgroundColor q) (pickingAlphaThreshold q) (transparencyVariant q)
    (interiorDarkening q) (interiorColorFlag q) (interiorColor q) (highlightColor q) x
    (props_style q) (props_clip q).

Definition with_style (x : StyleProps) (q : RendererProps) : RendererProps :=
  mkProps (backgroundColor q) (pickingAlphaThreshold q) (transparencyVariant q)
    (interiorDarkening q) (interiorColorFlag q) (interiorColor q) (highlightColor q)
    (selectColor q) x (props_clip q).

Definition with_clip (x : ClipProps) (q : RendererProps) : RendererProps :=
  mkProps (backgroundColor q) (pickingAlphaThreshold q) (transparencyVariant q)
    (interiorDarkening q) (interiorColorFlag q) (interiorColor q) (highlightColor q)
    (selectColor q) (props_style q) x.

(** [if (props.k !== undefined && props.k !== p.k) { ... }] *)
Definition whenChanged {A} (o : option A) (same : A -> A -> bool) (current : A)
    (k : A -> Renderer -> Renderer) (rd : Renderer) : Renderer :=
  match o with
  | Some a => if same a current then rd else k a rd
  | None => rd
  end.

(** [if (props.k !== undefined) { ... }] *)
Definition whenDefined {A} (o : option A) (k : A -> Renderer -> Renderer)
    (rd : Renderer) : Renderer :=
  match o with
  | Some a => k a rd
  | None => rd
  end.

(** The tests of the first eight stages are [!==], on numbers [num_same]
    and [int_same].  In the style stage [Object.assign(style, getStyle(...))]
    writes the five values into the object that [style] is bound to, in
    place: [set_style] gives that object its new content, [styleObject] stays
    what it is.  (When the style given is the caller's object that [style]
    is bound to, [getStyle] returns that same object, and [params] is what
    it holds.) *)
Definition setProps (props : PartialProps) (rd : Renderer) : Renderer :=
  let rd :=
    whenChanged (opt_backgroundColor props) int_same (backgroundColor (p rd)) (fun c rd =>
      let rd := set_p (with_backgroundColor c (p rd)) rd in
      let rd := set_bgColor (Color_toVec3Normalized (backgroundColor (p rd))) rd in
      updateUniform "uFogColor" (UVec3 (bgColor rd)) rd) rd in
  let rd :=
    whenChanged (opt_pickingAlphaThreshold props) num_same (pickingAlphaThreshold (p rd))
      (fun x rd =>
        let rd := set_p (with_pickingAlphaThreshold x (p rd)) rd in
        updateUniform "uPickingAlphaThreshold" (UNum (pickingAlphaThreshold (p rd))) rd) rd in
  let rd :=
    whenChanged (opt_transparencyVariant props) String.eqb (transparencyVariant (p rd))
      (fun x rd => set_p (with_transparencyVariant x (p rd)) rd) rd in
  let rd :=
    whenChanged (opt_interiorDarkening props) num_same (interiorDarkening (p rd))
      (fun x rd =>
        let rd := set_p (with_interiorDarkening x (p rd)) rd in
        updateUniform "uInteriorDarkening" (UNum (interiorDarkening (p rd))) rd) rd in
  let rd :=
    whenChanged (opt_interiorColorFlag props) Bool.eqb (interiorColorFlag (p rd))
      (fun x rd =>
        let rd := set_p (with_interiorColorFlag x (p rd)) rd in
        updateUniform "uInteriorColorFlag" (UBool (interiorColorFlag (p rd))) rd) rd in
  let rd :=
    whenChanged (opt_interiorColor props) int_same (interiorColor (p rd)) (fun x rd =>
      let rd := set_p (with_interiorColor x (p rd)) rd in
      updateUniform "uInteriorColor" (UVec3 (Color_toVec3Normalized (interiorColor (p rd)))) rd)
      rd in
  let rd :=
    whenChanged (opt_highlightColor props) int_same (highlightColor (p rd)) (fun x rd =>
      let rd := set_p (with_highlightColor x (p rd)) rd in
      updateUniform "uHighlightColor" (UVec3 (Color_toVec3Normalized (highlightColor (p rd)))) rd)
      rd in
  let rd :=
    whenChanged (opt_selectColor props) int_same (selectColor (p rd)) (fun x rd =>
      let rd := set_p (with_selectColor x (p rd)) rd in
      updateUniform "uSelectColor" (UVec3 (Color_toVec3Normalized (selectColor (p rd)))) rd)
      rd in
  let rd :=
    whenDefined (opt_style props) (fun s rd =>
      let rd := set_p (with_style s (p rd)) rd in
      let rd := set_style (getStyle s) rd in
      let rd := updateUniformIfChanged "uLightIntensity" (UNum (lightIntensity (style rd))) rd in
      let rd := updateUniformIfChanged "uAmbientIntensity" (UNum (ambientIntensity (style rd))) rd in
      let rd := updateUniformIfChanged "uMetalness" (UNum (metalness (style rd))) rd in
      let rd := updateUniformIfChanged "uRoughness" (UNum (roughness (style rd))) rd in
      updateUniformIfChanged "uReflectivity" (UNum (reflectivity (style rd))) rd) rd in
  whenChanged (opt_clip props) deepEqual (props_clip (p rd)) (fun c rd =>
    let rd := set_p (with_clip c (p rd)) rd in
    let rd := set_clip (getClip c (Some (clip rd))) rd in
    let rd := updateUniform "uClipObjectPosition" (UArr (position (objects (clip rd)))) rd in
    let rd := updateUniform "uClipObjectRotation" (UArr (rotation (objects (clip rd)))) rd in
    let rd := updateUniform "uClipObjectScale" (UArr (scale (objects (clip rd)))) rd in
    updateUniform "uClipObjectType" (UArr (type (objects (clip rd)))) rd) rd.

(** The test of line 598 is [!==] on the four numbers. *)
Definition setViewport (x y width height : jsint) (rd : Renderer) : G Renderer :=
  gl_viewport x y width height;;
  gl_scissor x y width height;;
  let '(vx, vy, vwidth, vheight) := viewport rd in
  if negb (int_same x vx) || negb (int_same y vy)
     || negb (int_same width vwidth) || negb (int_same height vheight) then
    let rd := set_rendererViewport (x, y, width, height) rd in
    let rd := updateUniform "uViewportHeight" (UNum (num_of_int height)) rd in
    let rd :=
      updateUniform "uViewport"
        (UVec [num_of_int x; num_of_int y; num_of_int width; num_of_int height]) rd in
    whenSome (wboitATexture rd) (fun t => texture_define t width height);;
    whenSome (wboitBTexture rd) (fun t => texture_define t width height);;
    ctx ← getCtx;
    fbs ←
      (if drawBuffers (extensions ctx) then
         fb ← element (wboitFramebuffers rd) 0; framebuffer_destroy fb;;
         fb0 ← resources_framebuffer;
         mret [fb0]
       else
         fb ← element (wboitFramebuffers rd) 0; framebuffer_destroy fb;;
         fb ← element (wboitFramebuffers rd) 1; framebuffer_destroy fb;;
         fb0 ← resources_framebuffer;
         fb1 ← resources_framebuffer;
         mret [fb0; fb1]);
    attachWboitTextures (drawBuffers (extensions ctx)) fbs (wboitATexture rd) (wboitBTexture rd);;
    mret (set_wboitFramebuffers fbs rd)
  else mret rd.

Definition stats (ctx : WebGLContext) : RendererStats :=
  mkStats (count_framebuffer (resources ctx)) (count_texture (resources ctx)).

(** The body of [dispose] is the comment [// TODO]. *)
Definition dispose (rd : Renderer) : G unit := mret tt.

(** ** Using a renderer: a sequence of method calls *)

Inductive Call :=
| CallRender (renderTarget : option nat) (group : Group) (camera : Camera)
    (variant : GraphicsRenderVariant) (clear transparentBackground : bool)
    (depthTexture : option nat) (renderTransparent : bool)
| CallClear (transparentBackground : bool)
| CallSetProps (props : PartialProps)
| CallSetViewport (x y width height : jsint)
| CallDispose.

Definition call (c : Call) (rd : Renderer) : G Renderer :=
  match c with
  | CallRender renderTarget group camera variant clr tb depthTexture renderTransparent =>
      '(_, rd) ← render renderTarget group camera variant clr tb depthTexture renderTransparent rd;
      mret rd
  | CallClear tb => clear tb rd;; mret rd
  | CallSetProps props => mret (setProps props rd)
  | CallSetViewport x y width height => setViewport x y width height rd
  | CallDispose => dispose rd;; mret rd
  end.

Fixpoint calls (cs : list Call) (rd : Renderer) : G Renderer :=
  match cs with
  | [] => mret rd
  | c :: rest => rd ← call c rd; calls rest rd
  end.

(** A renderer made on [ctx] with [props] and then used through [cs]. *)
Definition session (props : PartialProps) (cs : list Call) : G Renderer :=
  rd ← create props; calls cs rd.

End Model.

(** * Reading a trace *)

(** The part of a trace that decides what ends up in which image: framebuffer
    binds, clears, draws and the resolve quad, each with its target and with
    the blend function in force ([None]: blending disabled). *)
Inductive Step :=
| SBind (b : Binding)
| SClear (colorBit depthBit : bool) (target : Binding) (color : Vec4) (cleared : list nat)
| SDraw (r : nat) (target : Binding) (blend : option BlendFunc)
| SResolve (tA tB : nat) (target : Binding) (blend : option BlendFunc).

Definition blending (st : WebGLState) : option BlendFunc :=
  if st_blend st then Some (st_blendFunc st) else None.

Definition step_of (e : GLEvent) : option Step :=
  match e with
  | EvBindFramebuffer b => Some (SBind b)
  | EvClear c d st cleared => Some (SClear c d (st_bound st) (st_clearColor st) cleared)
  | EvDraw r _ _ st => Some (SDraw r (st_bound st) (blending st))
  | EvDrawQuad a b st => Some (SResolve a b (st_bound st) (blending st))
  | _ => None
  end.

Definition passes (tr : list GLEvent) : list Step := omap step_of tr.

(** The drawables drawn, in order. *)
Definition drawn (tr : list GLEvent) : list nat :=
  omap (fun e => match e with EvDraw r _ _ _ => Some r | _ => None end) tr.

(** A scene as the render loops see it: the identity and the flags of each
    drawable. *)
Definition scene_of (rs : list Renderable) : list (nat * RenderableState) :=
  map (fun r => (r_id r, r_state r)) rs.
#[global] Arguments scene_of : simpl never.

(** [renderObject] returns early on a drawable that is not [drawable]. *)
Definition drawable (v : GraphicsRenderVariant) (s : RenderableState) : bool :=
  visible s && (pickable s || negb (isPick v)).

(** The draws of one loop: the drawables selected by [sel] that pass the
    guard of [renderObject], each on [target] under [blend]. *)
Definition bucketDraws (sel : RenderableState -> bool) (v : GraphicsRenderVariant)
    (target : Binding) (blend : option BlendFunc) (sc : list (nat * RenderableState))
    : list Step :=
  map (fun x => SDraw (fst x) target blend)
    (List.filter (fun x => sel (snd x) && drawable v (snd x)) sc).

Definition targetBinding (renderTarget : option nat) : Binding :=
  match renderTarget with
  | Some rt => RenderTargetFramebuffer rt
  | None => DefaultFramebuffer
  end.

(** The images that a color clear of framebuffer [fb] writes. *)
Definition clearedBy (fb : nat) (ctx : WebGLContext) : list nat :=
  match framebuffers (resources ctx) !! fb with
  | Some f => omap (attachment_of f) (fb_drawBuffers f)
  | None => []
  end.

(** The part of the context that decides where a draw goes and how it is
    blended, and the resources. *)
Definition passState (c : WebGLContext) :=
  (extensions c, resources c, st_blend (state c), st_blendFunc (state c), st_bound (state c)).

(** The closure variables other than the uniform block and its dirty flag. *)
Definition ownership (rd : Renderer) :=
  (p rd, style rd, clip rd, viewport rd, bgColor rd, enableWboit rd,
   wboitATexture rd, wboitBTexture rd, evaluateWboitRenderable rd, wboitFramebuffers rd).

(** The capability gate of line 180. *)
Definition wboitCapable (ext : Extensions) : bool :=
  textureFloat ext && colorBufferFloat ext && depthTexture ext.

(** ** What a render call is expected to do *)

Definition ALPHA_BLEND : BlendFunc := (SRC_ALPHA, ONE_MINUS_SRC_ALPHA, ONE, ONE).
Definition ACCUMULATE : BlendFunc := (ONE, ONE, ZERO, ONE_MINUS_SRC_ALPHA).
Definition RESOLVE : BlendFunc := (ONE_MINUS_SRC_ALPHA, SRC_ALPHA, ZERO, ONE).

Definition white : Vec4 := (n1, n1, n1, n1).
Definition accumClear : Vec4 := (n0, n0, n0, n1).

Definition background (bg : Vec3) (transparentBackground : bool) : Vec4 :=
  let '(r, g, b) := bg in (r, g, b, if transparentBackground then n0 else n1).

(** The optional clear at the start of [render]. *)
Definition clearSteps (v : GraphicsRenderVariant) (clear transparentBackground : bool)
    (target : Binding) (bg : Vec3) : list Step :=
  if clear then
    [SClear true true target
       (if isColor v then background bg transparentBackground else white) []]
  else [].

(** The three loops, all on one target under one blend state. *)
Definition bucketsDraws (v : GraphicsRenderVariant) (target : Binding)
    (blend : option BlendFunc) (sc : list (nat * RenderableState)) : list Step :=
  bucketDraws isOpaque v target blend sc
  ++ bucketDraws isTransparentWriteDepth v target blend sc
  ++ bucketDraws isTransparentNoDepth v target blend sc.

(** Ordered alpha blending: the path taken when WBOIT is disabled. *)
Definition orderedBlendSteps (v : GraphicsRenderVariant) (target : Binding)
    (sc : list (nat * RenderableState)) : list Step :=
  bucketDraws isOpaque v target None sc
  ++ bucketDraws isTransparentWriteDepth v target (Some ALPHA_BLEND) sc
  ++ bucketDraws isTransparentNoDepth v target (Some ALPHA_BLEND) sc.

(** The WBOIT transparent sub-pass: accumulate into framebuffer [fb], then
    resolve onto the target. *)
Definition wboitSteps (v : GraphicsRenderVariant) (target : Binding) (fb : nat)
    (cleared : list nat) (q : option EvaluateWboitRenderable)
    (sc : list (nat * RenderableState)) : list Step :=
  [SBind (FramebufferObject fb); SClear true false (FramebufferObject fb) accumClear cleared]
  ++ bucketsDraws v (FramebufferObject fb) (Some ACCUMULATE) sc
  ++ [SBind target]
  ++ match q with
     | Some q => [SResolve (tWboitA q) (tWboitB q) target (Some RESOLVE)]
     | None => []
     end.

Definition bodySteps (rd : Renderer) (ctx : WebGLContext) (v : GraphicsRenderVariant)
    (target : Binding) (renderTransparent : bool) (sc : list (nat * RenderableState))
    : list Step :=
  if isColor v then
    if enableWboit rd then
      if negb renderTransparent then bucketsDraws v target None sc
      else
        match wboitFramebuffers rd with
        | fb :: _ =>
            wboitSteps v target fb (clearedBy fb ctx) (evaluateWboitRenderable rd) sc
        | [] => []
        end
    else orderedBlendSteps v target sc
  else
    if negb renderTransparent then bucketDraws notColorOnly v target None sc
    else [].

Definition expectedPasses (rd : Renderer) (ctx : WebGLContext) (renderTarget : option nat)
    (rs : list Renderable) (v : GraphicsRenderVariant) (clear transparentBackground : bool)
    (renderTransparent : bool) : list Step :=
  let target := targetBinding renderTarget in
  [SBind target]
  ++ clearSteps v clear transparentBackground target (bgColor rd)
  ++ bodySteps rd ctx v target renderTransparent (scene_of rs).

(** A render call takes the WBOIT path when it binds one of the renderer's
    own framebuffers. *)
Definition bindsOwnFramebuffer (s : Step) : bool :=
  match s with
  | SBind (FramebufferObject _) => true
  | _ => false
  end.

Definition usesWboit (tr : list GLEvent) : bool := existsb bindsOwnFramebuffer (passes tr).

(** The drawables of a step list, in order. *)
Definition drawnSteps (ss : list Step) : list nat :=
  omap (fun s => match s with SDraw r _ _ => Some r | _ => None end) ss.

(** [m] run on [ctx] returns, and its result, final context and trace satisfy
    [post]. *)
Definition returns {A} (m : G A) (ctx : WebGLContext)
    (post : A -> WebGLContext -> list GLEvent -> Prop) : Prop :=
  match m ctx with
  | Some (a, ctx', tr) => post a ctx' tr
  | None => False
  end.

(** * Sample inputs *)

(** The state of a fresh WebGL context. *)
Definition initialState : WebGLState :=
  mkState false false false false CCW BACK true (true, true, true, true)
    (ONE, ZERO, ONE, ZERO) (n0, n0, n0, n0) (Num 0, Num 0, Num 0, Num 0)
    (Num 0, Num 0, Num 0, Num 0)
    DefaultFramebuffer (-1) (-1).

Definition freshContext (ext : Extensions) : WebGLContext :=
  mkContext ext initialState (mkResources ∅ ∅ 0 0 0) n1.

(** All extensions present; float textures missing; draw buffers missing. *)
Definition fullExtensions : Extensions := mkExtensions true true true true true.
Definition noFloatExtensions : Extensions := mkExtensions true false true true true.
Definition noDrawBuffersExtensions : Extensions := mkExtensions false true true true true.

Definition sampleValues : RenderableValues :=
  mkValues (ValueCell.create 0%nat) (ValueCell.create "instance")
    (ValueCell.create "single") None None (ValueCell.create false) None.

Definition sampleRenderable (id : nat) (visible pickable opaque writeDepth colorOnly : bool)
    : Renderable :=
  mkRenderable id (mkRenderableState visible pickable opaque writeDepth colorOnly)
    sampleValues (fun _ => Z.of_nat id).

Definition sampleCamera : Camera :=
  mkCamera true n1 (Num (inject_Z 100)) n1 (Num (inject_Z 100)).

Definition sampleClipObject : ClipObject :=
  mkClipObject "sphere" (n1, n1, n1) (n1, n0, n0) n0
    (Num (inject_Z 2), Num (inject_Z 2), Num (inject_Z 2)).

(** The closure variables as construction with the style [s] sets them, the
    GPU resources left out: [setProps] neither reads nor writes those. *)
Definition sampleRenderer (s : StyleProps) : Renderer :=
  let q := with_style s defaultProps in
  let clip := getClip (props_clip q) None in
  let viewport : Rect := (Num 0, Num 0, Num 0, Num 0) in
  let bg := Color_toVec3Normalized (backgroundColor q) in
  mkRenderer q (getStyle s) (getStyle_object s) clip viewport bg false None None None []
    (initialUniforms (freshContext noFloatExtensions) q (getStyle s) clip viewport bg) true.

(** [{ pickingAlphaThreshold: x }] and [{ style: s }] *)
Definition onlyPickingAlphaThreshold (x : num) : PartialProps :=
  mkPartial None (Some x) None None None None None None None None.

Definition onlyStyle (s : StyleProps) : PartialProps :=
  mkPartial None None None None None None None None (Some s) None.

(** * Invariant of a renderer in use *)

Section Invariant.
Context `{MathLib}.

(** What [create] establishes and every method keeps: the capability
    decision, the normalized background color, the number of framebuffers
    the branches on [drawBuffers] index into, the attachments of the
    framebuffer that [render] binds for accumulation, the framebuffers and
    textures of the renderer being alive, and the count of the clip state. *)
Definition wf (rd : Renderer) (ctx : WebGLContext) : Prop :=
  enableWboit rd = wboitCapable (extensions ctx) /\
  bgColor rd = Color_toVec3Normalized (backgroundColor (p rd)) /\
  match wboitFramebuffers rd with
  | fb0 :: rest =>
      (drawBuffers (extensions ctx) = false -> rest <> []) /\
      if enableWboit rd then
        exists a b,
          a <> b /\ wboitATexture rd = Some a /\ wboitBTexture rd = Some b /\
          evaluateWboitRenderable rd = Some (mkEvaluate a b) /\
          framebuffers (resources ctx) !! fb0 =
            Some (if drawBuffers (extensions ctx)
                  then mkFramebuffer (Some a) (Some b) COLOR01
                  else mkFramebuffer (Some a) None [COLOR_ATTACHMENT0])
      else
        wboitATexture rd = None /\ wboitBTexture rd = None /\
        evaluateWboitRenderable rd = None
  | [] => False
  end /\
  Forall (fun fb => is_Some (framebuffers (resources ctx) !! fb)) (wboitFramebuffers rd) /\
  (forall t, wboitATexture rd = Some t \/ wboitBTexture rd = Some t ->
     is_Some (textures (resources ctx) !! t)) /\
  count (objects (clip rd)) = length (cp_objects (props_clip (p rd))).

(** No more clip objects are configured than the arrays have slots. *)
Definition clipBounded (props : PartialProps) : Prop :=
  match opt_clip props with
  | Some c => (length (cp_objects c) <= 5)%nat
  | None => True
  end.

Definition callBounded (c : Call) : Prop :=
  match c with
  | CallSetProps props => clipBounded props
  | _ => True
  end.

End Invariant.

(** ** Vocabulary of the properties *)

(** The textures written by the color clears of a trace. *)
Definition texturesCleared (tr : list GLEvent) : list nat :=
  concat (omap (fun e => match e with
                         | EvClear true _ _ cleared => Some cleared
                         | _ => None
                         end) tr).

(** The framebuffers created and deleted in a trace. *)
Definition framebuffersCreated (tr : list GLEvent) : list nat :=
  omap (fun e => match e with EvCreateFramebuffer fb => Some fb | _ => None end) tr.

Definition framebuffersDeleted (tr : list GLEvent) : list nat :=
  omap (fun e => match e with EvDeleteFramebuffer fb => Some fb | _ => None end) tr.

(** [{ backgroundColor: c }] and [{ clip: c }] *)
Definition onlyBackgroundColor (c : Color) : PartialProps :=
  mkPartial (Some c) None None None None None None None None None.

Definition onlyClip (c : ClipProps) : PartialProps :=
  mkPartial None None None None None None None None None (Some c).

(** The blend state under which drawable [r] is first drawn. *)
Fixpoint blendOf (r : nat) (ss : list Step) : option (option BlendFunc) :=
  match ss with
  | [] => None
  | SDraw r' _ blend :: rest => if Nat.eqb r r' then Some blend else blendOf r rest
  | _ :: rest => blendOf r rest
  end.

(** Slot [i] of the clip arrays: type, scale and rotation. *)
Definition slotType (o : ClipObjects) (i : nat) : list (option num) :=
  take 1 (drop i (type o)).
Definition slotPosition (o : ClipObjects) (i : nat) : list (option num) :=
  take 3 (drop (i * 3) (position o)).
Definition slotRotation (o : ClipObjects) (i : nat) : list (option num) :=
  take 4 (drop (i * 4) (rotation o)).
Definition slotScale (o : ClipObjects) (i : nat) : list (option num) :=
  take 3 (drop (i * 3) (scale o)).

Definition identityQuat : list (option num) := [Some n0; Some n0; Some n0; Some n1].
Definition zeroQuat : list (option num) := [Some n0; Some n0; Some n0; Some n0].
Definition unitScale : list (option num) := [Some n1; Some n1; Some n1].
Definition origin : list (option num) := [Some n0; Some n0; Some n0].

(** The arrays have the capacity of five clip objects. *)
Definition fiveSlots (o : ClipObjects) : Prop :=
  length (type o) = 5%nat /\ length (position o) = 15%nat /\
  length (rotation o) = 20%nat /\ length (scale o) = 15%nat.

(** The clip state as the specification words it: five slots, and past the
    configured count the type plane, the scale (1,1,1) and the identity
    rotation. *)
Definition neutralBeyondCount `{MathLib} (o : ClipObjects) : Prop :=
  fiveSlots o /\
  forall i, (count o <= i < 5)%nat ->
    slotType o i = [Some (Clipping_Type "plane")] /\
    slotScale o i = unitScale /\
    slotRotation o i = identityQuat.

(** What [getClip] does leave past the count when it starts from fresh
    arrays: the rotation is all zero. *)
Definition defaultsBeyondCount `{MathLib} (o : ClipObjects) : Prop :=
  fiveSlots o /\
  forall i, (count o <= i < 5)%nat ->
    slotType o i = [Some (Clipping_Type "plane")] /\
    slotPosition o i = origin /\
    slotScale o i = unitScale /\
    slotRotation o i = zeroQuat.

(** The slots past the count of [o'] are those of [o]. *)
Definition keepsBeyondCount (o o' : ClipObjects) : Prop :=
  forall i, (count o' <= i < 5)%nat ->
    slotType o' i = slotType o i /\
    slotPosition o' i = slotPosition o i /\
    slotScale o' i = slotScale o i /\
    slotRotation o' i = slotRotation o i.

(** The color and the alpha of a clear color. *)
Definition rgb (c : Vec4) : Vec3 := let '(r, g, b, _) := c in (r, g, b).
Definition alpha (c : Vec4) : num := let '(_, _, _, a) := c in a.

(** The source and destination factors applied to the color channels. *)
Definition colorFactors (f : BlendFunc) : BlendFactor * BlendFactor :=
  let '(srcRGB, dstRGB, _, _) := f in (srcRGB, dstRGB).

(** The blending of the two transparent buckets as the specification words
    it: the drawable [twd] of the depth-writing bucket and the drawable [tnd]
    of the other bucket are drawn under two different blend functions, the
    first SRC_ALPHA/ONE_MINUS_SRC_ALPHA, the second ONE/ONE. *)
Definition separateBlendFunctions (ss : list Step) (twd tnd : nat) : Prop :=
  exists f2 f3,
    blendOf twd ss = Some (Some f2) /\ blendOf tnd ss = Some (Some f3) /\
    f2 <> f3 /\
    colorFactors f2 = (SRC_ALPHA, ONE_MINUS_SRC_ALPHA) /\
    colorFactors f3 = (ONE, ONE).

(** The drawables of a scene in the order of the three color loops. *)
Definition colorOrder (rs : list Renderable) : list Renderable :=
  List.filter (fun r => opaque (r_state r)) rs
  ++ List.filter (fun r => negb (opaque (r_state r)) && writeDepth (r_state r)) rs
  ++ List.filter (fun r => negb (opaque (r_state r)) && negb (writeDepth (r_state r))) rs.

(** The textures written by the color clears of a step list. *)
Definition stepsCleared (ss : list Step) : list nat :=
  concat (omap (fun s => match s with
                         | SClear true _ _ _ cleared => Some cleared
                         | _ => None
                         end) ss).

(** Two sample scenes: one transparent drawable per bucket; and a mixed one
    with an invisible, a color-only and a non-pickable drawable. *)
Definition twoTransparent : Group :=
  mkGroup [sampleRenderable 1 true true false true false;
           sampleRenderable 2 true true false false false].

Definition mixedScene : Group :=
  mkGroup [sampleRenderable 1 true true false false false;
           sampleRenderable 2 true true true true false;
           sampleRenderable 3 true true false true false;
           sampleRenderable 4 false true true true false;
           sampleRenderable 5 true true true true true;
           sampleRenderable 6 true false true true false].

(** ** Vocabulary of the further properties *)

(** The entries that [Vec3.toArray] and [Quat.toArray] write. *)
Definition vec3_entries (v : Vec3) : jsarray :=
  let '(x, y, z) := v in [Some x; Some y; Some z].

Definition quat_entries (q : Quat) : jsarray :=
  let '(x, y, z, w) := q in [Some x; Some y; Some z; Some w].

(** The arrays have room for [k] clip objects. *)
Definition capacity (k : nat) (o : ClipObjects) : Prop :=
  length (type o) = k /\ length (position o) = (k * 3)%nat /\
  length (rotation o) = (k * 4)%nat /\ length (scale o) = (k * 3)%nat.

Section ClipVocabulary.
Context `{MathLib}.

(** What the loop of [getClip] writes for the clip objects [objs], array by
    array. *)
Definition typeEntries (objs : list ClipObject) : jsarray :=
  map (fun o => Some (Clipping_Type (co_type o))) objs.

Definition positionEntries (objs : list ClipObject) : jsarray :=
  concat (map (fun o => vec3_entries (co_position o)) objs).

Definition rotationEntries (objs : list ClipObject) : jsarray :=
  concat (map (fun o =>
            quat_entries (Quat_setAxisAngle (co_axis o) (degToRad (co_angle o)))) objs).

Definition scaleEntries (objs : list ClipObject) : jsarray :=
  concat (map (fun o => vec3_entries (co_scale o)) objs).

(** The arrays [getClip] starts from: those of the clip state handed in, or
    the fresh ones of lines 147-150. *)
Definition startArrays (clip : option Clip) : ClipObjects :=
  match clip with
  | Some c => objects c
  | None =>
      mkClipObjects 0 (Array_fill 5 n1) (Array_fill (5 * 3) n0)
        (Array_fill (5 * 4) n0) (Array_fill (5 * 3) n1)
  end.

End ClipVocabulary.
(** ** Uniforms and parameters *)

(** The cell of the global uniform [k] holds [v]; and: holds [v] or a value
    that [ValueCell.updateIfChanged] does not tell from [v]. *)
Definition uniformIs (rd : Renderer) (k : string) (v : UValue) : Prop :=
  exists c, globalUniforms rd !! k = Some c /\ value c = v.

Definition uniformSame (rd : Renderer) (k : string) (v : UValue) : Prop :=
  exists c, globalUniforms rd !! k = Some c /\
    (value c = v \/ uvalue_same (value c) v = true).

(** The version of the cell of [k]. *)
Definition uniformVersion (rd : Renderer) (k : string) : option nat :=
  version <$> globalUniforms rd !! k.

(** Two sets of parameters that are the same or that the tests of
    [setProps] do not tell apart: [!==] on colors, numbers, strings and
    booleans, [deepEqual] on the clip parameters; the style is not compared. *)
Definition sameProps (a b : RendererProps) : Prop :=
  backgroundColor a = backgroundColor b /\
  (pickingAlphaThreshold a = pickingAlphaThreshold b \/
   num_same (pickingAlphaThreshold a) (pickingAlphaThreshold b) = true) /\
  transparencyVariant a = transparencyVariant b /\
  (interiorDarkening a = interiorDarkening b \/
   num_same (interiorDarkening a) (interiorDarkening b) = true) /\
  interiorColorFlag a = interiorColorFlag b /\
  interiorColor a = interiorColor b /\
  highlightColor a = highlightColor b /\
  selectColor a = selectColor b /\
  props_style a = props_style b /\
  (props_clip a = props_clip b \/ deepEqual (props_clip a) (props_clip b) = true).

(** No number of the parameters given is [NaN]. *)
Definition vec3_defined (v : Vec3) : Prop :=
  let '(x, y, z) := v in x <> NaN /\ y <> NaN /\ z <> NaN.

Definition style_defined (s : StyleValues) : Prop :=
  lightIntensity s <> NaN /\ ambientIntensity s <> NaN /\ metalness s <> NaN /\
  roughness s <> NaN /\ reflectivity s <> NaN.

Definition clipObject_defined (o : ClipObject) : Prop :=
  vec3_defined (co_position o) /\ vec3_defined (co_axis o) /\ co_angle o <> NaN /\
  vec3_defined (co_scale o).

Definition given {A} (o : option A) (P : A -> Prop) : Prop :=
  match o with
  | Some a => P a
  | None => True
  end.

Definition props_defined (props : PartialProps) : Prop :=
  given (opt_backgroundColor props) (fun c => c <> NaN) /\
  given (opt_pickingAlphaThreshold props) (fun x => x <> NaN) /\
  given (opt_interiorDarkening props) (fun x => x <> NaN) /\
  given (opt_interiorColor props) (fun c => c <> NaN) /\
  given (opt_highlightColor props) (fun c => c <> NaN) /\
  given (opt_selectColor props) (fun c => c <> NaN) /\
  given (opt_style props) (fun s => style_defined (getStyle s)) /\
  given (opt_clip props) (fun c => Forall clipObject_defined (cp_objects c)).

(** [updateIfChanged] of the uniform [k] with [v] finds nothing to change. *)
Definition settled (r : Renderer) (k : string) (v : num) : Prop :=
  forall c, globalUniforms r !! k = Some c -> uvalue_same (value c) (UNum v) = true.

Definition styleSettled (s : StyleProps) (r : Renderer) : Prop :=
  style r = getStyle s /\
  settled r "uLightIntensity" (lightIntensity (getStyle s)) /\
  settled r "uAmbientIntensity" (ambientIntensity (getStyle s)) /\
  settled r "uMetalness" (metalness (getStyle s)) /\
  settled r "uRoughness" (roughness (getStyle s)) /\
  settled r "uReflectivity" (reflectivity (getStyle s)).

Section UniformVocabulary.
Context `{MathLib}.

(** The uniforms that mirror the parameters, the style, the clip state and
    the viewport hold what those hold. *)
Definition mirrored (rd : Renderer) : Prop :=
  let '(x, y, w, h) := viewport rd in
  style rd = getStyle (props_style (p rd)) /\
  variant (clip rd) = cp_variant (props_clip (p rd)) /\
  uniformIs rd "uFogColor" (UVec3 (bgColor rd)) /\
  uniformIs rd "uPickingAlphaThreshold" (UNum (pickingAlphaThreshold (p rd))) /\
  uniformIs rd "uInteriorDarkening" (UNum (interiorDarkening (p rd))) /\
  uniformIs rd "uInteriorColorFlag" (UBool (interiorColorFlag (p rd))) /\
  uniformIs rd "uInteriorColor" (UVec3 (Color_toVec3Normalized (interiorColor (p rd)))) /\
  uniformIs rd "uHighlightColor" (UVec3 (Color_toVec3Normalized (highlightColor (p rd)))) /\
  uniformIs rd "uSelectColor" (UVec3 (Color_toVec3Normalized (selectColor (p rd)))) /\
  uniformSame rd "uLightIntensity" (UNum (lightIntensity (style rd))) /\
  uniformSame rd "uAmbientIntensity" (UNum (ambientIntensity (style rd))) /\
  uniformSame rd "uMetalness" (UNum (metalness (style rd))) /\
  uniformSame rd "uRoughness" (UNum (roughness (style rd))) /\
  uniformSame rd "uReflectivity" (UNum (reflectivity (style rd))) /\
  uniformIs rd "uClipObjectType" (UArr (type (objects (clip rd)))) /\
  uniformIs rd "uClipObjectPosition" (UArr (position (objects (clip rd)))) /\
  uniformIs rd "uClipObjectRotation" (UArr (rotation (objects (clip rd)))) /\
  uniformIs rd "uClipObjectScale" (UArr (scale (objects (clip rd)))) /\
  uniformIs rd "uViewport" (UVec [num_of_int x; num_of_int y; num_of_int w; num_of_int h]) /\
  uniformIs rd "uViewportHeight" (UNum (num_of_int h)).

End UniformVocabulary.
(** ** Draw calls *)

(** The five settings that [renderObject] makes before a draw call: face
    culling, winding, culled face, depth test and depth writes. *)
Definition DrawFlags := (bool * Winding * Face * bool * bool)%type.

Definition flagsOf (st : WebGLState) : DrawFlags :=
  (st_cullFace st, st_frontFace st, st_cullFaceMode st, st_depthTest st, st_depthMask st).

(** The settings of lines 309-353 for the drawable [r], given whether the
    extension [fragDepth] is there. *)
Definition objectFlags (fragDepthExt : bool) (r : Renderable) : DrawFlags :=
  match dRenderMode (r_values r) with
  | Some mode =>
      if String.eqb (value mode) "volume" || negb fragDepthExt
      then (true, CW, BACK, false, false)
      else (true, CW, BACK, true, writeDepth (r_state r))
  | None =>
      (match dDoubleSided (r_values r) with
       | Some d => negb (value d || value (hasReflection (r_values r)))
       | None => false
       end,
       match dFlipSided (r_values r) with
       | Some f => if value f then CW else CCW
       | None => CCW
       end,
       match dFlipSided (r_values r) with
       | Some f => if value f then FRONT else BACK
       | None => BACK
       end,
       true, writeDepth (r_state r))
  end.

Definition with_flags (f : DrawFlags) (s : WebGLState) : WebGLState :=
  mkState (st_blend s) (snd (fst f)) (st_scissorTest s) (fst (fst (fst (fst f))))
    (snd (fst (fst (fst f)))) (snd (fst (fst f))) (snd f)
    (st_colorMask s) (st_blendFunc s) (st_clearColor s) (st_viewport s) (st_scissor s)
    (st_bound s) (currentProgramId s) (currentRenderItemId s).

(** The GL state that [renderObject] leaves alone. *)
Definition frameOf (st : WebGLState) :=
  (st_blend st, st_scissorTest st, st_colorMask st, st_blendFunc st, st_clearColor st,
   st_viewport st, st_scissor st, st_bound st, currentRenderItemId st).

(** The drawable [r] with its three defines brought in step with the
    renderer, and whether any of them had to change. *)
Definition synced (rd : Renderer) (r : Renderable) : Renderable :=
  mkRenderable (r_id r) (r_state r) (fst (syncDefines (r_values r) rd)) (r_program r).

Definition definesDiffer (rd : Renderer) (r : Renderable) : bool :=
  snd (syncDefines (r_values r) rd).

(** The state that a draw, a clear or the resolve quad is issued under. *)
Definition stateOf (e : GLEvent) : option WebGLState :=
  match e with
  | EvDraw _ _ _ st | EvClear _ _ st _ | EvDrawQuad _ _ st => Some st
  | _ => None
  end.

(** The drawables whose defines were recompiled, in order. *)
Definition definesUpdated (tr : list GLEvent) : list nat :=
  omap (fun e => match e with EvUpdateDefines r => Some r | _ => None end) tr.

(** The uniform blocks uploaded, in order. *)
Definition uniformsUploaded (tr : list GLEvent) : list GlobalUniformValues :=
  omap (fun e => match e with EvSetUniforms u => Some u | _ => None end) tr.

(** Runs over a trace and tells whether every draw call finds the uniform
    block uploaded to the program in use: [fresh] says so for the start of the
    trace, a program switch makes it stale, an upload fresh. *)
Fixpoint uploadsBeforeDraws (fresh : bool) (tr : list GLEvent) : bool :=
  match tr with
  | [] => true
  | EvUseProgram _ :: rest => uploadsBeforeDraws false rest
  | EvSetUniforms _ :: rest => uploadsBeforeDraws true rest
  | EvDraw _ _ _ _ :: rest => fresh && uploadsBeforeDraws fresh rest
  | _ :: rest => uploadsBeforeDraws fresh rest
  end.

(** Whether the trace ends with the uniform block fresh. *)
Fixpoint freshAfter (fresh : bool) (tr : list GLEvent) : bool :=
  match tr with
  | [] => fresh
  | EvUseProgram _ :: rest => freshAfter false rest
  | EvSetUniforms _ :: rest => freshAfter true rest
  | _ :: rest => freshAfter fresh rest
  end.

(** The scissor test, the color mask and the two rectangles. *)
Definition rectOf (st : WebGLState) :=
  (st_scissorTest st, st_colorMask st, st_viewport st, st_scissor st).

(** What the loops need to know of a drawable: its id, its flags, the
    settings of its draw call and its program. *)
Definition Kind := (nat * RenderableState * DrawFlags * Z)%type.

Definition kindOf (fragDepthExt : bool) (v : GraphicsRenderVariant) (r : Renderable) : Kind :=
  (r_id r, r_state r, objectFlags fragDepthExt r, r_program r v).

(** What one of the loops of [render] may emit: draws of drawables of the
    scene under the rectangles [R], with the settings and the program of the
    drawable, uploads of the block [u], program switches and define updates. *)
Definition bucketEvent (v : GraphicsRenderVariant) (shared : list (string * nat))
    (R : bool * (bool * bool * bool * bool) * Rect * Rect) (u : GlobalUniformValues)
    (ks : list Kind) (e : GLEvent) : Prop :=
  match e with
  | EvDraw id v' shared' st =>
      v' = v /\ shared' = shared /\ rectOf st = R /\
      exists s, (id, s, flagsOf st, currentProgramId st) ∈ ks /\ drawable v s = true
  | EvSetUniforms u' => u' = u
  | EvUseProgram _ | EvUpdateDefines _ => True
  | _ => False
  end.

(** The drawable as the loops hand it back. *)
Definition afterBucket (sel : RenderableState -> bool) (v : GraphicsRenderVariant)
    (rd : Renderer) (r : Renderable) : Renderable :=
  if sel (r_state r) && drawable v (r_state r) then synced rd r else r.

(** What a loop over the drawables selected by [sel] does, from the renderer
    [rd] and the scene [rs] to the renderer [rd'], the scene [rs'] and the
    trace [tr]; [order] lists the drawables in the order of their turn. *)
Definition bucketRan (fragDepthExt : bool) (v : GraphicsRenderVariant)
    (shared : list (string * nat)) (R : bool * (bool * bool * bool * bool) * Rect * Rect)
    (sel : RenderableState -> bool) (order : list Renderable)
    (rd : Renderer) (rs rs' : list Renderable)
    (rd' : Renderer) (tr : list GLEvent) : Prop :=
  rs' = map (afterBucket sel v rd) rs /\
  (exists b, rd' = set_globalUniformsNeedUpdate b rd) /\
  Forall (bucketEvent v shared R (globalUniforms rd) (map (kindOf fragDepthExt v) rs)) tr /\
  (forall fresh, (globalUniformsNeedUpdate rd = false -> fresh = true) ->
     uploadsBeforeDraws fresh tr = true /\
     (globalUniformsNeedUpdate rd' = false -> freshAfter fresh tr = true)) /\
  definesUpdated tr
  = map r_id (List.filter (fun r => drawable v (r_state r) && definesDiffer rd r) order).

(** ** Render calls *)

(** The uniform block after the updates of lines 374-386, and of line 454 in
    a WBOIT sub-pass. *)
Definition renderUniforms (camera : Camera) (transparentBackground wboitPass : bool)
    (rd : Renderer) : GlobalUniformValues :=
  globalUniforms
    (let rd := updateCameraUniforms camera transparentBackground rd in
     if wboitPass then updateUniform "uRenderWboit" (UNum n1) rd else rd).

(** The drawables that get their turn in a render call, in order, and the
    test that selects them. *)
Definition renderOrder (v : GraphicsRenderVariant) (renderTransparent : bool)
    (rs : list Renderable) : list Renderable :=
  if isColor v then colorOrder rs
  else if renderTransparent then []
  else List.filter (fun r => notColorOnly (r_state r)) rs.

Definition renderSelects (v : GraphicsRenderVariant) (renderTransparent : bool)
    (s : RenderableState) : bool :=
  if isColor v then true else if renderTransparent then false else notColorOnly s.

Definition allChannels : bool * bool * bool * bool := (true, true, true, true).

(** What a render call may emit: what its loops emit, the viewport and the
    scissor rectangle set to [vp], binds, clears of the color buffer under the
    rectangles [vp] (with depth writes on when the depth buffer is cleared
    too), the resolve quad and the flush; nothing is created or deleted. *)
Definition renderEvent (v : GraphicsRenderVariant) (shared : list (string * nat))
    (vp : Rect) (u : GlobalUniformValues) (ks : list Kind) (e : GLEvent) : Prop :=
  match e with
  | EvViewport r | EvScissor r => r = vp
  | EvBindFramebuffer _ | EvFlush => True
  | EvClear colorBit depthBit st _ =>
      colorBit = true /\ rectOf st = (true, allChannels, vp, vp) /\
      (depthBit = true -> st_depthMask st = true)
  | EvDrawQuad _ _ st => rectOf st = (true, allChannels, vp, vp)
  | EvCreateFramebuffer _ | EvDeleteFramebuffer _ | EvCreateTexture _ | EvTexImage _ _ _
  | EvFramebufferTexture _ _ _ | EvDrawBuffers _ => False
  | _ => bucketEvent v shared (true, allChannels, vp, vp) u ks e
  end.

(** [localSharedTexturesList] *)
Definition sharedTextures (depthTexture : option nat) : list (string * nat) :=
  match depthTexture with
  | Some t => [("tDepth", t)]
  | None => []
  end.

(** ** Resources *)

(** The test of line 598. *)
Definition viewportChanged (x y width height : jsint) (vp : Rect) : bool :=
  let '(vx, vy, vwidth, vheight) := vp in
  negb (int_same x vx) || negb (int_same y vy)
  || negb (int_same width vwidth) || negb (int_same height vheight).

(** How many framebuffers [setViewport] replaces. *)
Definition replaced (ext : Extensions) : nat := if drawBuffers ext then 1%nat else 2%nat.

(** The accumulation textures have the size of the viewport. *)
Definition texturesSized (rd : Renderer) (ctx : WebGLContext) : Prop :=
  let '(_, _, w, h) := viewport rd in
  forall t, wboitATexture rd = Some t \/ wboitBTexture rd = Some t ->
    textures (resources ctx) !! t = Some (mkTexture w h).

(** The accumulation textures and the resource counters after
    [Renderer.create] on [ctx0]: what every renderer in use keeps. *)
Definition accounted (ctx0 : WebGLContext) (rd : Renderer) (ctx : WebGLContext) : Prop :=
  stats ctx
  = mkStats
      (framebufferCount (stats ctx0) + (if drawBuffers (extensions ctx0) then 2 else 3))
      (textureCount (stats ctx0) + (if wboitCapable (extensions ctx0) then 2 else 0)) /\
  texturesSized rd ctx.

(** ** Clip state and parameters *)

Section ClipState.
Context `{MathLib}.

(** The clip state holds the clip parameters: their number, their variant
    and, in the first slots of the arrays, their objects. *)
Definition clipHeld (rd : Renderer) : Prop :=
  let objs := cp_objects (props_clip (p rd)) in
  let o := objects (clip rd) in
  count o = length objs /\
  variant (clip rd) = cp_variant (props_clip (p rd)) /\
  take (length objs) (type o) = typeEntries objs /\
  take (length objs * 3) (position o) = positionEntries objs /\
  take (length objs * 4) (rotation o) = rotationEntries objs /\
  take (length objs * 3) (scale o) = scaleEntries objs.

(** The arrays have room for [k] objects, at least five and at least the
    configured ones. *)
Definition clipRoom (k : nat) (rd : Renderer) : Prop :=
  capacity k (objects (clip rd)) /\ (5 <= k)%nat /\
  (length (cp_objects (props_clip (p rd))) <= k)%nat.

End ClipState.

(** ** Defines of a drawable *)

Definition definesOf (r : Renderable) : nat * string * string :=
  (value (dClipObjectCount (r_values r)), value (dClipVariant (r_values r)),
   value (dTransparencyVariant (r_values r))).

Definition rendererDefines (rd : Renderer) : nat * string * string :=
  (count (objects (clip rd)), variant (clip rd), transparencyVariant (p rd)).

(** ** Uniform blocks *)

Definition blockIs (u : gmap string (ValueCell UValue)) (k : string) (v : UValue) : Prop :=
  exists c, u !! k = Some c /\ value c = v.

Definition blockSame (u : gmap string (ValueCell UValue)) (k : string) (v : UValue) : Prop :=
  exists c, u !! k = Some c /\ (value c = v \/ uvalue_same (value c) v = true).

(** The uniforms that [render] sets from the camera and its arguments are
    there. *)
Definition cameraUniforms (rd : Renderer) : Prop :=
  Forall (fun k => is_Some (globalUniforms rd !! k))
    ["uIsOrtho"; "uFar"; "uNear"; "uFogFar"; "uFogNear"; "uTransparentBackground";
     "uRenderWboit"].

(** A block holds the values of the camera, the background flag and the
    pass flag. *)
Definition cameraHeld (camera : Camera) (transparentBackground wboitPass : bool)
    (u : GlobalUniformValues) : Prop :=
  blockSame u "uIsOrtho" (UBit (cam_orthographic camera)) /\
  blockSame u "uFar" (UNum (cam_far camera)) /\
  blockSame u "uNear" (UNum (cam_near camera)) /\
  blockSame u "uFogFar" (UNum (cam_fogFar camera)) /\
  blockSame u "uFogNear" (UNum (cam_fogNear camera)) /\
  blockSame u "uTransparentBackground" (UBool transparentBackground) /\
  blockIs u "uRenderWboit" (UBit wboitPass).

(** ** What the events of a render call have in common *)

(** The event keeps to the rectangle [vp]: the viewport and the scissor
    rectangle are set to it; draws, clears and the resolve quad run with the
    scissor test on, all color channels writable and both rectangles at [vp];
    a clear of the depth buffer runs with depth writes on. *)
Definition withinViewport (vp : Rect) (e : GLEvent) : Prop :=
  match e with
  | EvViewport r | EvScissor r => r = vp
  | EvClear _ depthBit st _ =>
      rectOf st = (true, allChannels, vp, vp) /\ (depthBit = true -> st_depthMask st = true)
  | EvDraw _ _ _ st | EvDrawQuad _ _ st => rectOf st = (true, allChannels, vp, vp)
  | _ => True
  end.

(** A draw call is that of a drawable of the scene [rs] that is visible in
    the variant [v], with the program of that variant, the shared textures
    [shared] and the culling, winding and depth settings of the drawable. *)
Definition drawSettings (fragDepthExt : bool) (v : GraphicsRenderVariant)
    (shared : list (string * nat)) (rs : list Renderable) (e : GLEvent) : Prop :=
  match e with
  | EvDraw id v' shared' st =>
      v' = v /\ shared' = shared /\
      exists r, r ∈ rs /\ r_id r = id /\ drawable v (r_state r) = true /\
        flagsOf st = objectFlags fragDepthExt r /\ currentProgramId st = r_program r v
  | _ => True
  end.

(** No framebuffer or texture is created, deleted, resized or attached. *)
Definition noAllocation (e : GLEvent) : Prop :=
  match e with
  | EvCreateFramebuffer _ | EvDeleteFramebuffer _ | EvCreateTexture _ | EvTexImage _ _ _
  | EvFramebufferTexture _ _ _ | EvDrawBuffers _ => False
  | _ => True
  end.

(** The uniform block of [rd'] has the names of the one of [rd]. *)
Definition sameNames (rd rd' : Renderer) : Prop :=
  forall k, is_Some (globalUniforms rd' !! k) <-> is_Some (globalUniforms rd !! k).

(** The framebuffer [fb] is alive but no longer among the renderer's own, and
    not the one a later allocation returns. *)
Definition orphaned (fb : nat) (rd : Renderer) (ctx : WebGLContext) : Prop :=
  (fb ∉ wboitFramebuffers rd) /\
  is_Some (framebuffers (resources ctx) !! fb) /\
  (fb < next_id (resources ctx))%nat.

(** * Properties *)

(** ** Numbers *)

Lemma int_same_eq a b : int_same a b = true -> a = b.
Proof. destruct a, b; cbn; try done. by intros ->%Z.eqb_eq. Qed.

Lemma int_same_refl a : a <> NaN -> int_same a a = true.
Proof. destruct a; [|done]. intros _. apply Z.eqb_refl. Qed.

Lemma num_same_refl x : x <> NaN -> num_same x x = true.
Proof. destruct x; [|done]. intros _. cbn. apply Qeq_bool_iff. reflexivity. Qed.

(** ** Running computations *)

Lemma returns_mono {A} (m : G A) ctx (P Q : A -> WebGLContext -> list GLEvent -> Prop) :
  returns m ctx P -> (forall a c t, P a c t -> Q a c t) -> returns m ctx Q.
Proof.
  unfold returns. destruct (m ctx) as [[[a c] t]|]; [|done]. auto.
Qed.

Lemma returns_bind {A B} (m : G A) (k : A -> G B) ctx post :
  returns m ctx (fun a c t => returns (k a) c (fun b c' t' => post b c' (t ++ t'))) ->
  returns (m ≫= k) ctx post.
Proof.
  unfold returns, mbind, G_MBind, G_bind.
  destruct (m ctx) as [[[a c] t]|]; [|done].
  destruct (k a c) as [[[b c'] t']|]; done.
Qed.

(** Unfolds the monad and the context operations, leaving the calls of the
    renderer's own functions in place. *)
Ltac run :=
  cbv beta iota zeta delta
    [returns mbind mret G_MBind G_MRet G_bind G_ret throw emit getCtx putCtx
     modifyState modifyResources whenSome
     state_enable state_disable state_frontFace state_cullFace state_depthMask
     state_colorMask state_clearColor state_blendFuncSeparate
     gl_viewport gl_scissor bindFramebuffer gl_bindFramebuffer_null
     ctx_unbindFramebuffer renderTarget_bind gl_clear gl_flush
     framebuffer_bind renderable_render evaluateWboit_render bindTarget];
  cbn.

(** Case analysis on an innermost scrutinee the computation is stuck on. *)
Ltac split_match :=
  match goal with
  | |- context [match ?b with _ => _ end] =>
      lazymatch b with
      | context [match _ with _ => _ end] => fail
      | _ => destruct b eqn:?
      end
  end.

(** Replaces a call by its result, as described by the lemma [lem]. *)
Ltac called lem :=
  let Hc := fresh "Hc" in
  pose proof lem as Hc; unfold returns in Hc;
  match type of Hc with
  | match ?m with _ => _ end => destruct m as [[[? ?] ?]|]; [|destruct Hc]
  end;
  try match type of Hc with
      | (let '(_, _) := ?q in _) _ _ => destruct q
      end.

Lemma passState_inv c c' :
  passState c' = passState c ->
  extensions c' = extensions c /\ resources c' = resources c
  /\ st_bound (state c') = st_bound (state c)
  /\ blending (state c') = blending (state c).
Proof.
  unfold passState, blending. intros [= -> -> -> -> ->]. done.
Qed.

(** ** [renderObject] and the render loops *)

Lemma objectState_returns r ctx :
  returns (objectState r) ctx (fun _ ctx' tr => passState ctx' = passState ctx /\ tr = []).
Proof.
  unfold objectState. run. repeat (split_match; run). all: done.
Qed.

Lemma renderObject_returns r v sh rd ctx :
  returns (renderObject r v sh rd) ctx (fun '(r', rd') ctx' tr =>
    r_id r' = r_id r /\ r_state r' = r_state r /\
    (exists b, rd' = set_globalUniformsNeedUpdate b rd) /\
    passState ctx' = passState ctx /\
    passes tr =
      if drawable v (r_state r)
      then [SDraw (r_id r) (st_bound (state ctx)) (blending (state ctx))] else []).
Proof.
  unfold renderObject, drawable.
  destruct (visible (r_state r)), (pickable (r_state r)), (isPick v); cbn [negb orb andb];
    try (cbn; split_and!; try done; exists (globalUniformsNeedUpdate rd); by destruct rd).
  all: destruct (syncDefines (r_values r) rd) as [values dnu].
  all: destruct dnu; run.
  all: destruct (negb (currentProgramId (state ctx) =? r_program r v)); run.
  all: destruct (globalUniformsNeedUpdate rd) eqn:E; run.
  all: match goal with |- context [objectState ?r ?c] => called (objectState_returns r c) end.
  all: destruct Hc as (Hp & ->); cbn.
  all: apply passState_inv in Hp as Hq; cbn in Hq; destruct Hq as (_ & _ & -> & Hb).
  all: unfold blending in *; cbn in Hb; rewrite Hb.
  all: rewrite Hp; split_and!; try done.
  all: try (by exists false).
  all: exists false; destruct rd; cbn in *; by subst.
Qed.

Lemma renderBucket_returns sel v sh rs : forall rd ctx,
  returns (renderBucket sel v sh rs rd) ctx (fun '(rs', rd') ctx' tr =>
    scene_of rs' = scene_of rs /\
    (exists b, rd' = set_globalUniformsNeedUpdate b rd) /\
    passState ctx' = passState ctx /\
    passes tr = bucketDraws sel v (st_bound (state ctx)) (blending (state ctx)) (scene_of rs)).
Proof.
  induction rs as [|r rs IH]; intros rd ctx.
  - cbn. split_and!; try done. exists (globalUniformsNeedUpdate rd). by destruct rd.
  - cbn [renderBucket]. run.
    destruct (sel (r_state r)) eqn:Hsel; cbn.
    + called (renderObject_returns r v sh rd ctx).
      destruct Hc as (Hid & Hst & [b ->] & Hp & Htr).
      match goal with |- context [renderBucket _ _ _ _ ?rd ?c] => called (IH rd c) end.
      destruct Hc as (Hsc & [b' ->] & Hp' & Htr').
      apply passState_inv in Hp as Hq. destruct Hq as (_ & _ & Hbound & Hblend).
      rewrite Hbound, Hblend in Htr'.
      unfold scene_of, bucketDraws in *. cbn.
      rewrite Hid, Hst, Hsc. unfold passes in *. rewrite app_nil_r, omap_app, Htr, Htr'.
      split_and!; [done|by exists b'|congruence|].
      rewrite Hsel. by destruct (drawable v (r_state r)).
    + called (IH rd ctx). destruct Hc as (Hsc & Hrd' & Hp' & Htr').
      unfold scene_of, bucketDraws in *. cbn. rewrite Hsel, Hsc, app_nil_r. done.
Qed.

Lemma renderBuckets_returns v sh rs rd ctx :
  returns (renderBuckets v sh rs rd) ctx (fun '(rs', rd') ctx' tr =>
    scene_of rs' = scene_of rs /\
    (exists b, rd' = set_globalUniformsNeedUpdate b rd) /\
    passState ctx' = passState ctx /\
    passes tr = bucketsDraws v (st_bound (state ctx)) (blending (state ctx)) (scene_of rs)).
Proof.
  unfold renderBuckets. run.
  called (renderBucket_returns isOpaque v sh rs rd ctx).
  destruct Hc as (Hsc1 & [b1 ->] & Hp1 & Htr1).
  match goal with |- context [renderBucket ?s _ _ ?rs ?rd ?c] =>
    called (renderBucket_returns s v sh rs rd c) end.
  destruct Hc as (Hsc2 & [b2 ->] & Hp2 & Htr2).
  match goal with |- context [renderBucket ?s _ _ ?rs ?rd ?c] =>
    called (renderBucket_returns s v sh rs rd c) end.
  destruct Hc as (Hsc3 & [b3 ->] & Hp3 & Htr3).
  pose proof (passState_inv _ _ Hp1) as (_ & _ & Hb1 & Hl1).
  pose proof (passState_inv _ _ Hp2) as (_ & _ & Hb2 & Hl2).
  split_and!.
  - by rewrite Hsc3, Hsc2.
  - by exists b3.
  - by rewrite Hp3, Hp2.
  - unfold passes in *. rewrite !omap_app, Htr1, Htr2, Htr3.
    unfold bucketsDraws. by rewrite Hsc2, Hsc1, Hb2, Hl2, Hb1, Hl1.
Qed.

(** ** [render] *)

Lemma returns_ret {A} (a : A) ctx (post : A -> WebGLContext -> list GLEvent -> Prop) :
  post a ctx [] -> returns (mret a) ctx post.
Proof. done. Qed.

Lemma returns_modifyState f ctx (post : unit -> WebGLContext -> list GLEvent -> Prop) :
  post tt (mkContext (extensions ctx) (f (state ctx)) (resources ctx) (pixelRatio ctx)) [] ->
  returns (modifyState f) ctx post.
Proof. done. Qed.

Lemma returns_modifyResources f ctx (post : unit -> WebGLContext -> list GLEvent -> Prop) :
  post tt (mkContext (extensions ctx) (state ctx) (f (resources ctx)) (pixelRatio ctx)) [] ->
  returns (modifyResources f) ctx post.
Proof. done. Qed.

Lemma returns_emit e ctx (post : unit -> WebGLContext -> list GLEvent -> Prop) :
  post tt ctx [e] -> returns (emit e) ctx post.
Proof. done. Qed.

Lemma returns_getCtx ctx (post : WebGLContext -> WebGLContext -> list GLEvent -> Prop) :
  post ctx ctx [] -> returns getCtx ctx post.
Proof. done. Qed.

Lemma returns_element {A} (xs : list A) i x ctx
    (post : A -> WebGLContext -> list GLEvent -> Prop) :
  xs !! i = Some x -> post x ctx [] -> returns (element xs i) ctx post.
Proof. unfold element. intros ->. done. Qed.

Create HintDb glops.
#[global] Hint Unfold state_enable state_disable state_frontFace state_cullFace
  state_depthMask state_colorMask state_clearColor state_blendFuncSeparate
  gl_viewport gl_scissor bindFramebuffer gl_bindFramebuffer_null ctx_unbindFramebuffer
  renderTarget_bind gl_clear gl_flush framebuffer_bind evaluateWboit_render bindTarget
  whenSome : glops.

Ltac normalise :=
  cbv beta;
  cbn [extensions state resources pixelRatio
       st_blend st_depthTest st_scissorTest st_cullFace st_frontFace st_cullFaceMode
       st_depthMask st_colorMask st_blendFunc st_clearColor st_viewport st_scissor
       st_bound currentProgramId currentRenderItemId
       set_capability set_frontFace set_cullFaceMode set_depthMask set_colorMask
       set_blendFunc set_clearColor set_viewport set_scissor set_bound
       set_currentProgramId set_currentRenderItemId
       framebuffers textures next_id count_framebuffer count_texture
       viewport bgColor enableWboit wboitFramebuffers evaluateWboitRenderable
       wboitATexture wboitBTexture p style clip globalUniforms globalUniformsNeedUpdate
       updateUniform updateUniformIfChanged set_globalUniforms set_globalUniformsNeedUpdate
       set_rendererViewport set_wboitFramebuffers set_p set_style set_clip set_bgColor
       renderables negb].

(** One step of symbolic execution. *)
Ltac step :=
  lazymatch goal with
  | |- returns (mbind _ _) _ _ => apply returns_bind
  | |- returns (mret _) _ _ => apply returns_ret
  | |- returns (modifyState _) _ _ => apply returns_modifyState
  | |- returns (modifyResources _) _ _ => apply returns_modifyResources
  | |- returns (emit _) _ _ => apply returns_emit
  | |- returns getCtx _ _ => apply returns_getCtx
  | |- returns (element _ _) _ _ => eapply returns_element; [reflexivity|]
  | |- returns (renderBuckets ?v ?sh ?rs ?rd) ?c _ =>
      eapply returns_mono; [apply (renderBuckets_returns v sh rs rd c)|];
      intros [? ?] ? ? (? & [? ->] & ?%passState_inv & ?)
  | |- returns (renderBucket ?sel ?v ?sh ?rs ?rd) ?c _ =>
      eapply returns_mono; [apply (renderBucket_returns sel v sh rs rd c)|];
      intros [? ?] ? ? (? & [? ->] & ?%passState_inv & ?)
  | |- returns (match ?x with _ => _ end) _ _ => destruct x eqn:?
  | |- returns _ _ _ => progress autounfold with glops
  end; normalise.

Lemma render_returns rt g cam v clr tb dt rtp rd ctx :
  wboitFramebuffers rd <> [] \/ isColor v && enableWboit rd && rtp = false ->
  returns (render rt g cam v clr tb dt rtp rd) ctx (fun '(g', rd') ctx' tr =>
    passes tr = expectedPasses rd ctx rt (renderables g) v clr tb rtp /\
    scene_of (renderables g') = scene_of (renderables g) /\
    ownership rd' = ownership rd /\
    extensions ctx' = extensions ctx /\ resources ctx' = resources ctx).
Proof.
  intros Hfb.
  destruct rd as [p0 st0 so cl0 [[[vx vy] vw] vh] [[bgr bgg] bgb] ew tA tB ev fbs gu gf].
  destruct g as [rs].
  unfold render, expectedPasses, clearSteps, bodySteps, updateCameraUniforms,
    orderedBlendSteps, wboitSteps.
  cbn [renderables viewport bgColor enableWboit wboitFramebuffers evaluateWboitRenderable
       updateUniform updateUniformIfChanged set_globalUniforms set_globalUniformsNeedUpdate
       p style clip wboitATexture wboitBTexture globalUniforms globalUniformsNeedUpdate].
  cbv zeta.
  destruct (isColor v) eqn:Hv, ew, rtp; cbn [negb]; cbn in Hfb.
  all: try (destruct fbs as [|fb fbs]; [by destruct Hfb|]).
  all: repeat step.
  all: unfold passes, blending in *; cbn in *; subst.
  all: repeat match goal with H : _ /\ _ |- _ => destruct H end.
  all: rewrite ?omap_app; cbn; rewrite ?omap_app.
  all: repeat match goal with
              | H : omap step_of _ = _ |- _ => rewrite H; clear H
              | H : st_bound (state _) = _ |- _ => rewrite H in *; clear H
              | H : resources _ = _ |- _ => rewrite H in *; clear H
              | H : extensions _ = _ |- _ => rewrite H in *; clear H
              | H : scene_of _ = _ |- _ => rewrite H in *; clear H
              | H : (if st_blend (state _) then _ else _) = _ |- _ => rewrite H in *; clear H
              end.
  all: rewrite ?app_nil_r, <- ?app_assoc; split_and!; reflexivity.
Qed.

(** ** Clip arrays *)

Lemma js_store_spec a i v :
  (i < length a)%nat ->
  length (js_store a i v) = length a /\
  forall k, (i < k)%nat -> js_store a i v !! k = a !! k.
Proof.
  intros Hi. unfold js_store. destruct (decide (i < length a)%nat); [|lia].
  split; [apply length_insert|].
  intros k Hk. apply list_lookup_insert_ne. lia.
Qed.

Lemma Vec3_toArray_spec v out off :
  (off + 3 <= length out)%nat ->
  length (Vec3_toArray v out off) = length out /\
  forall k, (off + 3 <= k)%nat -> Vec3_toArray v out off !! k = out !! k.
Proof.
  intros Hoff. destruct v as [[x y] z]. unfold Vec3_toArray.
  destruct (js_store_spec out off x) as [L1 K1]; [lia|].
  destruct (js_store_spec (js_store out off x) (off + 1) y) as [L2 K2]; [lia|].
  destruct (js_store_spec (js_store (js_store out off x) (off + 1) y) (off + 2) z)
    as [L3 K3]; [lia|].
  split; [lia|]. intros k Hk. rewrite K3, K2, K1 by lia. done.
Qed.

Lemma Quat_toArray_spec q out off :
  (off + 4 <= length out)%nat ->
  length (Quat_toArray q out off) = length out /\
  forall k, (off + 4 <= k)%nat -> Quat_toArray q out off !! k = out !! k.
Proof.
  intros Hoff. destruct q as [[[x y] z] w]. unfold Quat_toArray.
  destruct (js_store_spec out off x) as [L1 K1]; [lia|].
  destruct (js_store_spec (js_store out off x) (off + 1) y) as [L2 K2]; [lia|].
  destruct (js_store_spec (js_store (js_store out off x) (off + 1) y) (off + 2) z)
    as [L3 K3]; [lia|].
  destruct (js_store_spec
              (js_store (js_store (js_store out off x) (off + 1) y) (off + 2) z)
              (off + 3) w) as [L4 K4]; [lia|].
  split; [lia|]. intros k Hk. rewrite K4, K3, K2, K1 by lia. done.
Qed.

Section Clip.
Context `{MathLib}.

(** The loop of [getClip] over at most five objects keeps the four lengths
    and writes nothing past the slots of its objects. *)
Lemma getClip_loop_spec objs : forall i t ps r s,
  length t = 5%nat -> length ps = 15%nat -> length r = 20%nat -> length s = 15%nat ->
  (i + length objs <= 5)%nat ->
  let '(t', ps', r', s') := getClip_loop objs i t ps r s in
  (length t' = 5%nat /\ length ps' = 15%nat /\ length r' = 20%nat /\ length s' = 15%nat) /\
  (forall k, (i + length objs <= k)%nat -> t' !! k = t !! k) /\
  (forall k, (3 * (i + length objs) <= k)%nat -> ps' !! k = ps !! k) /\
  (forall k, (4 * (i + length objs) <= k)%nat -> r' !! k = r !! k) /\
  (forall k, (3 * (i + length objs) <= k)%nat -> s' !! k = s !! k).
Proof.
  induction objs as [|o objs IH]; intros i t ps r s Lt Lp Lr Ls Hn; cbn [getClip_loop].
  - done.
  - rewrite length_cons in Hn.
    destruct (js_store_spec t i (Clipping_Type (co_type o))) as [Lt' Kt]; [lia|].
    destruct (Vec3_toArray_spec (co_position o) ps (i * 3)) as [Lp' Kp]; [lia|].
    destruct (Quat_toArray_spec (Quat_setAxisAngle (co_axis o) (degToRad (co_angle o)))
                r (i * 4)) as [Lr' Kr]; [lia|].
    destruct (Vec3_toArray_spec (co_scale o) s (i * 3)) as [Ls' Ks]; [lia|].
    set (t1 := js_store t i _) in *.
    set (p1 := Vec3_toArray (co_position o) ps _) in *.
    set (r1 := Quat_toArray _ r _) in *.
    set (s1 := Vec3_toArray (co_scale o) s _) in *.
    specialize (IH (S i) t1 p1 r1 s1).
    destruct (getClip_loop objs (S i) t1 p1 r1 s1) as [[[t' ps'] r'] s'].
    destruct IH as (Hlen & Ht & Hp & Hr & Hs); [lia..|].
    split; [done|]. rewrite length_cons.
    split_and!; intros k Hk.
    + rewrite Ht, Kt by lia. done.
    + rewrite Hp, Kp by lia. done.
    + rewrite Hr, Kr by lia. done.
    + rewrite Hs, Ks by lia. done.
Qed.

Lemma drop_agree {A} (a a' : list A) c :
  (forall k, (c <= k)%nat -> a' !! k = a !! k) -> drop c a' = drop c a.
Proof.
  intros Hk. apply list_eq. intros j. rewrite !lookup_drop. apply Hk. lia.
Qed.

(** [getClip] on arrays of five slots, with at most five objects. *)
Lemma getClip_spec c old :
  fiveSlots (objects old) -> (length (cp_objects c) <= 5)%nat ->
  let o' := objects (getClip c (Some old)) in
  count o' = length (cp_objects c) /\ fiveSlots o' /\ keepsBeyondCount (objects old) o'.
Proof.
  intros (Lt & Lp & Lr & Ls) Hn. unfold getClip.
  pose proof (getClip_loop_spec (cp_objects c) 0 _ _ _ _ Lt Lp Lr Ls ltac:(lia)) as Hloop.
  destruct (getClip_loop _ _ _ _ _ _) as [[[t' ps'] r'] s'].
  destruct Hloop as (Hlen & Ht & Hp & Hr & Hs). cbn [objects count].
  split; [done|]. split; [exact Hlen|].
  intros i [Hi Hi5]. unfold slotType, slotPosition, slotScale, slotRotation.
  cbn [type position rotation scale].
  rewrite (drop_agree (type (objects old)) t' i),
    (drop_agree (position (objects old)) ps' (i * 3)),
    (drop_agree (scale (objects old)) s' (i * 3)),
    (drop_agree (rotation (objects old)) r' (i * 4)); [done|..].
  all: intros k Hk; first [apply Hr|apply Hs|apply Hp|apply Ht]; cbn in *; lia.
Qed.
(** The arrays [getClip] starts from at construction. *)
Lemma getClip_fresh c :
  (length (cp_objects c) <= 5)%nat ->
  count (objects (getClip c None)) = length (cp_objects c) /\
  defaultsBeyondCount (objects (getClip c None)).
Proof.
  intros Hn.
  set (fresh := mkClip (cp_variant c)
                  (mkClipObjects 0 (Array_fill 5 n1) (Array_fill (5 * 3) n0)
                     (Array_fill (5 * 4) n0) (Array_fill (5 * 3) n1))).
  change (getClip c None) with (getClip c (Some fresh)).
  destruct (getClip_spec c fresh) as (Hcount & Hfive & Hkeep); [done|done|].
  split; [done|]. split; [done|].
  intros i Hi. destruct (Hkeep i Hi) as (-> & -> & -> & ->).
  rewrite Clipping_Type_plane.
  destruct Hi as [_ Hi].
  destruct i as [|[|[|[|[|i]]]]]; [done..|lia].
Qed.

Lemma getClip_count c old : count (objects (getClip c old)) = length (cp_objects c).
Proof.
  unfold getClip. by destruct (getClip_loop _ _ _ _ _ _) as [[[t' ps'] r'] s'].
Qed.

End Clip.


(** ** [clear], [create], [setViewport], [setProps] *)

#[global] Hint Unfold resources_framebuffer resources_texture texture_define
  texture_attachFramebuffer framebuffer_destroy drawBuffers_drawBuffers
  createWboitTexture attachWboitTextures set_framebuffers : glops.

Ltac map_lookup :=
  repeat first
    [ rewrite lookup_alter_eq
    | rewrite lookup_alter_ne by lia
    | rewrite lookup_insert_eq
    | rewrite lookup_insert_ne by lia
    | rewrite lookup_delete_ne by lia ];
  cbn.

(** The side conditions of the invariant after a method has run. *)
Ltac wf_side :=
  try done; try (cbn; lia);
  try first
    [ apply getClip_count
    | eexists _, _; split_and!; try reflexivity; try done; try lia; map_lookup; done
    | repeat (apply Forall_cons; split; [map_lookup; by eexists|]); by apply Forall_nil
    | intros ? [[= <-]|[= <-]]; map_lookup; by eexists
    | by intros ? [|] ].

Lemma clear_returns tb rd ctx :
  returns (clear tb rd) ctx (fun _ ctx' tr =>
    passes tr =
      [SBind DefaultFramebuffer;
       SClear true true DefaultFramebuffer (background (bgColor rd) tb) []] /\
    extensions ctx' = extensions ctx /\ resources ctx' = resources ctx).
Proof.
  unfold clear. destruct (bgColor rd) as [[r g] b] eqn:Hbg.
  repeat step. done.
Qed.

Section Properties.
Context `{MathLib}.

Lemma create_returns props ctx0 :
  returns (create props) ctx0 (fun rd ctx tr =>
    wf rd ctx /\ extensions ctx = extensions ctx0 /\
    p rd = PD_merge defaultProps props /\
    clip rd = getClip (props_clip (p rd)) None /\
    framebuffersCreated tr = wboitFramebuffers rd /\
    length (wboitFramebuffers rd) = (if drawBuffers (extensions ctx0) then 2 else 3)%nat /\
    framebufferCount (stats ctx) = framebufferCount (stats ctx0) + Z.of_nat (length (wboitFramebuffers rd)) /\
    textureCount (stats ctx) =
      textureCount (stats ctx0) + (if wboitCapable (extensions ctx0) then 2 else 0)).
Proof.
  unfold create, wf, wboitCapable.
  destruct (textureFloat (extensions ctx0) && colorBufferFloat (extensions ctx0)
            && depthTexture (extensions ctx0)) eqn:Hcap;
    destruct (drawBuffers (extensions ctx0)) eqn:Hdb.
  all: do 2 step; rewrite ?Hcap, ?Hdb.
  all: repeat step.
  all: rewrite ?Hdb, ?Hcap; unfold stats; normalise.
  all: split_and!; wf_side.
Qed.

Lemma setViewport_returns x y w h rd ctx :
  wf rd ctx ->
  returns (setViewport x y w h rd) ctx (fun rd' ctx' tr =>
    wf rd' ctx' /\ extensions ctx' = extensions ctx /\
    viewport rd' = (x, y, w, h) /\
    st_viewport (state ctx') = (x, y, w, h) /\ st_scissor (state ctx') = (x, y, w, h) /\
    p rd' = p rd /\ clip rd' = clip rd).
Proof.
  destruct rd as [p0 st0 so cl0 [[[vx vy] vw] vh] bg ew tA tB ev fbs gu gf].
  unfold wf. cbn [enableWboit bgColor p clip wboitFramebuffers wboitATexture wboitBTexture
                  evaluateWboitRenderable].
  intros (Hew & Hbg & Hfbs & Hlf & Hlt & Hcnt).
  destruct fbs as [|fb0 rest]; [done|]. destruct Hfbs as [Hrest Htex].
  destruct ew; [destruct Htex as (a & b & Hab & -> & -> & -> & Hfb)
                |destruct Htex as (-> & -> & ->)].
  all: unfold setViewport; repeat step.
  all: try (destruct rest as [|fb1 rest]; [by destruct Hrest|]; repeat step).
  all: normalise.
  all: repeat match goal with Hd : drawBuffers _ = _ |- _ => rewrite Hd in *; clear Hd end.
  all: split_and!; wf_side.
  all: try (repeat case_match; done).
  all: repeat match goal with
              | Hn : _ || _ = false |- _ => apply orb_false_elim in Hn as [? ?]
              | Hn : negb (int_same _ _) = false |- _ =>
                  apply negb_false_iff, int_same_eq in Hn; subst
              end.
  all: done.
Qed.

Lemma whenChanged_inv {A} (P : Renderer -> Prop) (o : option A) same cur k rd :
  (forall a rd, o = Some a -> P rd -> P (k a rd)) -> P rd -> P (whenChanged o same cur k rd).
Proof.
  intros Hk HP. unfold whenChanged. destruct o as [a|]; [destruct (same a cur)|]; auto.
Qed.

Lemma whenDefined_inv {A} (P : Renderer -> Prop) (o : option A) k rd :
  (forall a rd, o = Some a -> P rd -> P (k a rd)) -> P rd -> P (whenDefined o k rd).
Proof. intros Hk HP. unfold whenDefined. destruct o; auto. Qed.

(** [setProps] runs its ten stages in order: a property that every stage
    keeps is kept by [setProps].  [tac] proves that a stage keeps [P]. *)
Ltac setProps_stages P tac :=
  unfold setProps; cbv zeta;
  repeat first
    [ apply (whenChanged_inv P); [intros ? ? ? ?; tac|]
    | apply (whenDefined_inv P); [intros ? ? ? ?; tac|] ].

Lemma setProps_gpu props rd :
  enableWboit (setProps props rd) = enableWboit rd /\
  wboitATexture (setProps props rd) = wboitATexture rd /\
  wboitBTexture (setProps props rd) = wboitBTexture rd /\
  evaluateWboitRenderable (setProps props rd) = evaluateWboitRenderable rd /\
  wboitFramebuffers (setProps props rd) = wboitFramebuffers rd /\
  viewport (setProps props rd) = viewport rd.
Proof.
  setProps_stages
    (fun r =>
       enableWboit r = enableWboit rd /\ wboitATexture r = wboitATexture rd /\
       wboitBTexture r = wboitBTexture rd /\
       evaluateWboitRenderable r = evaluateWboitRenderable rd /\
       wboitFramebuffers r = wboitFramebuffers rd /\ viewport r = viewport rd)
    ltac:(assumption).
  done.
Qed.

Lemma setProps_bgColor props rd :
  bgColor rd = Color_toVec3Normalized (backgroundColor (p rd)) ->
  bgColor (setProps props rd)
  = Color_toVec3Normalized (backgroundColor (p (setProps props rd))).
Proof.
  intros HP.
  setProps_stages
    (fun r => bgColor r = Color_toVec3Normalized (backgroundColor (p r)))
    ltac:(cbn; done).
  exact HP.
Qed.

Lemma setProps_count props rd :
  count (objects (clip rd)) = length (cp_objects (props_clip (p rd))) ->
  count (objects (clip (setProps props rd)))
  = length (cp_objects (props_clip (p (setProps props rd)))).
Proof.
  intros HP.
  setProps_stages
    (fun r => count (objects (clip r)) = length (cp_objects (props_clip (p r))))
    ltac:(cbn -[getClip]; first [assumption | apply getClip_count]).
  exact HP.
Qed.

(** With at most five clip objects configured, the clip arrays keep their
    five slots. *)
Lemma setProps_fiveSlots props rd :
  clipBounded props ->
  fiveSlots (objects (clip rd)) -> fiveSlots (objects (clip (setProps props rd))).
Proof.
  unfold clipBounded. intros Hb HP.
  setProps_stages
    (fun r => fiveSlots (objects (clip r)))
    ltac:(cbn -[getClip];
          first [assumption
                | match goal with
                  | Ho : opt_clip props = Some _ |- _ =>
                      rewrite Ho in Hb; by apply getClip_spec
                  end]).
  exact HP.
Qed.

Lemma setProps_wf props rd ctx : wf rd ctx -> wf (setProps props rd) ctx.
Proof.
  unfold wf. intros (Hew & Hbg & Hfbs & Hlf & Hlt & Hcnt).
  destruct (setProps_gpu props rd) as (-> & -> & -> & -> & -> & _).
  split_and!; [done|by apply setProps_bgColor|done|done|done|by apply setProps_count].
Qed.

(** ** Sessions *)

Lemma render_wf rt g cam v clr tb dt rtp rd ctx :
  wf rd ctx ->
  returns (render rt g cam v clr tb dt rtp rd) ctx (fun '(_, rd') ctx' _ =>
    wf rd' ctx' /\ extensions ctx' = extensions ctx).
Proof.
  intros Hwf.
  eapply returns_mono.
  - apply render_returns. left. unfold wf in Hwf.
    destruct (wboitFramebuffers rd); [by destruct Hwf as (_ & _ & [] & _)|done].
  - intros [g' rd'] ctx' tr (_ & _ & Hown & Hext & Hres).
    unfold ownership in Hown. injection Hown as Hp _ Hcl _ Hbg Hew HA HB Hev Hfbs.
    unfold wf in *. rewrite Hp, Hcl, Hbg, Hew, HA, HB, Hev, Hfbs, Hext, Hres. done.
Qed.

Lemma call_returns c rd ctx :
  wf rd ctx ->
  returns (call c rd) ctx (fun rd' ctx' _ => wf rd' ctx' /\ extensions ctx' = extensions ctx).
Proof.
  intros Hwf. destruct c; cbn [call].
  - apply returns_bind. eapply returns_mono; [by apply render_wf|].
    intros [g' rd'] ctx' tr Hw. by apply returns_ret.
  - apply returns_bind. eapply returns_mono; [apply clear_returns|].
    intros [] ctx' tr (_ & Hext & Hres). apply returns_ret.
    unfold wf in *. by rewrite Hext, Hres.
  - apply returns_ret. split; [by apply setProps_wf|done].
  - eapply returns_mono; [by apply setViewport_returns|].
    intros rd' ctx' tr (Hw & Hext & _). done.
  - by apply returns_bind, returns_ret, returns_ret.
Qed.

Lemma calls_returns cs : forall rd ctx,
  wf rd ctx ->
  returns (calls cs rd) ctx (fun rd' ctx' _ => wf rd' ctx' /\ extensions ctx' = extensions ctx).
Proof.
  induction cs as [|c cs IH]; intros rd ctx Hwf; cbn [calls].
  - by apply returns_ret.
  - apply returns_bind. eapply returns_mono; [by apply call_returns|].
    intros rd' ctx' tr [Hw Hext]. eapply returns_mono; [by apply IH|].
    intros rd'' ctx'' tr' [Hw' Hext']. split; [done|congruence].
Qed.

(** Every renderer in use satisfies the invariant, on a context with the
    extensions it was created with. *)
Lemma session_returns props cs ctx0 :
  returns (session props cs) ctx0 (fun rd ctx _ =>
    wf rd ctx /\ extensions ctx = extensions ctx0).
Proof.
  unfold session. apply returns_bind.
  eapply returns_mono; [apply create_returns|].
  intros rd ctx tr (Hwf & Hext & _).
  eapply returns_mono; [by apply calls_returns|].
  intros rd' ctx' tr' [Hw Hext']. split; [done|congruence].
Qed.

Lemma returns_conj {A} (m : G A) ctx (P Q : A -> WebGLContext -> list GLEvent -> Prop) :
  returns m ctx P -> returns m ctx Q -> returns m ctx (fun a c t => P a c t /\ Q a c t).
Proof. unfold returns. destruct (m ctx) as [[[a c] t]|]; done. Qed.

(** As long as at most five clip objects are configured, the clip arrays
    have their five slots. *)
Lemma call_fiveSlots c rd ctx :
  callBounded c -> wf rd ctx -> fiveSlots (objects (clip rd)) ->
  returns (call c rd) ctx (fun rd' _ _ => fiveSlots (objects (clip rd'))).
Proof.
  intros Hb Hwf Hfive. destruct c; cbn [call callBounded] in *.
  - apply returns_bind. eapply returns_mono.
    + apply render_returns. left. unfold wf in Hwf.
      destruct (wboitFramebuffers rd); [by destruct Hwf as (_ & _ & [] & _)|done].
    + intros [g' rd'] ctx' tr (_ & _ & Hown & _). apply returns_ret.
      unfold ownership in Hown. injection Hown as _ _ Hcl _ _ _ _ _ _ _. by rewrite Hcl.
  - apply returns_bind. eapply returns_mono; [apply clear_returns|].
    intros [] ctx' tr _. by apply returns_ret.
  - apply returns_ret. by apply setProps_fiveSlots.
  - eapply returns_mono; [by apply setViewport_returns|].
    intros rd' ctx' tr (_ & _ & _ & _ & _ & _ & Hcl). by rewrite Hcl.
  - by apply returns_bind, returns_ret, returns_ret.
Qed.

Lemma calls_fiveSlots cs : forall rd ctx,
  Forall callBounded cs -> wf rd ctx -> fiveSlots (objects (clip rd)) ->
  returns (calls cs rd) ctx (fun rd' ctx' _ => wf rd' ctx' /\ fiveSlots (objects (clip rd'))).
Proof.
  induction cs as [|c cs IH]; intros rd ctx Hb Hwf Hfive; cbn [calls].
  - by apply returns_ret.
  - apply Forall_cons in Hb as [Hc Hcs]. apply returns_bind.
    eapply returns_mono;
      [apply returns_conj; [by apply call_returns|by apply call_fiveSlots]|].
    intros rd' ctx' tr [[Hw _] Hf]. by apply IH.
Qed.

Lemma session_fiveSlots props cs ctx0 :
  clipBounded props -> Forall callBounded cs ->
  returns (session props cs) ctx0 (fun rd ctx _ =>
    wf rd ctx /\ fiveSlots (objects (clip rd))).
Proof.
  intros Hb Hcs. unfold session. apply returns_bind.
  eapply returns_mono; [apply create_returns|].
  intros rd ctx tr (Hwf & _ & Hp & Hclip & _).
  eapply returns_mono; [apply calls_fiveSlots; [done|done|]|].
  - rewrite Hclip. destruct (getClip_fresh (props_clip (p rd))) as (_ & Hf & _); [|done].
    rewrite Hp. unfold clipBounded in Hb. cbn.
    destruct (opt_clip props); [done|cbn; lia].
  - intros rd' ctx' tr' [Hw Hf]. done.
Qed.

End Properties.

(** ** From traces to drawables *)

Lemma drawn_passes tr : drawn tr = drawnSteps (passes tr).
Proof.
  unfold drawn, drawnSteps, passes.
  induction tr as [|e tr IH]; [done|].
  destruct e; cbn; rewrite ?IH; done.
Qed.

Lemma texturesCleared_passes tr : texturesCleared tr = stepsCleared (passes tr).
Proof.
  unfold texturesCleared, stepsCleared, passes.
  induction tr as [|e tr IH]; [done|].
  destruct e as [| | |[] ? ? ?| | | | | | | | | | | |]; cbn; rewrite ?IH; done.
Qed.

Lemma drawnSteps_app ss1 ss2 : drawnSteps (ss1 ++ ss2) = drawnSteps ss1 ++ drawnSteps ss2.
Proof. apply omap_app. Qed.

Lemma drawnSteps_bucketDraws sel v target blend rs :
  drawnSteps (bucketDraws sel v target blend (scene_of rs))
  = map r_id (List.filter (fun r => sel (r_state r) && drawable v (r_state r)) rs).
Proof.
  unfold drawnSteps, bucketDraws, scene_of.
  induction rs as [|r rs IH]; [done|].
  cbn. destruct (sel (r_state r) && drawable v (r_state r)); cbn; by rewrite IH.
Qed.

Lemma stepsCleared_bucketDraws sel v target blend sc :
  stepsCleared (bucketDraws sel v target blend sc) = [].
Proof.
  unfold stepsCleared, bucketDraws.
  induction (List.filter _ sc) as [|x l IH]; [done|]. cbn. exact IH.
Qed.

Lemma usesOwn_bucketDraws sel v target blend sc :
  existsb bindsOwnFramebuffer (bucketDraws sel v target blend sc) = false.
Proof.
  unfold bucketDraws.
  induction (List.filter _ sc) as [|x l IH]; [done|]. cbn. exact IH.
Qed.

Lemma filter_andb {A} (f g : A -> bool) (l : list A) :
  List.filter (fun x => f x && g x) l = List.filter g (List.filter f l).
Proof.
  induction l as [|x l IH]; [done|].
  cbn. destruct (f x); cbn; [destruct (g x)|]; by rewrite IH.
Qed.

Lemma drawable_color s : drawable "color" s = visible s.
Proof. unfold drawable. cbn. by rewrite orb_true_r, andb_true_r. Qed.

(** The draws of the three loops, whatever the target and the blending. *)
Lemma drawnSteps_bucketsDraws v target blend rs :
  drawnSteps (bucketsDraws v target blend (scene_of rs))
  = map r_id (List.filter (fun r => drawable v (r_state r)) (colorOrder rs)).
Proof.
  unfold bucketsDraws, colorOrder.
  rewrite !drawnSteps_app, !drawnSteps_bucketDraws, !List.filter_app, !map_app.
  by rewrite <- !filter_andb.
Qed.

Lemma drawnSteps_orderedBlendSteps v target rs :
  drawnSteps (orderedBlendSteps v target (scene_of rs))
  = map r_id (List.filter (fun r => drawable v (r_state r)) (colorOrder rs)).
Proof.
  unfold orderedBlendSteps, colorOrder.
  rewrite !drawnSteps_app, !drawnSteps_bucketDraws, !List.filter_app, !map_app.
  by rewrite <- !filter_andb.
Qed.

Lemma drawnSteps_clearSteps v clr tb target bg : drawnSteps (clearSteps v clr tb target bg) = [].
Proof. unfold clearSteps. by destruct clr. Qed.

(** What [render] draws, for every path. *)
Lemma drawnSteps_expectedPasses rd ctx rt rs v clr tb rtp :
  wboitFramebuffers rd <> [] ->
  drawnSteps (expectedPasses rd ctx rt rs v clr tb rtp)
  = map r_id (List.filter (fun r => drawable v (r_state r))
      (if isColor v then colorOrder rs
       else if rtp then [] else List.filter (fun r => negb (colorOnly (r_state r))) rs)).
Proof.
  intros Hfb. unfold expectedPasses, bodySteps, wboitSteps.
  rewrite !drawnSteps_app, drawnSteps_clearSteps. cbn [drawnSteps omap app].
  destruct (isColor v), (enableWboit rd), rtp; cbn [negb].
  all: rewrite ?drawnSteps_bucketsDraws, ?drawnSteps_orderedBlendSteps; try done.
  - destruct (wboitFramebuffers rd) as [|fb fbs]; [done|].
    change (drawnSteps (bucketsDraws v (FramebufferObject fb) (Some ACCUMULATE) (scene_of rs)
              ++ [SBind (targetBinding rt)]
              ++ match evaluateWboitRenderable rd with
                 | Some q => [SResolve (tWboitA q) (tWboitB q) (targetBinding rt) (Some RESOLVE)]
                 | None => []
                 end) = map r_id (List.filter (fun r => drawable v (r_state r)) (colorOrder rs))).
    rewrite !drawnSteps_app, drawnSteps_bucketsDraws.
    destruct (evaluateWboitRenderable rd); cbn; by rewrite app_nil_r.
  - rewrite drawnSteps_bucketDraws. unfold notColorOnly. by rewrite filter_andb.
  - rewrite drawnSteps_bucketDraws. unfold notColorOnly. by rewrite filter_andb.
Qed.

Lemma wf_framebuffers `{MathLib} rd ctx : wf rd ctx -> wboitFramebuffers rd <> [].
Proof.
  unfold wf. intros (_ & _ & Hfb & _). by destruct (wboitFramebuffers rd).
Qed.

(** A render call in a renderer in use returns, and does what
    [expectedPasses] says. *)
Lemma render_in_use `{MathLib} rt g cam v clr tb dt rtp rd ctx :
  wf rd ctx ->
  returns (render rt g cam v clr tb dt rtp rd) ctx (fun '(g', rd') ctx' tr =>
    passes tr = expectedPasses rd ctx rt (renderables g) v clr tb rtp /\
    ownership rd' = ownership rd /\ resources ctx' = resources ctx).
Proof.
  intros Hwf. eapply returns_mono.
  - apply render_returns. left. by eapply wf_framebuffers.
  - intros [g' rd'] ctx' tr (Ht & _ & Ho & _ & Hr). done.
Qed.

Lemma usesOwn_expectedPasses rd ctx rt rs v clr tb rtp :
  wboitFramebuffers rd <> [] ->
  existsb bindsOwnFramebuffer (expectedPasses rd ctx rt rs v clr tb rtp)
  = isColor v && enableWboit rd && rtp.
Proof.
  intros Hfb. unfold expectedPasses, bodySteps, wboitSteps, clearSteps, bucketsDraws,
    orderedBlendSteps.
  destruct (wboitFramebuffers rd) as [|fb fbs]; [done|].
  destruct rt, clr, (isColor v), (enableWboit rd), rtp; cbn [negb andb].
  all: rewrite ?existsb_app, ?usesOwn_bucketDraws; cbn; rewrite ?existsb_app, ?usesOwn_bucketDraws.
  all: done.
Qed.

Lemma stepsCleared_app ss1 ss2 : stepsCleared (ss1 ++ ss2) = stepsCleared ss1 ++ stepsCleared ss2.
Proof. unfold stepsCleared. by rewrite omap_app, concat_app. Qed.

Lemma stepsCleared_bucketsDraws v target blend sc :
  stepsCleared (bucketsDraws v target blend sc) = [].
Proof.
  unfold bucketsDraws. by rewrite !stepsCleared_app, !stepsCleared_bucketDraws.
Qed.

(** The one color clear of a WBOIT sub-pass that writes textures is the
    clear of the accumulation framebuffer. *)
Lemma stepsCleared_wboit rd ctx rt rs clr tb fb fbs :
  enableWboit rd = true -> wboitFramebuffers rd = fb :: fbs ->
  stepsCleared (expectedPasses rd ctx rt rs "color" clr tb true) = clearedBy fb ctx.
Proof.
  intros Hew Hfb. unfold expectedPasses, bodySteps, wboitSteps, clearSteps.
  rewrite Hew, Hfb. cbn [isColor String.eqb Ascii.eqb Bool.eqb negb].
  rewrite !stepsCleared_app, stepsCleared_bucketsDraws.
  destruct clr, (evaluateWboitRenderable rd); cbn; by rewrite !app_nil_r.
Qed.



Section Claims.
Context `{MathLib}.

(** * The claims *)

(** C1. In every render call with variant ['color'], on every scene, the
    draw calls are exactly three buckets in this order: the opaque drawables,
    then the transparent ones that write depth, then the transparent ones that
    do not; each bucket is in the order of the scene's list, and holds the
    drawables that [renderObject] does not skip, that is the visible ones.  The
    sequence depends on the scene alone: not on the renderer's history, the
    target, the camera or the other arguments. *)
Theorem C1_color_draw_order props cs ctx0 rt g cam clr tb dt rtp :
  returns (session props cs) ctx0 (fun rd ctx _ =>
    returns (render rt g cam "color" clr tb dt rtp rd) ctx (fun _ _ tr =>
      drawn tr =
        map r_id
          (List.filter (fun r => visible (r_state r))
             (List.filter (fun r => opaque (r_state r)) (renderables g)
              ++ List.filter (fun r => negb (opaque (r_state r)) && writeDepth (r_state r))
                   (renderables g)
              ++ List.filter
                   (fun r => negb (opaque (r_state r)) && negb (writeDepth (r_state r)))
                   (renderables g))))).
Proof.
  eapply returns_mono; [apply session_returns|]. intros rd ctx tr0 [Hwf Hext].
  eapply returns_mono; [by apply render_in_use|]. intros [g' rd'] ctx' tr (Ht & _).
  rewrite drawn_passes, Ht, drawnSteps_expectedPasses by (by eapply wf_framebuffers).
  cbn [isColor String.eqb Ascii.eqb Bool.eqb]. fold (colorOrder (renderables g)).
  f_equal. apply filter_ext. intros r. apply drawable_color.
Qed.

(** C6. For a variant other than ['color'] (picking and depth): a transparent
    sub-pass draws nothing, and otherwise the drawables marked [colorOnly] are
    skipped; in every variant an invisible drawable is skipped, and in a
    picking variant a drawable that is not pickable is skipped as well. *)
Theorem C6_pick_depth_skips props cs ctx0 rt g cam v clr tb dt :
  isColor v = false ->
  returns (session props cs) ctx0 (fun rd ctx _ =>
    returns (render rt g cam v clr tb dt true rd) ctx (fun _ _ tr => drawn tr = []) /\
    returns (render rt g cam v clr tb dt false rd) ctx (fun _ _ tr =>
      drawn tr =
        map r_id
          (List.filter
             (fun r => visible (r_state r) && (pickable (r_state r) || negb (isPick v)))
             (List.filter (fun r => negb (colorOnly (r_state r))) (renderables g)))) /\
    forall v' rtp,
      returns (render rt g cam v' clr tb dt rtp rd) ctx (fun _ _ tr =>
        forall id, id ∈ drawn tr ->
          exists r, r ∈ renderables g /\ r_id r = id /\
            visible (r_state r) = true /\
            (isPick v' = true -> pickable (r_state r) = true))).
Proof.
  intros Hv.
  eapply returns_mono; [apply session_returns|]. intros rd ctx tr0 [Hwf Hext].
  split_and!.
  - eapply returns_mono; [by apply render_in_use|]. intros [g' rd'] ctx' tr (Ht & _).
    rewrite drawn_passes, Ht, drawnSteps_expectedPasses by (by eapply wf_framebuffers).
    by rewrite Hv.
  - eapply returns_mono; [by apply render_in_use|]. intros [g' rd'] ctx' tr (Ht & _).
    rewrite drawn_passes, Ht, drawnSteps_expectedPasses by (by eapply wf_framebuffers).
    by rewrite Hv.
  - intros v' rtp.
    eapply returns_mono; [by apply render_in_use|]. intros [g' rd'] ctx' tr (Ht & _).
    rewrite drawn_passes, Ht, drawnSteps_expectedPasses by (by eapply wf_framebuffers).
    intros id Hid. apply list_elem_of_In, in_map_iff in Hid as (r & Hr & Hin).
    apply filter_In in Hin as [Hin Hd].
    exists r. unfold drawable in Hd. apply andb_true_iff in Hd as [Hvis Hpick].
    split_and!; try done.
    + apply list_elem_of_In.
      destruct (isColor v'); [|destruct rtp; [done|by apply filter_In in Hin as [? _]]].
      unfold colorOrder in Hin. rewrite !in_app_iff, !filter_In in Hin. tauto.
    + intros Hp. rewrite Hp in Hpick. by rewrite orb_false_r in Hpick.
Qed.

(** C3. The capability decision is taken at construction from the three
    extensions (float textures, float color buffers, depth textures) and no
    method changes it; a render call takes the WBOIT path exactly when the
    decision is positive and the call is a transparent sub-pass of the color
    variant, so the path can be reached if and only if the three extensions
    were present; and when the decision is negative every color render call is
    the ordered alpha-blending fallback. *)
Theorem C3_capability_gate props cs ctx0 :
  returns (session props cs) ctx0 (fun rd ctx _ =>
    enableWboit rd = wboitCapable (extensions ctx0) /\
    (forall rt g cam v clr tb dt rtp,
       returns (render rt g cam v clr tb dt rtp rd) ctx (fun '(_, rd') _ tr =>
         enableWboit rd' = enableWboit rd /\
         usesWboit tr = wboitCapable (extensions ctx0) && isColor v && rtp)) /\
    ((exists rt g cam v clr tb dt rtp,
        returns (render rt g cam v clr tb dt rtp rd) ctx (fun _ _ tr => usesWboit tr = true))
     <-> wboitCapable (extensions ctx0) = true) /\
    (wboitCapable (extensions ctx0) = false ->
     forall rt g cam clr tb dt rtp,
       returns (render rt g cam "color" clr tb dt rtp rd) ctx (fun _ _ tr =>
         usesWboit tr = false /\
         passes tr =
           [SBind (targetBinding rt)]
           ++ clearSteps "color" clr tb (targetBinding rt) (bgColor rd)
           ++ orderedBlendSteps "color" (targetBinding rt) (scene_of (renderables g))))).
Proof.
  eapply returns_mono; [apply session_returns|]. intros rd ctx tr0 [Hwf Hext].
  assert (Hew : enableWboit rd = wboitCapable (extensions ctx0)).
  { destruct Hwf as [-> _]. by rewrite Hext. }
  assert (Hrender : forall rt g cam v clr tb dt rtp,
    returns (render rt g cam v clr tb dt rtp rd) ctx (fun '(_, rd') _ tr =>
      enableWboit rd' = enableWboit rd /\
      usesWboit tr = wboitCapable (extensions ctx0) && isColor v && rtp)).
  { intros. eapply returns_mono; [by apply render_in_use|].
    intros [g' rd'] ctx' tr (Ht & Ho & _).
    unfold ownership in Ho. injection Ho as _ _ _ _ _ Ho _ _ _ _.
    split; [done|].
    unfold usesWboit. rewrite Ht, usesOwn_expectedPasses by (by eapply wf_framebuffers).
    rewrite Hew. by destruct (wboitCapable _), (isColor v). }
  split_and!; [done|done| |].
  - split.
    + intros (rt & g & cam & v & clr & tb & dt & rtp & Hr).
      specialize (Hrender rt g cam v clr tb dt rtp).
      unfold returns in *.
      destruct (render rt g cam v clr tb dt rtp rd ctx) as [[[[g' rd'] ctx'] tr]|]; [|done].
      destruct Hrender as [_ Hu]. rewrite Hr in Hu.
      by destruct (wboitCapable (extensions ctx0)).
    + intros Hcap.
      exists None, (mkGroup []), sampleCamera, "color", false, false, None, true.
      eapply returns_mono; [apply Hrender|].
      intros [g' rd'] ctx' tr [_ ->]. by rewrite Hcap.
  - intros Hcap rt g cam clr tb dt rtp.
    eapply returns_mono; [by apply render_in_use|].
    intros [g' rd'] ctx' tr (Ht & _).
    split.
    + unfold usesWboit. rewrite Ht, usesOwn_expectedPasses by (by eapply wf_framebuffers).
      by rewrite Hew, Hcap.
    + rewrite Ht. unfold expectedPasses, bodySteps. by rewrite Hew, Hcap.
Qed.

(** C2, as amended.  In a color render call with WBOIT unavailable the
    opaque drawables are drawn with blending disabled and both transparent
    buckets with blending enabled under one and the same function,
    [blendFuncSeparate(SRC_ALPHA, ONE_MINUS_SRC_ALPHA, ONE, ONE)]; with WBOIT
    available and no transparent sub-pass requested, all three buckets are
    drawn with blending disabled.  In both cases the call is a single pass:
    one bind of the target, the optional clear, the draws. *)
Theorem C2_fallback_blending props cs ctx0 rt g cam clr tb dt :
  returns (session props cs) ctx0 (fun rd ctx _ =>
    let target := targetBinding rt in
    let sc := scene_of (renderables g) in
    if wboitCapable (extensions ctx0) then
      returns (render rt g cam "color" clr tb dt false rd) ctx (fun _ _ tr =>
        passes tr =
          [SBind target] ++ clearSteps "color" clr tb target (bgColor rd)
          ++ bucketDraws isOpaque "color" target None sc
          ++ bucketDraws isTransparentWriteDepth "color" target None sc
          ++ bucketDraws isTransparentNoDepth "color" target None sc)
    else
      forall rtp,
        returns (render rt g cam "color" clr tb dt rtp rd) ctx (fun _ _ tr =>
          passes tr =
            [SBind target] ++ clearSteps "color" clr tb target (bgColor rd)
            ++ bucketDraws isOpaque "color" target None sc
            ++ bucketDraws isTransparentWriteDepth "color" target
                 (Some (SRC_ALPHA, ONE_MINUS_SRC_ALPHA, ONE, ONE)) sc
            ++ bucketDraws isTransparentNoDepth "color" target
                 (Some (SRC_ALPHA, ONE_MINUS_SRC_ALPHA, ONE, ONE)) sc)).
Proof.
  eapply returns_mono; [apply session_returns|]. intros rd ctx tr0 [Hwf Hext].
  assert (Hew : enableWboit rd = wboitCapable (extensions ctx0)).
  { destruct Hwf as [-> _]. by rewrite Hext. }
  cbv zeta. destruct (wboitCapable (extensions ctx0)).
  - eapply returns_mono; [by apply render_in_use|].
    intros [g' rd'] ctx' tr (Ht & _).
    rewrite Ht. unfold expectedPasses, bodySteps. by rewrite Hew.
  - intros rtp. eapply returns_mono; [by apply render_in_use|].
    intros [g' rd'] ctx' tr (Ht & _).
    rewrite Ht. unfold expectedPasses, bodySteps. by rewrite Hew.
Qed.

(** C4, the code at fault.  Without the draw-buffers extension the two
    accumulation textures hang on two framebuffers, and a WBOIT sub-pass binds
    and clears the first one only: the only texture a clear of the call writes
    is [accumA]; [accumB], which the resolve pass samples, is never cleared. *)
Theorem C4_accumB_not_cleared props cs ctx0 rt g cam clr tb dt :
  wboitCapable (extensions ctx0) = true ->
  drawBuffers (extensions ctx0) = false ->
  returns (session props cs) ctx0 (fun rd ctx _ =>
    returns (render rt g cam "color" clr tb dt true rd) ctx (fun _ _ tr =>
      exists a b,
        wboitATexture rd = Some a /\ wboitBTexture rd = Some b /\
        texturesCleared tr = [a] /\ (b ∉ texturesCleared tr) /\
        SResolve a b (targetBinding rt) (Some RESOLVE) ∈ passes tr)).
Proof.
  intros Hcap Hdb.
  eapply returns_mono; [apply session_returns|]. intros rd ctx tr0 [Hwf Hext].
  eapply returns_mono; [by apply render_in_use|].
  intros [g' rd'] ctx' tr (Ht & _).
  destruct Hwf as (Hew & _ & Hfbs & _). rewrite Hext, Hcap in Hew.
  destruct (wboitFramebuffers rd) as [|fb fbs] eqn:Hfb; [done|].
  rewrite Hew, Hext, Hdb in Hfbs. destruct Hfbs as (_ & a & b & Hab & HA & HB & Hev & Hlook).
  exists a, b.
  rewrite texturesCleared_passes, Ht, (stepsCleared_wboit _ _ _ _ _ _ fb fbs) by done.
  unfold clearedBy. rewrite Hlook. cbn.
  split_and!; try done.
  - rewrite elem_of_cons, elem_of_nil. intros [->|[]]. done.
  - unfold expectedPasses, bodySteps, wboitSteps. rewrite Hew, Hfb, Hev.
    cbn [isColor String.eqb Ascii.eqb Bool.eqb negb tWboitA tWboitB].
    repeat first [rewrite elem_of_cons | rewrite elem_of_app]. tauto.
Qed.

(** The sibling configuration: with the draw-buffers extension both
    accumulation textures hang on the framebuffer that the sub-pass clears. *)
Lemma wboit_clears_both_with_drawBuffers props cs ctx0 rt g cam clr tb dt :
  wboitCapable (extensions ctx0) = true ->
  drawBuffers (extensions ctx0) = true ->
  returns (session props cs) ctx0 (fun rd ctx _ =>
    returns (render rt g cam "color" clr tb dt true rd) ctx (fun _ _ tr =>
      exists a b,
        wboitATexture rd = Some a /\ wboitBTexture rd = Some b /\
        texturesCleared tr = [a; b])).
Proof.
  intros Hcap Hdb.
  eapply returns_mono; [apply session_returns|]. intros rd ctx tr0 [Hwf Hext].
  eapply returns_mono; [by apply render_in_use|].
  intros [g' rd'] ctx' tr (Ht & _).
  destruct Hwf as (Hew & _ & Hfbs & _). rewrite Hext, Hcap in Hew.
  destruct (wboitFramebuffers rd) as [|fb fbs] eqn:Hfb; [done|].
  rewrite Hew, Hext, Hdb in Hfbs. destruct Hfbs as (_ & a & b & Hab & HA & HB & Hev & Hlook).
  exists a, b.
  rewrite texturesCleared_passes, Ht, (stepsCleared_wboit _ _ _ _ _ _ fb fbs) by done.
  unfold clearedBy. rewrite Hlook. done.
Qed.

Lemma setProps_backgroundColor (c : Color) rd :
  bgColor rd = Color_toVec3Normalized (backgroundColor (p rd)) ->
  bgColor (setProps (onlyBackgroundColor c) rd) = Color_toVec3Normalized c.
Proof.
  intros Hbg. unfold setProps, onlyBackgroundColor. cbn.
  destruct (int_same c (backgroundColor (p rd))) eqn:Hc; cbn; [|done].
  apply int_same_eq in Hc. by rewrite Hbg, Hc.
Qed.

(** C5. A render call that clears, clears its target first: in the color
    variant to the configured background color, with alpha 0 when
    [transparentBackground] is set and 1 otherwise; in the other variants to
    white.  And after [setProps({ backgroundColor: c })], [clear(false)]
    clears the canvas to [c] with alpha 1 and [clear(true)] with alpha 0. *)
Theorem C5_clear_colors props cs ctx0 :
  returns (session props cs) ctx0 (fun rd ctx _ =>
    (forall rt g cam tb dt rtp,
       returns (render rt g cam "color" true tb dt rtp rd) ctx (fun _ _ tr =>
         exists color,
           take 2 (passes tr)
           = [SBind (targetBinding rt); SClear true true (targetBinding rt) color []] /\
           rgb color = Color_toVec3Normalized (backgroundColor (p rd)) /\
           alpha color = if tb then n0 else n1)) /\
    (forall rt g cam v tb dt rtp,
       isColor v = false ->
       returns (render rt g cam v true tb dt rtp rd) ctx (fun _ _ tr =>
         take 2 (passes tr)
         = [SBind (targetBinding rt);
            SClear true true (targetBinding rt) (n1, n1, n1, n1) []])) /\
    (forall c tb,
       returns (clear tb (setProps (onlyBackgroundColor c) rd)) ctx (fun _ _ tr =>
         exists color,
           passes tr
           = [SBind DefaultFramebuffer; SClear true true DefaultFramebuffer color []] /\
           rgb color = Color_toVec3Normalized c /\
           alpha color = if tb then n0 else n1))).
Proof.
  eapply returns_mono; [apply session_returns|]. intros rd ctx tr0 [Hwf Hext].
  pose proof Hwf as (_ & Hbg & _).
  split_and!.
  - intros. eapply returns_mono; [by apply render_in_use|].
    intros [g' rd'] ctx' tr (Ht & _).
    rewrite Ht. unfold expectedPasses, clearSteps. rewrite Hbg.
    destruct (Color_toVec3Normalized _) as [[r g0] b].
    by exists (r, g0, b, if tb then n0 else n1).
  - intros rt g cam v tb dt rtp Hv. eapply returns_mono; [by apply render_in_use|].
    intros [g' rd'] ctx' tr (Ht & _).
    rewrite Ht. unfold expectedPasses, clearSteps. by rewrite Hv.
  - intros c tb. eapply returns_mono; [apply clear_returns|].
    intros [] ctx' tr (Ht & _).
    rewrite Ht, setProps_backgroundColor by done.
    destruct (Color_toVec3Normalized c) as [[r g0] b].
    by exists (r, g0, b, if tb then n0 else n1).
Qed.

(** A second [setViewport] with the values of the first one changes nothing
    and only repeats the two GL calls. *)
Lemma setViewport_again x y w h rd ctx :
  x <> NaN -> y <> NaN -> w <> NaN -> h <> NaN ->
  viewport rd = (x, y, w, h) ->
  st_viewport (state ctx) = (x, y, w, h) -> st_scissor (state ctx) = (x, y, w, h) ->
  setViewport x y w h rd ctx
  = Some (rd, ctx, [EvViewport (x, y, w, h); EvScissor (x, y, w, h)]).
Proof.
  intros Hx Hy Hw Hh Hv Hsv Hss. unfold setViewport. rewrite Hv. run.
  rewrite !int_same_refl by done. cbn.
  destruct ctx as [e [] r q]. cbn in *. by subst.
Qed.

(** C7. A second call of [setViewport] with the same four values, none of
    them [NaN], does not delete or create a framebuffer, does not touch the
    accumulation textures, leaves the counters of [stats] and every uniform
    as they are: the renderer and the context are unchanged, and the call
    only repeats [gl.viewport] and [gl.scissor].  (The test of line 598 is
    [!==], which holds of [NaN] against itself.) *)
Theorem C7_setViewport_idempotent props cs ctx0 x y w h :
  x <> NaN -> y <> NaN -> w <> NaN -> h <> NaN ->
  returns (session props cs) ctx0 (fun rd ctx _ =>
    returns (setViewport x y w h rd) ctx (fun rd1 ctx1 _ =>
      returns (setViewport x y w h rd1) ctx1 (fun rd2 ctx2 tr =>
        tr = [EvViewport (x, y, w, h); EvScissor (x, y, w, h)] /\
        framebuffersCreated tr = [] /\ framebuffersDeleted tr = [] /\
        wboitFramebuffers rd2 = wboitFramebuffers rd1 /\
        wboitATexture rd2 = wboitATexture rd1 /\ wboitBTexture rd2 = wboitBTexture rd1 /\
        resources ctx2 = resources ctx1 /\
        framebufferCount (stats ctx2) = framebufferCount (stats ctx1) /\
        globalUniforms rd2 = globalUniforms rd1 /\
        rd2 = rd1 /\ ctx2 = ctx1))).
Proof.
  intros Hx Hy Hw Hh.
  eapply returns_mono; [apply session_returns|]. intros rd ctx tr0 [Hwf Hext].
  eapply returns_mono; [by apply setViewport_returns|].
  intros rd1 ctx1 tr1 (_ & _ & Hv & Hsv & Hss & _).
  unfold returns. rewrite setViewport_again by done. done.
Qed.

(** C9, the code at fault.  [dispose] is an empty function: it deletes no
    framebuffer and no texture, the context and the counters of [stats] are
    what they were, and every WBOIT framebuffer and both accumulation
    textures of the renderer are still alive afterwards. *)
Theorem C9_dispose_releases_nothing props cs ctx0 :
  returns (session props cs) ctx0 (fun rd ctx _ =>
    returns (dispose rd) ctx (fun _ ctx' tr =>
      tr = [] /\ framebuffersDeleted tr = [] /\ ctx' = ctx /\ stats ctx' = stats ctx /\
      wboitFramebuffers rd <> [] /\
      Forall (fun fb => is_Some (framebuffers (resources ctx') !! fb))
        (wboitFramebuffers rd) /\
      (forall t, wboitATexture rd = Some t \/ wboitBTexture rd = Some t ->
         is_Some (textures (resources ctx') !! t)) /\
      (enableWboit rd = true ->
         is_Some (wboitATexture rd) /\ is_Some (wboitBTexture rd)))).
Proof.
  eapply returns_mono; [apply session_returns|]. intros rd ctx tr0 [Hwf Hext].
  unfold dispose. apply returns_ret.
  pose proof (wf_framebuffers _ _ Hwf) as Hne.
  destruct Hwf as (_ & _ & Hfbs & Hlf & Hlt & _).
  split_and!; try done.
  intros Hew. destruct (wboitFramebuffers rd) as [|fb rest]; [done|].
  rewrite Hew in Hfbs. destruct Hfbs as (_ & a & b & _ & -> & -> & _). done.
Qed.

(** C10. [Renderer.create] always makes the WBOIT framebuffers: two with
    the draw-buffers extension, three without, whatever the float-texture
    capabilities; [stats.framebufferCount] grows by as many.  Only the two
    float textures and the resolve renderable depend on the capability gate. *)
Theorem C10_framebuffers_always_allocated props ctx0 :
  returns (create props) ctx0 (fun rd ctx tr =>
    let n := if drawBuffers (extensions ctx0) then 2%nat else 3%nat in
    length (wboitFramebuffers rd) = n /\
    framebuffersCreated tr = wboitFramebuffers rd /\
    framebufferCount (stats ctx) = framebufferCount (stats ctx0) + Z.of_nat n /\
    enableWboit rd = wboitCapable (extensions ctx0) /\
    textureCount (stats ctx)
    = textureCount (stats ctx0) + (if wboitCapable (extensions ctx0) then 2 else 0) /\
    if wboitCapable (extensions ctx0) then
      is_Some (wboitATexture rd) /\ is_Some (wboitBTexture rd) /\
      is_Some (evaluateWboitRenderable rd)
    else
      wboitATexture rd = None /\ wboitBTexture rd = None /\
      evaluateWboitRenderable rd = None).
Proof.
  eapply returns_mono; [apply create_returns|].
  intros rd ctx tr (Hwf & Hext & _ & _ & Hcr & Hlen & Hfc & Htc).
  cbv zeta. rewrite <- Hlen. split_and!; try done.
  - destruct Hwf as [-> _]. by rewrite Hext.
  - destruct Hwf as (Hew & _ & Hfbs & _). rewrite Hext in Hew. rewrite <- Hew.
    destruct (wboitFramebuffers rd) as [|fb rest]; [done|].
    destruct Hfbs as [_ Htex]. destruct (enableWboit rd); [|done].
    destruct Htex as (a & b & _ & -> & -> & -> & _). done.
Qed.
End Claims.

Section ClipClaim.
Context `{MathLib}.

Lemma deepEqual_length a b :
  deepEqual a b = true -> length (cp_objects a) = length (cp_objects b).
Proof.
  unfold deepEqual. intros [_ Hobjs]%andb_true_iff.
  revert Hobjs. generalize (cp_objects b).
  induction (cp_objects a) as [|x xs IH]; intros [|y ys] Hd; cbn in *; try done.
  apply andb_true_iff in Hd as [_ Hd]. f_equal. by apply IH.
Qed.

(** C8, as amended.  In a renderer whose clip parameters never hold more
    than five clip objects, at construction and in every [setProps]: after
    [Renderer.create] the count is the number of configured objects and the
    slots past it hold the fills of the fresh arrays, type plane, position 0,
    scale (1,1,1) and the all-zero rotation (0,0,0,0); in every state reached
    the arrays have their five slots (5, 15, 20 and 15 entries) and the count
    is the number of configured objects; and [setProps] with the clip
    parameters [c] records the number of objects of [c], keeps the five slots
    and leaves the slots past the count as they were before the update. *)
Theorem C8_clip_slots props cs ctx0 (c : ClipProps) :
  clipBounded props -> Forall callBounded cs -> (length (cp_objects c) <= 5)%nat ->
  returns (create props) ctx0 (fun rd _ _ =>
    count (objects (clip rd)) = length (cp_objects (props_clip (p rd))) /\
    defaultsBeyondCount (objects (clip rd))) /\
  returns (session props cs) ctx0 (fun rd _ _ =>
    let rd' := setProps (onlyClip c) rd in
    (count (objects (clip rd)) = length (cp_objects (props_clip (p rd))) /\
     fiveSlots (objects (clip rd))) /\
    count (objects (clip rd')) = length (cp_objects c) /\
    fiveSlots (objects (clip rd')) /\
    keepsBeyondCount (objects (clip rd)) (objects (clip rd'))).
Proof.
  intros Hb Hcs Hn. split.
  - eapply returns_mono; [apply create_returns|].
    intros rd ctx tr (_ & _ & Hp & Hclip & _).
    rewrite Hclip. apply getClip_fresh. rewrite Hp. unfold clipBounded in Hb. cbn.
    destruct (opt_clip props); [done|cbn; lia].
  - eapply returns_mono; [by apply session_fiveSlots|].
    intros rd ctx tr [Hwf Hfive]. cbv zeta.
    assert (clip (setProps (onlyClip c) rd)
            = if deepEqual c (props_clip (p rd)) then clip rd
              else getClip c (Some (clip rd))) as ->.
    { unfold setProps, onlyClip. cbn. by destruct (deepEqual c (props_clip (p rd))). }
    destruct Hwf as (_ & _ & _ & _ & _ & Hcnt).
    split; [done|].
    destruct (deepEqual c (props_clip (p rd))) eqn:Hd.
    + apply deepEqual_length in Hd. split_and!; [congruence|done|done].
    + by apply getClip_spec.
Qed.

End ClipClaim.

(** * Further lemmas *)

(** * Further properties *)

(** ** [getClip] in closed form *)

(** A store at an index inside the array or at its end replaces or appends
    one entry. *)
Lemma js_store_splice a i v :
  (i <= length a)%nat -> js_store a i v = take i a ++ [Some v] ++ drop (S i) a.
Proof.
  intros Hi. unfold js_store, jsarray in *.
  destruct (decide (i < length a)%nat) as [Hlt|Hge]; cbv iota beta.
  - by rewrite insert_take_drop.
  - assert (i = length a) as -> by lia.
    rewrite Nat.sub_diag, firstn_all, drop_ge by lia. done.
Qed.

Lemma splice_step (a : jsarray) off (pre : jsarray) x :
  (off <= length a)%nat ->
  js_store (take off a ++ pre ++ drop (off + length pre) a) (off + length pre) x
  = take off a ++ (pre ++ [Some x]) ++ drop (off + length (pre ++ [Some x])) a.
Proof.
  intros Hoff. rewrite js_store_splice.
  - rewrite length_app. cbn [length].
    rewrite (take_app_add' (take off a)) by (rewrite length_take; lia).
    rewrite take_app_length.
    replace (S (off + length pre)) with (off + S (length pre))%nat by lia.
    rewrite (drop_app_add' (take off a)) by (rewrite length_take; lia).
    replace (S (length pre)) with (length pre + 1)%nat by lia.
    rewrite drop_app_add' by done.
    rewrite drop_drop. rewrite <- !app_assoc. cbn.
    do 3 f_equal. f_equal. lia.
  - rewrite !length_app, length_take. lia.
Qed.

Lemma Vec3_toArray_splice v out off :
  (off <= length out)%nat ->
  Vec3_toArray v out off = take off out ++ vec3_entries v ++ drop (off + 3) out.
Proof.
  intros Hoff. destruct v as [[x y] z]. unfold Vec3_toArray, vec3_entries.
  pose proof (splice_step out off [] x Hoff) as H1. cbn [length app] in H1.
  rewrite Nat.add_0_r, take_drop in H1. rewrite H1.
  pose proof (splice_step out off [Some x] y Hoff) as H2. cbn [length app] in H2.
  rewrite H2.
  pose proof (splice_step out off [Some x; Some y] z Hoff) as H3. cbn [length app] in H3.
  rewrite H3. done.
Qed.

Lemma Quat_toArray_splice q out off :
  (off <= length out)%nat ->
  Quat_toArray q out off = take off out ++ quat_entries q ++ drop (off + 4) out.
Proof.
  intros Hoff. destruct q as [[[x y] z] w]. unfold Quat_toArray, quat_entries.
  pose proof (splice_step out off [] x Hoff) as H1. cbn [length app] in H1.
  rewrite Nat.add_0_r, take_drop in H1. rewrite H1.
  pose proof (splice_step out off [Some x] y Hoff) as H2. cbn [length app] in H2.
  rewrite H2.
  pose proof (splice_step out off [Some x; Some y] z Hoff) as H3. cbn [length app] in H3.
  rewrite H3.
  pose proof (splice_step out off [Some x; Some y; Some z] w Hoff) as H4. cbn [length app] in H4.
  rewrite H4. done.
Qed.

Lemma splice_take {A} (a pre : list A) off m :
  (off <= length a)%nat ->
  take (off + length pre) (take off a ++ pre ++ drop m a) = take off a ++ pre.
Proof.
  intros Hoff. rewrite take_app_add' by (rewrite length_take; lia).
  by rewrite take_app_length.
Qed.

Lemma splice_drop {A} (a pre : list A) off m k :
  (off <= length a)%nat ->
  drop (off + length pre + k) (take off a ++ pre ++ drop m a) = drop (m + k) a.
Proof.
  intros Hoff. rewrite <- Nat.add_assoc.
  rewrite drop_app_add' by (rewrite length_take; lia).
  rewrite drop_app_add' by done. rewrite drop_drop. done.
Qed.

Lemma splice_length {A} (a pre : list A) off m :
  (off <= length a)%nat ->
  (off + length pre <= length (take off a ++ pre ++ drop m a))%nat.
Proof. intros Hoff. rewrite !length_app, length_take. lia. Qed.

Section ClipArrays.
Context `{MathLib}.

Lemma getClip_loop_splice objs : forall i t ps r s,
  (i <= length t)%nat -> (i * 3 <= length ps)%nat ->
  (i * 4 <= length r)%nat -> (i * 3 <= length s)%nat ->
  getClip_loop objs i t ps r s
  = (take i t ++ typeEntries objs ++ drop (i + length objs) t,
     take (i * 3) ps ++ positionEntries objs ++ drop ((i + length objs) * 3) ps,
     take (i * 4) r ++ rotationEntries objs ++ drop ((i + length objs) * 4) r,
     take (i * 3) s ++ scaleEntries objs ++ drop ((i + length objs) * 3) s).
Proof.
  induction objs as [|o objs IH]; intros i t ps r s Lt Lp Lr Ls; cbn [getClip_loop].
  - unfold typeEntries, positionEntries, rotationEntries, scaleEntries. cbn.
    rewrite Nat.add_0_r, !take_drop. done.
  - rewrite js_store_splice, !Vec3_toArray_splice, Quat_toArray_splice by done.
    set (q := Quat_setAxisAngle _ _).
    assert (length (vec3_entries (co_position o)) = 3%nat) as Lvp
      by (by destruct (co_position o) as [[??]?]).
    assert (length (vec3_entries (co_scale o)) = 3%nat) as Lvs
      by (by destruct (co_scale o) as [[??]?]).
    assert (length (quat_entries q) = 4%nat) as Lq by (by destruct q as [[[??]?]?]).
    rewrite IH.
    + unfold typeEntries, positionEntries, rotationEntries, scaleEntries.
      cbn [map concat length]. fold q.
      pose proof (splice_take t [Some (Clipping_Type (co_type o))] i (S i) Lt) as Tt.
      pose proof (splice_take ps (vec3_entries (co_position o)) (i * 3) (i * 3 + 3) Lp) as Tp.
      pose proof (splice_take r (quat_entries q) (i * 4) (i * 4 + 4) Lr) as Tr.
      pose proof (splice_take s (vec3_entries (co_scale o)) (i * 3) (i * 3 + 3) Ls) as Ts.
      pose proof (splice_drop t [Some (Clipping_Type (co_type o))] i (S i) (length objs) Lt) as Dt.
      pose proof (splice_drop ps (vec3_entries (co_position o)) (i * 3) (i * 3 + 3)
                    (length objs * 3) Lp) as Dp.
      pose proof (splice_drop r (quat_entries q) (i * 4) (i * 4 + 4) (length objs * 4) Lr) as Dr.
      pose proof (splice_drop s (vec3_entries (co_scale o)) (i * 3) (i * 3 + 3)
                    (length objs * 3) Ls) as Ds.
      rewrite Lvp in Tp, Dp. rewrite Lvs in Ts, Ds. rewrite Lq in Tr, Dr. cbn [length] in Tt, Dt.
      replace (S i) with (i + 1)%nat at 1 by lia. rewrite Tt.
      replace (S i * 3)%nat with (i * 3 + 3)%nat by lia. rewrite Tp, Ts.
      replace (S i * 4)%nat with (i * 4 + 4)%nat by lia. rewrite Tr.
      replace (S i + length objs)%nat with (i + 1 + length objs)%nat by lia. rewrite Dt.
      replace ((i + 1 + length objs) * 3)%nat with (i * 3 + 3 + length objs * 3)%nat by lia.
      rewrite Dp, Ds.
      replace ((i + 1 + length objs) * 4)%nat with (i * 4 + 4 + length objs * 4)%nat by lia.
      rewrite Dr.
      replace (S i + length objs)%nat with (i + S (length objs))%nat by lia.
      replace (i * 3 + 3 + length objs * 3)%nat with ((i + S (length objs)) * 3)%nat by lia.
      replace (i * 4 + 4 + length objs * 4)%nat with ((i + S (length objs)) * 4)%nat by lia.
      rewrite <- !app_assoc. done.
    + pose proof (splice_length t [Some (Clipping_Type (co_type o))] i (S i) Lt). cbn in *. lia.
    + pose proof (splice_length ps (vec3_entries (co_position o)) (i * 3) (i * 3 + 3) Lp). lia.
    + pose proof (splice_length r (quat_entries q) (i * 4) (i * 4 + 4) Lr). lia.
    + pose proof (splice_length s (vec3_entries (co_scale o)) (i * 3) (i * 3 + 3) Ls). lia.
Qed.

Lemma entries_length objs :
  length (typeEntries objs) = length objs /\
  length (positionEntries objs) = (length objs * 3)%nat /\
  length (rotationEntries objs) = (length objs * 4)%nat /\
  length (scaleEntries objs) = (length objs * 3)%nat.
Proof.
  unfold typeEntries, positionEntries, rotationEntries, scaleEntries.
  induction objs as [|o objs (IH1 & IH2 & IH3 & IH4)]; [done|].
  cbn [map concat]. rewrite !length_app, IH2, IH3, IH4. cbn [length]. rewrite length_map.
  destruct (co_position o) as [[??]?], (co_scale o) as [[??]?],
    (Quat_setAxisAngle _ _) as [[[??]?]?]. cbn. lia.
Qed.

Lemma getClip_splice (c : ClipProps) (old : option Clip) :
  getClip c old
  = mkClip (cp_variant c)
      (mkClipObjects (length (cp_objects c))
         (typeEntries (cp_objects c) ++ drop (length (cp_objects c)) (type (startArrays old)))
         (positionEntries (cp_objects c)
          ++ drop (length (cp_objects c) * 3) (position (startArrays old)))
         (rotationEntries (cp_objects c)
          ++ drop (length (cp_objects c) * 4) (rotation (startArrays old)))
         (scaleEntries (cp_objects c)
          ++ drop (length (cp_objects c) * 3) (scale (startArrays old)))).
Proof.
  unfold getClip.
  change (match old with Some c0 => objects c0 | None => _ end) with (startArrays old).
  rewrite getClip_loop_splice by lia. done.
Qed.

End ClipArrays.

(** ** [setProps] *)

Lemma vec3_same_refl v : vec3_defined v -> vec3_same v v = true.
Proof.
  destruct v as [[x y] z]. intros (Hx & Hy & Hz). unfold vec3_same.
  by rewrite !num_same_refl.
Qed.

Lemma deepEqual_refl c : Forall clipObject_defined (cp_objects c) -> deepEqual c c = true.
Proof.
  unfold deepEqual. rewrite String.eqb_refl. cbn.
  induction 1 as [|o objs (Hp & Ha & Hn & Hs) _ IH]; [done|].
  cbn. rewrite IH. unfold clipObject_deepEqual.
  by rewrite String.eqb_refl, !vec3_same_refl, num_same_refl.
Qed.

(** Names the renderer after each stage of [setProps], in a goal
    [P (setProps props rd)]. *)
Ltac let_out :=
  lazymatch goal with
  | |- context C [let x := ?A in @?B x] =>
      let y := fresh "rd" in
      set (y := A);
      let g := context C [B y] in
      change g; cbv beta
  end.

Ltac stages := cbv beta delta [setProps]; repeat let_out.

(** Peels the last stage off a goal [P (stage ...)], for a [P] that the stage
    keeps. *)
Ltac peel_with P tac :=
  first [ apply (whenChanged_inv P) | apply (whenDefined_inv P) ];
  [ clear; intros ? ? ? ?; tac
  | cbv beta; try match goal with x := _ |- _ => subst x end ].

Ltac peel P := peel_with P ltac:(cbn -[getClip]; try done).

(** What the stage of a given parameter establishes. *)
Lemma whenChanged_given {A} (P : Renderer -> Prop) (o : option A) same cur k rd a :
  o = Some a -> (same a cur = true -> P rd) -> P (k a rd) ->
  P (whenChanged o same cur k rd).
Proof. intros -> Hs Hk. unfold whenChanged. destruct (same a cur); auto. Qed.

Lemma whenChanged_noop {A} (o : option A) same cur k rd :
  (forall a, o = Some a -> same a cur = true) -> whenChanged o same cur k rd = rd.
Proof.
  intros Hs. unfold whenChanged. destruct o as [a|]; [|done]. by rewrite Hs.
Qed.

Ltac uniform_lookup :=
  repeat first [ rewrite lookup_alter_ne by done | rewrite lookup_alter_eq ].

Section SetProps.
Context `{MathLib}.

Lemma setProps_given props rd :
  let q := p (setProps props rd) in
  (forall a, opt_backgroundColor props = Some a -> a = backgroundColor q) /\
  (forall a, opt_pickingAlphaThreshold props = Some a ->
     a = pickingAlphaThreshold q \/ num_same a (pickingAlphaThreshold q) = true) /\
  (forall a, opt_transparencyVariant props = Some a -> a = transparencyVariant q) /\
  (forall a, opt_interiorDarkening props = Some a ->
     a = interiorDarkening q \/ num_same a (interiorDarkening q) = true) /\
  (forall a, opt_interiorColorFlag props = Some a -> a = interiorColorFlag q) /\
  (forall a, opt_interiorColor props = Some a -> a = interiorColor q) /\
  (forall a, opt_highlightColor props = Some a -> a = highlightColor q) /\
  (forall a, opt_selectColor props = Some a -> a = selectColor q) /\
  (forall a, opt_style props = Some a -> a = props_style q) /\
  (forall a, opt_clip props = Some a ->
     a = props_clip q \/ deepEqual a (props_clip q) = true).
Proof.
  cbv zeta. split_and!; intros a Ha.
  - change ((fun r => a = backgroundColor (p r)) (setProps props rd)). stages.
    do 9 peel (fun r => a = backgroundColor (p r)).
    apply (whenChanged_given (fun r => a = backgroundColor (p r)) _ _ _ _ _ a Ha); [|done].
    by intros E%int_same_eq.
  - change ((fun r => a = pickingAlphaThreshold (p r)
                      \/ num_same a (pickingAlphaThreshold (p r)) = true)
              (setProps props rd)).
    stages.
    do 8 peel (fun r => a = pickingAlphaThreshold (p r)
                        \/ num_same a (pickingAlphaThreshold (p r)) = true).
    apply (whenChanged_given
             (fun r => a = pickingAlphaThreshold (p r)
                       \/ num_same a (pickingAlphaThreshold (p r)) = true)
             _ _ _ _ _ a Ha); [by right|by left].
  - change ((fun r => a = transparencyVariant (p r)) (setProps props rd)). stages.
    do 7 peel (fun r => a = transparencyVariant (p r)).
    apply (whenChanged_given (fun r => a = transparencyVariant (p r)) _ _ _ _ _ a Ha); [|done].
    by intros E%String.eqb_eq.
  - change ((fun r => a = interiorDarkening (p r)
                      \/ num_same a (interiorDarkening (p r)) = true) (setProps props rd)).
    stages.
    do 6 peel (fun r => a = interiorDarkening (p r)
                        \/ num_same a (interiorDarkening (p r)) = true).
    apply (whenChanged_given
             (fun r => a = interiorDarkening (p r)
                       \/ num_same a (interiorDarkening (p r)) = true)
             _ _ _ _ _ a Ha); [by right|by left].
  - change ((fun r => a = interiorColorFlag (p r)) (setProps props rd)). stages.
    do 5 peel (fun r => a = interiorColorFlag (p r)).
    apply (whenChanged_given (fun r => a = interiorColorFlag (p r)) _ _ _ _ _ a Ha); [|done].
    by intros E%Bool.eqb_prop.
  - change ((fun r => a = interiorColor (p r)) (setProps props rd)). stages.
    do 4 peel (fun r => a = interiorColor (p r)).
    apply (whenChanged_given (fun r => a = interiorColor (p r)) _ _ _ _ _ a Ha); [|done].
    by intros E%int_same_eq.
  - change ((fun r => a = highlightColor (p r)) (setProps props rd)). stages.
    do 3 peel (fun r => a = highlightColor (p r)).
    apply (whenChanged_given (fun r => a = highlightColor (p r)) _ _ _ _ _ a Ha); [|done].
    by intros E%int_same_eq.
  - change ((fun r => a = selectColor (p r)) (setProps props rd)). stages.
    do 2 peel (fun r => a = selectColor (p r)).
    apply (whenChanged_given (fun r => a = selectColor (p r)) _ _ _ _ _ a Ha); [|done].
    by intros E%int_same_eq.
  - change ((fun r => a = props_style (p r)) (setProps props rd)). stages.
    do 1 peel (fun r => a = props_style (p r)).
    rewrite Ha. done.
  - change ((fun r => a = props_clip (p r) \/ deepEqual a (props_clip (p r)) = true)
              (setProps props rd)). stages.
    apply (whenChanged_given
             (fun r => a = props_clip (p r) \/ deepEqual a (props_clip (p r)) = true)
             _ _ _ _ _ a Ha); [by right|by left].
Qed.

Lemma setProps_not_given props rd :
  let q := p (setProps props rd) in
  (opt_backgroundColor props = None -> backgroundColor q = backgroundColor (p rd)) /\
  (opt_pickingAlphaThreshold props = None ->
     pickingAlphaThreshold q = pickingAlphaThreshold (p rd)) /\
  (opt_transparencyVariant props = None ->
     transparencyVariant q = transparencyVariant (p rd)) /\
  (opt_interiorDarkening props = None -> interiorDarkening q = interiorDarkening (p rd)) /\
  (opt_interiorColorFlag props = None -> interiorColorFlag q = interiorColorFlag (p rd)) /\
  (opt_interiorColor props = None -> interiorColor q = interiorColor (p rd)) /\
  (opt_highlightColor props = None -> highlightColor q = highlightColor (p rd)) /\
  (opt_selectColor props = None -> selectColor q = selectColor (p rd)) /\
  (opt_style props = None -> props_style q = props_style (p rd)) /\
  (opt_clip props = None -> props_clip q = props_clip (p rd)).
Proof.
  cbv zeta. split_and!; intros Ha.
  all: match goal with
       | |- ?f (p (setProps ?pr ?r0)) = ?x =>
           change ((fun r => f (p r) = x) (setProps pr r0)); stages;
           do 10 (first [ apply (whenChanged_inv (fun r => f (p r) = x))
                        | apply (whenDefined_inv (fun r => f (p r) = x)) ];
                  [ intros ? ? ? ?; cbn -[getClip]; congruence
                  | cbv beta; try match goal with y := _ |- _ => subst y end ])
       end.
  all: done.
Qed.

(** X4: [setProps] merges the parameters given over the current ones, as
    [PD.merge] does at construction, except that a value that the test of its
    stage does not tell from the current one is not taken over ([NaN] is
    always taken over: the test tells it from everything). *)
Theorem setProps_merges props rd :
  sameProps (PD_merge (p rd) props) (p (setProps props rd)).
Proof.
  pose proof (setProps_given props rd) as (G1 & G2 & G3 & G4 & G5 & G6 & G7 & G8 & G9 & G10).
  pose proof (setProps_not_given props rd)
    as (N1 & N2 & N3 & N4 & N5 & N6 & N7 & N8 & N9 & N10).
  set (q := p (setProps props rd)) in *. clearbody q.
  unfold sameProps, PD_merge. cbn.
  split_and!.
  - destruct (opt_backgroundColor props); cbn; [by apply G1|by rewrite N1].
  - destruct (opt_pickingAlphaThreshold props); cbn; [by apply G2|rewrite N2 by done; by left].
  - destruct (opt_transparencyVariant props); cbn; [by apply G3|by rewrite N3].
  - destruct (opt_interiorDarkening props); cbn; [by apply G4|rewrite N4 by done; by left].
  - destruct (opt_interiorColorFlag props); cbn; [by apply G5|by rewrite N5].
  - destruct (opt_interiorColor props); cbn; [by apply G6|by rewrite N6].
  - destruct (opt_highlightColor props); cbn; [by apply G7|by rewrite N7].
  - destruct (opt_selectColor props); cbn; [by apply G8|by rewrite N8].
  - destruct (opt_style props); cbn; [by apply G9|by rewrite N9].
  - destruct (opt_clip props); cbn; [by apply G10|rewrite N10 by done; by left].
Qed.

(** [setProps] with a style overwrites the object that [style] is bound to:
    the object stays the same one (the caller's, if the renderer was made
    with a custom style), it then holds the values of the style given, and
    [p.style] is the style given. *)
Lemma setProps_style_object props rd :
  styleObject (setProps props rd) = styleObject rd /\
  given (opt_style props) (fun s =>
    style (setProps props rd) = getStyle s /\ props_style (p (setProps props rd)) = s).
Proof.
  split.
  - change ((fun r => styleObject r = styleObject rd) (setProps props rd)). stages.
    do 10 peel (fun r => styleObject r = styleObject rd).
    done.
  - destruct (opt_style props) as [s|] eqn:Hs; [cbn|done].
    change ((fun r => style r = getStyle s /\ props_style (p r) = s) (setProps props rd)).
    stages.
    do 1 peel (fun r => style r = getStyle s /\ props_style (p r) = s).
    rewrite Hs. done.
Qed.

Lemma settled_noop r k v :
  settled r k v -> updateUniformIfChanged k (UNum v) r = r.
Proof.
  intros Hs. unfold updateUniformIfChanged, set_globalUniforms.
  rewrite alter_id; [by destruct r|].
  intros c Hc. unfold ValueCell.updateIfChanged. by rewrite (Hs c Hc).
Qed.

(** After [setProps] with a style that holds no [NaN], the style values
    are those of the style and a second [updateIfChanged] of the five
    material uniforms finds nothing to change. *)
Lemma setProps_style props rd s :
  opt_style props = Some s -> style_defined (getStyle s) ->
  styleSettled s (setProps props rd).
Proof.
  intros Hs (D1 & D2 & D3 & D4 & D5). stages.
  apply (whenChanged_inv (styleSettled s)).
  - clear. intros c0 r0 Hc0 (Hst & H1 & H2 & H3 & H4 & H5).
    unfold styleSettled, settled in *. normalise.
    split_and!; [exact Hst|..]; intros c; rewrite !lookup_alter_ne by done; auto.
  - match goal with x := _ |- _ => subst x end. rewrite Hs. unfold whenDefined.
    match goal with x := _ |- _ => clearbody x end.
    unfold styleSettled, settled. normalise.
    split_and!; [reflexivity|..]; intros c; uniform_lookup.
    all: destruct (_ !! _) as [c0|]; [|done]; cbn [fmap option_fmap option_map].
    all: unfold ValueCell.updateIfChanged.
    all: destruct (uvalue_same (value c0) _) eqn:E; intros [= <-];
      [done|by apply num_same_refl].
Qed.

(** X5: a second [setProps] with the same parameters, none of whose numbers
    is [NaN], changes nothing: no parameter, no uniform and no version.  (The
    tests of lines 540-574 are [!==], which holds of [NaN] against itself.) *)
Theorem setProps_idempotent props rd :
  props_defined props ->
  setProps props (setProps props rd) = setProps props rd.
Proof.
  intros (D1 & D2 & D4 & D6 & D7 & D8 & D9 & D10).
  pose proof (setProps_given props rd) as (G1 & G2 & G3 & G4 & G5 & G6 & G7 & G8 & G9 & G10).
  pose proof (setProps_style props rd) as Hstyle.
  cbv zeta in *. set (r := setProps props rd) in *. clearbody r.
  change ((fun x => x = r) (setProps props r)). stages.
  do 8 (lazymatch reverse goal with
        | x := whenChanged _ _ _ _ _ |- _ =>
            let E := fresh in
            assert (x = r) as E
              by (apply whenChanged_noop; intros a Ha;
                  first [ rewrite <- (G1 a Ha); apply int_same_refl; by rewrite Ha in D1
                        | destruct (G2 a Ha) as [<-|E2];
                            [apply num_same_refl; by rewrite Ha in D2|exact E2]
                        | rewrite <- (G3 a Ha); apply String.eqb_refl
                        | destruct (G4 a Ha) as [<-|E4];
                            [apply num_same_refl; by rewrite Ha in D4|exact E4]
                        | rewrite <- (G5 a Ha); apply Bool.eqb_reflx
                        | rewrite <- (G6 a Ha); apply int_same_refl; by rewrite Ha in D6
                        | rewrite <- (G7 a Ha); apply int_same_refl; by rewrite Ha in D7
                        | rewrite <- (G8 a Ha); apply int_same_refl; by rewrite Ha in D8 ]);
            clearbody x; subst x
        end).
  lazymatch reverse goal with
  | x := whenDefined _ _ _ |- _ => assert (x = r) as E; [subst x|clearbody x; subst x]
  end.
  { destruct (opt_style props) as [s|] eqn:Hs; [|done]. cbn [whenDefined].
    destruct (Hstyle s eq_refl D9) as (Hst & H1 & H2 & H3 & H4 & H5).
    specialize (G9 s eq_refl).
    normalise.
    assert (set_style (getStyle s) (set_p (with_style s (p r)) r) = r) as ->.
    { destruct r as [p0 st0 so cl0 vp bg ew tA tB ev fbs gu gf].
      destruct p0 as [a1 a2 a3 a4 a5 a6 a7 a8 a9 a10].
      unfold set_style, set_p, with_style. cbn in *. by subst. }
    rewrite (settled_noop r "uLightIntensity") by exact H1.
    rewrite (settled_noop r "uAmbientIntensity") by exact H2.
    rewrite (settled_noop r "uMetalness") by exact H3.
    rewrite (settled_noop r "uRoughness") by exact H4.
    by apply settled_noop. }
  apply whenChanged_noop. intros a Ha.
  destruct (G10 a Ha) as [<-|E10]; [apply deepEqual_refl; by rewrite Ha in D10|exact E10].
Qed.

End SetProps.

(** ** [renderObject] and the loops, in full *)

Lemma objectState_exact r ctx :
  objectState r ctx
  = Some (tt,
          mkContext (extensions ctx)
            (with_flags (objectFlags (fragDepth (extensions ctx)) r) (state ctx))
            (resources ctx) (pixelRatio ctx),
          []).
Proof.
  unfold objectState, objectFlags. run.
  destruct (dRenderMode (r_values r)) as [mode|]; run.
  - destruct (String.eqb (value mode) "volume" || negb (fragDepth (extensions ctx))); run; done.
  - destruct (dDoubleSided (r_values r)) as [d|], (dFlipSided (r_values r)) as [f|]; run.
    all: repeat (split_match; run); try done.
    all: repeat match goal with
                | Hx : _ || _ = _ |- _ => rewrite Hx
                | Hx : value _ = _ |- _ => rewrite Hx
                end; done.
Qed.

Lemma renderObject_exact r v sh rd ctx :
  renderObject r v sh rd ctx
  = if drawable v (r_state r) then
      let program := r_program r v in
      let switch := negb (currentProgramId (state ctx) =? program) in
      let st :=
        with_flags (objectFlags (fragDepth (extensions ctx)) r)
          (set_currentProgramId program (state ctx)) in
      Some ((synced rd r, set_globalUniformsNeedUpdate false rd),
            mkContext (extensions ctx) st (resources ctx) (pixelRatio ctx),
            (if definesDiffer rd r then [EvUpdateDefines (r_id r)] else [])
            ++ (if switch then [EvUseProgram program] else [])
            ++ (if switch || globalUniformsNeedUpdate rd
                then [EvSetUniforms (globalUniforms rd)] else [])
            ++ [EvDraw (r_id r) v sh st])
    else Some ((r, rd), ctx, []).
Proof.
  unfold renderObject, drawable, synced, definesDiffer, syncDefines.
  destruct (visible (r_state r)), (pickable (r_state r)), (isPick v); cbn [negb orb andb];
    try reflexivity.
  all: cbv zeta; cbn [fst snd].
  all: match goal with
       | |- context [if ?b then emit _ else _] => destruct b
       end; run.
  all: destruct (currentProgramId (state ctx) =? r_program r v) eqn:Hp; cbn [negb]; run.
  all: destruct (globalUniformsNeedUpdate rd) eqn:Hg; run.
  all: rewrite objectState_exact; cbn.
  all: try apply Z.eqb_eq in Hp.
  all: unfold objectFlags; cbn.
  all: destruct ctx as [e s res q], s, rd; cbn in *; subst; reflexivity.
Qed.

Lemma uploadsBeforeDraws_app f t1 t2 :
  uploadsBeforeDraws f (t1 ++ t2)
  = uploadsBeforeDraws f t1 && uploadsBeforeDraws (freshAfter f t1) t2.
Proof.
  revert f. induction t1 as [|e t1 IH]; intros f; [done|].
  destruct e; cbn; rewrite ?IH; try done. by rewrite andb_assoc.
Qed.

Lemma freshAfter_app f t1 t2 : freshAfter f (t1 ++ t2) = freshAfter (freshAfter f t1) t2.
Proof.
  revert f. induction t1 as [|e t1 IH]; intros f; [done|].
  destruct e; cbn; rewrite ?IH; done.
Qed.

Lemma definesUpdated_app t1 t2 : definesUpdated (t1 ++ t2) = definesUpdated t1 ++ definesUpdated t2.
Proof. apply omap_app. Qed.

Lemma kindOf_afterBucket fd v sel v' rd r : kindOf fd v (afterBucket sel v' rd r) = kindOf fd v r.
Proof.
  unfold afterBucket. destruct (sel (r_state r) && drawable v' (r_state r)); [|done].
  unfold kindOf, synced, objectFlags, syncDefines. done.
Qed.

Lemma afterBucket_flag sel v rd b :
  afterBucket sel v (set_globalUniformsNeedUpdate b rd) = afterBucket sel v rd.
Proof. done. Qed.

Lemma flagsOf_with_flags f s : flagsOf (with_flags f s) = f.
Proof. by destruct f as [[[[??]?]?]?]. Qed.

(** One loop of [render]. *)
Lemma renderBucket_full sel v sh rs : forall rd ctx,
  returns (renderBucket sel v sh rs rd) ctx (fun '(rs', rd') ctx' tr =>
    extensions ctx' = extensions ctx /\ resources ctx' = resources ctx /\
    pixelRatio ctx' = pixelRatio ctx /\
    frameOf (state ctx') = frameOf (state ctx) /\
    bucketRan (fragDepth (extensions ctx)) v sh (rectOf (state ctx)) sel
      (List.filter (fun r => sel (r_state r)) rs) rd rs rs' rd' tr).
Proof.
  induction rs as [|r rs IH]; intros rd ctx.
  - cbn. unfold bucketRan. split_and!; try done.
    exists (globalUniformsNeedUpdate rd). by destruct rd.
  - cbn [renderBucket]. unfold returns, mbind, mret, G_MBind, G_MRet, G_bind, G_ret.
    assert (Hstep :
      (if sel (r_state r) then renderObject r v sh rd else mret (r, rd)) ctx
      = if sel (r_state r) && drawable v (r_state r)
        then renderObject r v sh rd ctx else Some ((r, rd), ctx, [])).
    { destruct (sel (r_state r)); [|done]. rewrite renderObject_exact.
      by destruct (drawable v (r_state r)). }
    unfold mret, G_MRet, G_ret in Hstep. rewrite Hstep. clear Hstep.
    destruct (sel (r_state r) && drawable v (r_state r)) eqn:Hsel.
    + apply andb_true_iff in Hsel as [Hs Hd].
      rewrite renderObject_exact, Hd. cbv zeta.
      set (st1 := with_flags _ _).
      set (ctx1 := mkContext _ st1 _ _).
      set (rd1 := set_globalUniformsNeedUpdate false rd).
      set (t1 := (if definesDiffer rd r then _ else _) ++ _).
      cbv beta iota. specialize (IH rd1 ctx1). unfold returns in IH.
      destruct (renderBucket sel v sh rs rd1 ctx1) as [[[[rs' rd'] ctx'] tr]|]; [|done].
      destruct IH as (He & Hr & Hq & Hf & Hrs & [b Hb] & Hev & Hup & Hdef).
      cbv beta iota. rewrite app_nil_r. unfold bucketRan. split_and!; try done.
      * cbn [map]. unfold afterBucket at 1. rewrite Hs, Hd. cbn [andb]. by rewrite Hrs.
      * exists b. rewrite Hb. done.
      * apply Forall_app. split.
        -- subst t1. repeat (apply Forall_app; split).
           all: try (destruct (definesDiffer rd r); by repeat constructor).
           all: try (match goal with |- context [if ?c then _ else _] => destruct c end;
                     by repeat constructor).
           apply Forall_cons. split; [|constructor]. cbn [bucketEvent].
           split_and!; try done. exists (r_state r). split; [|done].
           cbn [map]. apply elem_of_cons. left.
           subst st1. unfold kindOf. by rewrite flagsOf_with_flags.
        -- eapply Forall_impl; [exact Hev|]. intros e He'.
           destruct e; cbn in *; try done.
           destruct He' as (? & ? & ? & s & Hin & Hdr). split_and!; try done.
           exists s. split; [|done]. apply elem_of_cons. by right.
      * intros f Hfresh.
        assert (uploadsBeforeDraws f t1 = true /\ freshAfter f t1 = true) as [U1 F1].
        { subst t1. destruct (definesDiffer rd r); cbn.
          all: destruct (negb (currentProgramId (state ctx) =? r_program r v)); cbn.
          all: destruct (globalUniformsNeedUpdate rd) eqn:Hg; cbn; try done.
          all: by rewrite Hfresh. }
        rewrite uploadsBeforeDraws_app, freshAfter_app, U1, F1.
        destruct (Hup true) as [U2 F2]; [done|]. by rewrite U2.
      * rewrite definesUpdated_app, Hdef. cbn [List.filter]. rewrite Hs. cbn [List.filter].
        rewrite Hd. cbn [andb].
        subst t1. unfold definesUpdated. rewrite !omap_app.
        destruct (definesDiffer rd r); cbn.
        all: destruct (negb (currentProgramId (state ctx) =? r_program r v)); cbn.
        all: destruct (globalUniformsNeedUpdate rd); cbn; done.
    + cbv beta iota. specialize (IH rd ctx). unfold returns in IH.
      destruct (renderBucket sel v sh rs rd ctx) as [[[[rs' rd'] ctx'] tr]|]; [|done].
      destruct IH as (He & Hr & Hq & Hf & Hrs & [b Hb] & Hev & Hup & Hdef).
      cbv beta iota. rewrite app_nil_r. unfold bucketRan. cbn [app]. split_and!; try done.
      * cbn [map]. unfold afterBucket at 1. rewrite Hsel. by rewrite Hrs.
      * by exists b.
      * eapply Forall_impl; [exact Hev|]. intros e He'.
        destruct e; cbn in *; try done.
        destruct He' as (? & ? & ? & s & Hin & Hdr). split_and!; try done.
        exists s. split; [|done]. apply elem_of_cons. by right.
      * cbn [List.filter]. destruct (sel (r_state r)); [|done].
        cbn [List.filter]. cbn in Hsel. by rewrite Hsel.
Qed.

Lemma filter_map_fixed {A} (f : A -> bool) (g : A -> A) (l : list A) :
  (forall x, f (g x) = f x) -> (forall x, f x = true -> g x = x) ->
  List.filter f (map g l) = List.filter f l.
Proof.
  intros Hf Hg. induction l as [|x l IH]; [done|].
  cbn. rewrite Hf. destruct (f x) eqn:E; [|done]. by rewrite Hg, IH.
Qed.

Lemma kinds_afterBucket fd v sel v' rd rs :
  map (kindOf fd v) (map (afterBucket sel v' rd) rs) = map (kindOf fd v) rs.
Proof. rewrite map_map. apply map_ext. intros r. apply kindOf_afterBucket. Qed.

(** The three loops of a color pass, one after the other. *)
Lemma bucketRan_color fd v sh R rd rs rs1 rs2 rs3 rd1 rd2 rd3 t1 t2 t3 :
  bucketRan fd v sh R isOpaque (List.filter (fun r => isOpaque (r_state r)) rs)
    rd rs rs1 rd1 t1 ->
  bucketRan fd v sh R isTransparentWriteDepth
    (List.filter (fun r => isTransparentWriteDepth (r_state r)) rs1) rd1 rs1 rs2 rd2 t2 ->
  bucketRan fd v sh R isTransparentNoDepth
    (List.filter (fun r => isTransparentNoDepth (r_state r)) rs2) rd2 rs2 rs3 rd3 t3 ->
  bucketRan fd v sh R (fun _ => true) (colorOrder rs) rd rs rs3 rd3 (t1 ++ t2 ++ t3).
Proof.
  intros (-> & [b1 ->] & E1 & U1 & D1) (-> & [b2 ->] & E2 & U2 & D2)
         (-> & [b3 ->] & E3 & U3 & D3).
  rewrite !kinds_afterBucket in *.
  unfold bucketRan. split_and!.
  - rewrite !map_map. apply map_ext. intros r.
    unfold afterBucket, isOpaque, isTransparentWriteDepth, isTransparentNoDepth.
    destruct (opaque (r_state r)) eqn:Ho, (writeDepth (r_state r)) eqn:Hw,
      (drawable v (r_state r)) eqn:Hd;
      repeat (progress (cbn [andb negb r_state synced]; rewrite ?Ho, ?Hw, ?Hd)); done.
  - exists b3. by destruct rd.
  - repeat (apply Forall_app; split); done.
  - intros f Hf.
    destruct (U1 f Hf) as [A1 F1].
    destruct (U2 (freshAfter f t1) F1) as [A2 F2].
    destruct (U3 (freshAfter (freshAfter f t1) t2) F2) as [A3 F3].
    rewrite !uploadsBeforeDraws_app, !freshAfter_app, A1, A2, A3. done.
  - assert (forall sel v' rd' r, r_state (afterBucket sel v' rd' r) = r_state r) as Hst.
    { intros sel v' rd' r. unfold afterBucket. by destruct (sel _ && _). }
    rewrite (filter_map_fixed (fun r => isTransparentWriteDepth (r_state r))) in D2.
    2: { intros r. by rewrite Hst. }
    2: { intros r Hr. unfold afterBucket, isOpaque, isTransparentWriteDepth in *.
         destruct (opaque (r_state r)); done. }
    rewrite !(filter_map_fixed (fun r => isTransparentNoDepth (r_state r))) in D3.
    2, 4: intros r; by rewrite Hst.
    2: { intros r Hr. unfold afterBucket, isOpaque, isTransparentNoDepth in *.
         destruct (opaque (r_state r)); done. }
    2: { intros r Hr. unfold afterBucket, isTransparentWriteDepth, isTransparentNoDepth in *.
         destruct (opaque (r_state r)), (writeDepth (r_state r)); done. }
    rewrite !definesUpdated_app, D1, D2, D3. unfold colorOrder.
    rewrite !List.filter_app, !map_app. reflexivity.
Qed.

Lemma frameOf_inv s s' :
  frameOf s' = frameOf s ->
  st_blend s' = st_blend s /\ st_scissorTest s' = st_scissorTest s /\
  st_colorMask s' = st_colorMask s /\ st_blendFunc s' = st_blendFunc s /\
  st_clearColor s' = st_clearColor s /\ st_viewport s' = st_viewport s /\
  st_scissor s' = st_scissor s /\ st_bound s' = st_bound s /\
  currentRenderItemId s' = currentRenderItemId s.
Proof. unfold frameOf. intros [= -> -> -> -> -> -> -> -> ->]. done. Qed.

Lemma renderBuckets_full v sh rs rd ctx :
  returns (renderBuckets v sh rs rd) ctx (fun '(rs', rd') ctx' tr =>
    extensions ctx' = extensions ctx /\ resources ctx' = resources ctx /\
    pixelRatio ctx' = pixelRatio ctx /\
    frameOf (state ctx') = frameOf (state ctx) /\
    bucketRan (fragDepth (extensions ctx)) v sh (rectOf (state ctx)) (fun _ => true)
      (colorOrder rs) rd rs rs' rd' tr).
Proof.
  unfold renderBuckets. apply returns_bind.
  eapply returns_mono; [apply renderBucket_full|].
  intros [rs1 rd1] ctx1 t1 (He1 & Hr1 & Hq1 & Hf1 & Hran1).
  apply returns_bind.
  eapply returns_mono; [apply renderBucket_full|].
  intros [rs2 rd2] ctx2 t2 (He2 & Hr2 & Hq2 & Hf2 & Hran2).
  eapply returns_mono; [apply renderBucket_full|].
  intros [rs3 rd3] ctx3 t3 (He3 & Hr3 & Hq3 & Hf3 & Hran3).
  assert (rectOf (state ctx1) = rectOf (state ctx)) as HR1.
  { apply frameOf_inv in Hf1 as (_ & A & B & _ & _ & C & D & _). unfold rectOf. congruence. }
  assert (rectOf (state ctx2) = rectOf (state ctx)) as HR2.
  { apply frameOf_inv in Hf2 as (_ & A & B & _ & _ & C & D & _). unfold rectOf.
    unfold rectOf in HR1. congruence. }
  rewrite He2, He1 in Hran3. rewrite He1 in Hran2. rewrite HR1 in Hran2. rewrite HR2 in Hran3.
  split_and!; try congruence.
  by eapply bucketRan_color.
Qed.

(** ** [render], in full *)

Lemma bucketEvent_render v sh vp u ks e :
  bucketEvent v sh (true, allChannels, vp, vp) u ks e -> renderEvent v sh vp u ks e.
Proof. destruct e; cbn; done. Qed.

Lemma definesUpdated_cons e t :
  definesUpdated (e :: t)
  = match e with EvUpdateDefines r => r :: definesUpdated t | _ => definesUpdated t end.
Proof. by destruct e. Qed.

Lemma bucketRan_always fd v sh R sel order rd rs rs' rd' tr :
  globalUniformsNeedUpdate rd = true ->
  bucketRan fd v sh R sel order rd rs rs' rd' tr ->
  forall fresh, uploadsBeforeDraws fresh tr = true.
Proof.
  intros Hn (_ & _ & _ & Hup & _) f. apply Hup. rewrite Hn. done.
Qed.


Ltac stepF :=
  lazymatch goal with
  | |- returns (mbind _ _) _ _ => apply returns_bind
  | |- returns (mret _) _ _ => apply returns_ret
  | |- returns (modifyState _) _ _ => apply returns_modifyState
  | |- returns (modifyResources _) _ _ => apply returns_modifyResources
  | |- returns (emit _) _ _ => apply returns_emit
  | |- returns getCtx _ _ => apply returns_getCtx
  | |- returns (element _ _) _ _ => eapply returns_element; [reflexivity|]
  | |- returns (renderBuckets ?v ?sh ?rs ?rd) ?c _ =>
      eapply returns_mono; [apply (renderBuckets_full v sh rs rd c)|];
      intros [? ?] ? ? (? & ? & ? & ?%frameOf_inv & ?)
  | |- returns (renderBucket ?sel ?v ?sh ?rs ?rd) ?c _ =>
      eapply returns_mono; [apply (renderBucket_full sel v sh rs rd c)|];
      intros [? ?] ? ? (? & ? & ? & ?%frameOf_inv & ?)
  | |- returns (match ?x with _ => _ end) _ _ => destruct x eqn:?
  | |- returns _ _ _ => progress autounfold with glops
  end; normalise.

Lemma render_full rt g cam v clr tb dt rtp rd ctx :
  wboitFramebuffers rd <> [] ->
  returns (render rt g cam v clr tb dt rtp rd) ctx (fun '(g', rd') ctx' tr =>
    let u := renderUniforms cam tb (isColor v && enableWboit rd && rtp) rd in
    ownership rd' = ownership rd /\ globalUniforms rd' = u /\
    extensions ctx' = extensions ctx /\ resources ctx' = resources ctx /\
    pixelRatio ctx' = pixelRatio ctx /\
    st_bound (state ctx') = targetBinding rt /\
    rectOf (state ctx') = (true, allChannels, viewport rd, viewport rd) /\
    renderables g' = map (afterBucket (renderSelects v rtp) v rd) (renderables g) /\
    Forall (renderEvent v (sharedTextures dt) (viewport rd) u
              (map (kindOf (fragDepth (extensions ctx)) v) (renderables g))) tr /\
    (forall fresh, uploadsBeforeDraws fresh tr = true) /\
    definesUpdated tr
    = map r_id (List.filter (fun r => drawable v (r_state r) && definesDiffer rd r)
                  (renderOrder v rtp (renderables g)))).
Proof.
  intros Hfb.
  destruct rd as [p0 st0 so cl0 [[[vx vy] vw] vh] [[bgr bgg] bgb] ew tA tB ev fbs gu gf].
  destruct g as [rs].
  unfold render, renderUniforms, updateCameraUniforms, renderOrder, renderSelects.
  change (match dt with Some t => [("tDepth", t)] | None => [] end) with (sharedTextures dt).
  cbn [renderables viewport bgColor enableWboit wboitFramebuffers evaluateWboitRenderable
       updateUniform updateUniformIfChanged set_globalUniforms set_globalUniformsNeedUpdate
       p style clip wboitATexture wboitBTexture globalUniforms globalUniformsNeedUpdate].
  cbv zeta.
  destruct (isColor v) eqn:Hv, ew, rtp; cbn [negb andb]; cbn in Hfb.
  all: try (destruct fbs as [|fb fbs]; [done|]).
  all: repeat stepF.
  all: repeat match goal with
              | Hx : st_blend _ = _ /\ _ |- _ =>
                  destruct Hx as (? & ? & ? & ? & ? & ? & ? & ? & ?)
              end.
  all: unfold rectOf in *;
       cbn [st_blend st_scissorTest st_colorMask st_viewport st_scissor st_bound
            st_blendFunc st_clearColor currentRenderItemId
            set_capability set_blendFunc set_clearColor set_depthMask
            set_bound set_viewport set_scissor set_colorMask
            set_currentRenderItemId state extensions resources pixelRatio] in *.
  all: repeat match goal with
              | Hx : extensions _ = _ |- _ => rewrite Hx in *; clear Hx
              | Hx : st_scissorTest (state _) = _ |- _ => rewrite Hx in *; clear Hx
              | Hx : st_colorMask (state _) = _ |- _ => rewrite Hx in *; clear Hx
              | Hx : st_viewport (state _) = _ |- _ => rewrite Hx in *; clear Hx
              | Hx : st_scissor (state _) = _ |- _ => rewrite Hx in *; clear Hx
              | Hx : st_bound (state _) = _ |- _ => rewrite Hx in *; clear Hx
              | Hx : resources _ = _ |- _ => rewrite Hx in *; clear Hx
              | Hx : pixelRatio _ = _ |- _ => rewrite Hx in *; clear Hx
              end.
  all: try match goal with
           | H1 : bucketRan _ _ _ _ isOpaque _ _ _ _ _ _,
             H2 : bucketRan _ _ _ _ isTransparentWriteDepth _ _ _ _ _ _,
             H3 : bucketRan _ _ _ _ isTransparentNoDepth _ _ _ _ _ _ |- _ =>
               pose proof (bucketRan_color _ _ _ _ _ _ _ _ _ _ _ _ _ _ _ H1 H2 H3);
               clear H1 H2 H3
           end.
  all: rewrite ?app_nil_r, ?app_nil_l, <- ?app_assoc.
  all: try match goal with
           | Hr : bucketRan _ _ _ _ _ _ _ _ _ _ _ |- _ =>
               let Hup := fresh "Hup" in
               pose proof (fun Hn => bucketRan_always _ _ _ _ _ _ _ _ _ _ _ Hn Hr) as Hup;
               specialize (Hup eq_refl);
               destruct Hr as (-> & [? ->] & ? & _ & ?)
           end.
  all: cbn [ownership p style clip viewport bgColor enableWboit wboitATexture wboitBTexture
            evaluateWboitRenderable wboitFramebuffers globalUniforms globalUniformsNeedUpdate
            updateUniform updateUniformIfChanged set_globalUniforms
            set_globalUniformsNeedUpdate] in *.
  all: try match goal with
           | Hx : Forall _ (?t ++ ?t0 ++ ?t1) |- _ =>
               rewrite (app_assoc t0 t1), (app_assoc t (t0 ++ t1));
               let T := fresh "T" in set (T := t ++ t0 ++ t1) in *; clearbody T
           end.
  all: split_and!; try reflexivity.
  all: try (intros f; cbn [app uploadsBeforeDraws];
            rewrite ?uploadsBeforeDraws_app; cbn [app uploadsBeforeDraws];
            rewrite ?Hup; reflexivity).
  all: try (repeat first [ apply Forall_nil | apply Forall_cons; split | apply Forall_app; split ];
            first [ by (cbn [renderEvent bucketEvent st_scissorTest st_colorMask st_viewport
                             st_scissor st_depthMask set_capability set_blendFunc
                             set_clearColor set_depthMask set_bound set_viewport set_scissor
                             set_colorMask set_currentRenderItemId];
                        rewrite ?H, ?H0, ?H1, ?H2, ?H3, ?H4, ?H5, ?H6, ?H7, ?H8, ?H9, ?H10;
                        repeat split; try done; try congruence)
                  | eapply Forall_impl; [eassumption|]; intros ? ?; by apply bucketEvent_render ]).
  all: try (cbn [app];
            repeat first [ rewrite definesUpdated_cons | rewrite definesUpdated_app ];
            change (definesUpdated []) with (@nil nat); rewrite ?app_nil_r;
            first [ eassumption | reflexivity ]).
  all: symmetry; etrans; [|apply map_id]; apply map_ext; intros ?; reflexivity.
Qed.

(** ** [create] and [setViewport], in full *)

Section Effects.
Context `{MathLib}.

Lemma create_effect props ctx0 :
  returns (create props) ctx0 (fun rd ctx tr =>
    p rd = PD_merge defaultProps props /\
    style rd = getStyle (props_style (p rd)) /\
    clip rd = getClip (props_clip (p rd)) None /\
    viewport rd = (Num 0, Num 0, Num 0, Num 0) /\
    bgColor rd = Color_toVec3Normalized (backgroundColor (p rd)) /\
    globalUniforms rd
    = initialUniforms ctx0 (p rd) (style rd) (clip rd) (Num 0, Num 0, Num 0, Num 0) (bgColor rd) /\
    globalUniformsNeedUpdate rd = true /\
    pixelRatio ctx = pixelRatio ctx0 /\
    (forall t, wboitATexture rd = Some t \/ wboitBTexture rd = Some t ->
       textures (resources ctx) !! t = Some (mkTexture (Num 0) (Num 0))) /\
    (forall t, (t < next_id (resources ctx0))%nat ->
       textures (resources ctx) !! t = textures (resources ctx0) !! t) /\
    (forall fb, (fb < next_id (resources ctx0))%nat ->
       framebuffers (resources ctx) !! fb = framebuffers (resources ctx0) !! fb)).
Proof.
  unfold create.
  destruct (textureFloat (extensions ctx0) && colorBufferFloat (extensions ctx0)
            && depthTexture (extensions ctx0)) eqn:Hcap;
    destruct (drawBuffers (extensions ctx0)) eqn:Hdb.
  all: do 2 step; rewrite ?Hcap, ?Hdb.
  all: repeat step.
  all: rewrite ?Hdb, ?Hcap; normalise.
  all: split_and!; try reflexivity.
  all: try (intros ? [[= <-]|[= <-]]; map_lookup; done).
  all: try (intros ? [|]; done).
  all: try (intros ? ?; map_lookup; done).
Qed.

Lemma setViewport_effect x y w h rd ctx :
  wf rd ctx ->
  returns (setViewport x y w h rd) ctx (fun rd' ctx' tr =>
    p rd' = p rd /\ style rd' = style rd /\ clip rd' = clip rd /\
    bgColor rd' = bgColor rd /\ enableWboit rd' = enableWboit rd /\
    wboitATexture rd' = wboitATexture rd /\ wboitBTexture rd' = wboitBTexture rd /\
    evaluateWboitRenderable rd' = evaluateWboitRenderable rd /\
    globalUniformsNeedUpdate rd' = globalUniformsNeedUpdate rd /\
    viewport rd' = (x, y, w, h) /\
    stats ctx' = stats ctx /\ pixelRatio ctx' = pixelRatio ctx /\
    if viewportChanged x y w h (viewport rd) then
      globalUniforms rd'
      = globalUniforms
          (updateUniform "uViewport" (UVec [num_of_int x; num_of_int y; num_of_int w; num_of_int h])
             (updateUniform "uViewportHeight" (UNum (num_of_int h)) rd)) /\
      texturesSized rd' ctx' /\
      framebuffersDeleted tr = take (replaced (extensions ctx)) (wboitFramebuffers rd) /\
      framebuffersCreated tr = wboitFramebuffers rd' /\
      length (wboitFramebuffers rd') = replaced (extensions ctx)
    else
      rd' = rd /\ resources ctx' = resources ctx /\
      framebuffersDeleted tr = [] /\ framebuffersCreated tr = []).
Proof.
  destruct rd as [p0 st0 so cl0 [[[vx vy] vw] vh] bg ew tA tB ev fbs gu gf].
  unfold wf, viewportChanged, texturesSized, replaced.
  cbn [enableWboit bgColor p clip wboitFramebuffers wboitATexture wboitBTexture
       evaluateWboitRenderable viewport].
  intros (Hew & Hbg & Hfbs & Hlf & Hlt & Hcnt).
  destruct fbs as [|fb0 rest]; [done|]. destruct Hfbs as [Hrest Htex].
  destruct ew; [destruct Htex as (a & b & Hab & -> & -> & -> & Hfb)
                |destruct Htex as (-> & -> & ->)].
  all: unfold setViewport; repeat step.
  all: try (destruct rest as [|fb1 rest]; [by destruct Hrest|]; repeat step).
  all: unfold stats; normalise.
  all: repeat match goal with Hd : drawBuffers _ = _ |- _ => rewrite Hd in *; clear Hd end.
  all: split_and!; try reflexivity.
  all: try (f_equal; lia).
  all: try (intros ? [[= <-]|[= <-]]; map_lookup; done).
  all: try (intros ? [|]; done).
  all: repeat match goal with
              | Hn : _ || _ = false |- _ => apply orb_false_elim in Hn as [? ?]
              | Hn : negb (int_same _ _) = false |- _ =>
                  apply negb_false_iff, int_same_eq in Hn; subst
              end.
  all: done.
Qed.

End Effects.

(** ** Invariants of a session *)

Ltac props_fields :=
  cbn [backgroundColor pickingAlphaThreshold transparencyVariant interiorDarkening
       interiorColorFlag interiorColor highlightColor selectColor props_style props_clip
       with_backgroundColor with_pickingAlphaThreshold with_transparencyVariant
       with_interiorDarkening with_interiorColorFlag with_interiorColor
       with_highlightColor with_selectColor with_style with_clip
       lightIntensity ambientIntensity metalness roughness reflectivity] in *.

(** A uniform after a chain of updates of other uniforms, or after its own
    update. *)
Ltac uniform_goal :=
  unfold uniformIs, uniformSame in *; normalise; uniform_lookup;
  first
    [ eassumption
    | match goal with
      | Hk : exists c, globalUniforms ?r !! ?k = Some c /\ _
        |- exists c', _ <$> globalUniforms ?r !! ?k = Some c' /\ _ =>
          let c := fresh "c" in
          let E := fresh "E" in
          destruct Hk as (c & -> & _); cbn [fmap option_fmap option_map];
          unfold ValueCell.updateIfChanged, ValueCell.update;
          first
            [ by (eexists; split; [reflexivity|])
            | destruct (uvalue_same (value c) _) eqn:E;
              (eexists; split; [reflexivity|]); cbn [value];
              first [ by right | by left ] ]
      end ].

Section Mirror.
Context `{MathLib}.

Lemma getClip_variant c old : variant (getClip c old) = cp_variant c.
Proof. by rewrite getClip_splice. Qed.

Lemma setProps_mirrored props rd : mirrored rd -> mirrored (setProps props rd).
Proof.
  intros Hm. stages.
  do 10 (first [ apply (whenChanged_inv mirrored) | apply (whenDefined_inv mirrored) ];
         [ clear; intros a r Ha Hm; unfold mirrored in *; normalise;
           destruct (viewport r) as [[[vx vy] vw] vh];
           destruct Hm as (M1 & M2 & M3 & M4 & M5 & M6 & M7 & M8 & M9 & M10 & M11 & M12
                           & M13 & M14 & M15 & M16 & M17 & M18 & M19 & M20);
           props_fields; rewrite ?getClip_variant;
           split_and!; first [ done | uniform_goal ]
         | cbv beta; try match goal with y := _ |- _ => subst y end ]).
  exact Hm.
Qed.


Lemma create_mirrored props ctx0 :
  returns (create props) ctx0 (fun rd _ _ => mirrored rd).
Proof.
  eapply returns_mono; [apply create_effect|].
  intros rd ctx tr (Hp & Hst & Hcl & Hvp & Hbg & Hgu & _).
  unfold mirrored. rewrite Hvp.
  split_and!; [done|by rewrite Hcl, getClip_variant|..].
  all: unfold uniformIs, uniformSame; rewrite Hgu; eexists; (split; [reflexivity|]).
  all: first [ reflexivity | by left ].
Qed.

Lemma setViewport_mirrored x y w h rd ctx :
  wf rd ctx -> mirrored rd ->
  returns (setViewport x y w h rd) ctx (fun rd' _ _ => mirrored rd').
Proof.
  intros Hwf Hm. eapply returns_mono; [by apply setViewport_effect|].
  intros rd' ctx' tr (Hp & Hst & Hcl & Hbg & _ & _ & _ & _ & _ & Hvp & _ & _ & Hch).
  destruct (viewportChanged x y w h (viewport rd)); [|by destruct Hch as [-> _]].
  destruct Hch as (Hgu & _).
  unfold mirrored in *. rewrite Hvp, Hp, Hst, Hcl, Hbg.
  destruct (viewport rd) as [[[vx vy] vw] vh].
  destruct Hm as (M1 & M2 & M3 & M4 & M5 & M6 & M7 & M8 & M9 & M10 & M11 & M12
                  & M13 & M14 & M15 & M16 & M17 & M18 & M19 & M20).
  split_and!; [done|done|..].
  all: unfold uniformIs, uniformSame in *; rewrite Hgu; normalise; uniform_lookup.
  all: first
         [ eassumption
         | match goal with
           | Hk : exists c, globalUniforms ?r !! ?k = Some c /\ _
             |- exists c', _ <$> globalUniforms ?r !! ?k = Some c' /\ _ =>
               destruct Hk as (? & -> & _); by eexists
           end ].
Qed.

Lemma render_mirrored rt g cam v clr tb dt rtp rd ctx :
  wf rd ctx -> mirrored rd ->
  returns (render rt g cam v clr tb dt rtp rd) ctx (fun '(_, rd') _ _ => mirrored rd').
Proof.
  intros Hwf Hm. eapply returns_mono; [apply render_full; by eapply wf_framebuffers|].
  intros [g' rd'] ctx' tr (Hown & Hgu & _).
  unfold ownership in Hown. injection Hown as Hp Hst Hcl Hvp Hbg _ _ _ _ _.
  unfold mirrored in *. rewrite Hvp, Hp, Hst, Hcl, Hbg.
  destruct (viewport rd) as [[[vx vy] vw] vh].
  destruct Hm as (M1 & M2 & M3 & M4 & M5 & M6 & M7 & M8 & M9 & M10 & M11 & M12
                  & M13 & M14 & M15 & M16 & M17 & M18 & M19 & M20).
  split_and!; [done|done|..].
  all: unfold uniformIs, uniformSame in *; rewrite Hgu;
       unfold renderUniforms, updateCameraUniforms;
       destruct (isColor v && enableWboit rd && rtp); normalise; uniform_lookup;
       eassumption.
Qed.

Lemma call_mirrored c rd ctx :
  wf rd ctx -> mirrored rd ->
  returns (call c rd) ctx (fun rd' _ _ => mirrored rd').
Proof.
  intros Hwf Hm. destruct c; cbn [call].
  - apply returns_bind. eapply returns_mono; [by apply render_mirrored|].
    intros [g' rd'] ctx' tr Hm'. by apply returns_ret.
  - apply returns_bind. eapply returns_mono; [apply clear_returns|].
    intros [] ctx' tr _. by apply returns_ret.
  - apply returns_ret. by apply setProps_mirrored.
  - by apply setViewport_mirrored.
  - by apply returns_bind, returns_ret, returns_ret.
Qed.

(** A property that [create] establishes and every call keeps holds of
    every renderer in use. *)
Lemma session_invariant (I : Renderer -> WebGLContext -> Prop) props cs ctx0 :
  returns (create props) ctx0 (fun rd ctx _ => I rd ctx) ->
  (forall c rd ctx, wf rd ctx -> extensions ctx = extensions ctx0 -> I rd ctx ->
     returns (call c rd) ctx (fun rd' ctx' _ => I rd' ctx')) ->
  returns (session props cs) ctx0 (fun rd ctx _ =>
    wf rd ctx /\ extensions ctx = extensions ctx0 /\ I rd ctx).
Proof.
  intros Hcreate Hcall. unfold session. apply returns_bind.
  eapply returns_mono; [apply returns_conj; [apply create_returns|exact Hcreate]|].
  intros rd ctx tr [(Hwf & Hext & _) HI]. cbv beta in HI.
  clear Hcreate. revert rd ctx tr Hwf Hext HI.
  induction cs as [|c cs IH]; intros rd ctx tr Hwf Hext HI; cbn [calls].
  - by apply returns_ret.
  - apply returns_bind.
    eapply returns_mono; [apply returns_conj; [by apply call_returns|by apply Hcall]|].
    intros rd' ctx' tr' [[Hwf' Hext'] HI']. cbv beta in HI'.
    eapply returns_mono; [apply (IH rd' ctx' tr'); [done|congruence|done]|].
    intros rd'' ctx'' tr'' H''. exact H''.
Qed.

End Mirror.

Section ClipSessions.
Context `{MathLib}.

Lemma getClip_held c old : 
  let o := objects (getClip c old) in
  count o = length (cp_objects c) /\
  variant (getClip c old) = cp_variant c /\
  take (length (cp_objects c)) (type o) = typeEntries (cp_objects c) /\
  take (length (cp_objects c) * 3) (position o) = positionEntries (cp_objects c) /\
  take (length (cp_objects c) * 4) (rotation o) = rotationEntries (cp_objects c) /\
  take (length (cp_objects c) * 3) (scale o) = scaleEntries (cp_objects c).
Proof.
  cbv zeta. rewrite getClip_splice. cbn [objects count variant type position rotation scale].
  destruct (entries_length (cp_objects c)) as (L1 & L2 & L3 & L4).
  split_and!; try done.
  all: by rewrite take_app_length'.
Qed.

Lemma getClip_capacity c old k :
  capacity k (startArrays old) ->
  capacity (Nat.max k (length (cp_objects c))) (objects (getClip c old)).
Proof.
  intros (C1 & C2 & C3 & C4). rewrite getClip_splice.
  unfold capacity. cbn [objects type position rotation scale].
  destruct (entries_length (cp_objects c)) as (L1 & L2 & L3 & L4).
  rewrite !length_app, !length_drop, L1, L2, L3, L4, C1, C2, C3, C4. lia.
Qed.

Lemma setProps_clipHeld props rd : clipHeld rd -> clipHeld (setProps props rd).
Proof.
  intros Hh. stages.
  do 10 (first [ apply (whenChanged_inv clipHeld) | apply (whenDefined_inv clipHeld) ];
         [ clear; intros a r Ha Hm; unfold clipHeld in *; normalise; props_fields;
           first [ exact Hm | apply getClip_held ]
         | cbv beta; try match goal with y := _ |- _ => subst y end ]).
  exact Hh.
Qed.

Lemma setProps_clipRoom props rd k :
  clipRoom k rd -> exists k', clipRoom k' (setProps props rd) /\ (k <= k')%nat.
Proof.
  intros Hr.
  change ((fun r => exists k', clipRoom k' r /\ (k <= k')%nat) (setProps props rd)). stages.
  do 10 (first [ apply (whenChanged_inv (fun r => exists k', clipRoom k' r /\ (k <= k')%nat))
               | apply (whenDefined_inv (fun r => exists k', clipRoom k' r /\ (k <= k')%nat)) ];
         [ clear; intros a r Ha (k' & (Hc & H5 & Hn) & Hk); unfold clipRoom in *; normalise;
           props_fields;
           first [ by (exists k')
                 | exists (Nat.max k' (length (cp_objects a)));
                   split_and!; [by apply (getClip_capacity a (Some (clip r)))|lia..] ]
         | cbv beta; try match goal with y := _ |- _ => subst y end ]).
  exists k. done.
Qed.

End ClipSessions.

Section Sessions.
Context `{MathLib}.

(** What a call other than [setProps] leaves of the parameters and the clip
    state. *)
Lemma call_config c rd ctx :
  wf rd ctx ->
  returns (call c rd) ctx (fun rd' _ _ =>
    match c with
    | CallSetProps props => rd' = setProps props rd
    | _ => p rd' = p rd /\ clip rd' = clip rd
    end).
Proof.
  intros Hwf. destruct c; cbn [call].
  - apply returns_bind. eapply returns_mono; [by apply render_in_use|].
    intros [g' rd'] ctx' tr (_ & Hown & _). apply returns_ret.
    unfold ownership in Hown. by injection Hown as -> _ -> _.
  - apply returns_bind. eapply returns_mono; [apply clear_returns|].
    intros [] ctx' tr _. by apply returns_ret.
  - by apply returns_ret.
  - eapply returns_mono; [by apply setViewport_returns|].
    intros rd' ctx' tr (_ & _ & _ & _ & _ & Hp & Hc). done.
  - by apply returns_bind, returns_ret, returns_ret.
Qed.

Lemma create_clipHeld props ctx0 :
  returns (create props) ctx0 (fun rd _ _ => clipHeld rd /\ exists k, clipRoom k rd).
Proof.
  eapply returns_mono; [apply create_returns|].
  intros rd ctx tr (_ & _ & _ & Hcl & _).
  unfold clipHeld, clipRoom. rewrite Hcl. split; [apply getClip_held|].
  exists (Nat.max 5 (length (cp_objects (props_clip (p rd))))).
  split_and!; [|lia..].
  apply getClip_capacity. unfold capacity, startArrays; cbn. done.
Qed.

Lemma call_clipHeld c rd ctx :
  wf rd ctx -> clipHeld rd ->
  returns (call c rd) ctx (fun rd' _ _ => clipHeld rd').
Proof.
  intros Hwf Hh. eapply returns_mono; [by apply call_config|].
  intros rd' ctx' tr Hc. unfold clipHeld in *.
  destruct c;
    first [ subst rd'; by apply setProps_clipHeld
          | destruct Hc as [Hp' Hc']; rewrite Hp', Hc'; exact Hh ].
Qed.

Lemma call_clipRoom c rd ctx k :
  wf rd ctx -> clipRoom k rd ->
  returns (call c rd) ctx (fun rd' _ _ => exists k', clipRoom k' rd' /\ (k <= k')%nat).
Proof.
  intros Hwf Hh. eapply returns_mono; [by apply call_config|].
  intros rd' ctx' tr Hc. unfold clipRoom in *.
  destruct c;
    first [ subst rd'; by apply setProps_clipRoom
          | destruct Hc as [Hp' Hc']; rewrite Hp', Hc'; by exists k ].
Qed.

(** ** Resource accounting *)

Lemma create_accounted props ctx0 :
  returns (create props) ctx0 (fun rd ctx _ => accounted ctx0 rd ctx).
Proof.
  eapply returns_mono; [apply returns_conj; [apply create_returns|apply create_effect]|].
  intros rd ctx tr [(_ & _ & _ & _ & _ & Hlen & Hfc & Htc) E]. cbv beta in E.
  destruct E as (_ & _ & _ & Hvp & _ & _ & _ & _ & Htex & _).
  unfold accounted, stats in *. cbn [framebufferCount textureCount] in *.
  split.
  - rewrite Hfc, Htc, Hlen. by destruct (drawBuffers (extensions ctx0)).
  - unfold texturesSized. rewrite Hvp. exact Htex.
Qed.

Lemma call_accounted ctx0 c rd ctx :
  wf rd ctx -> accounted ctx0 rd ctx ->
  returns (call c rd) ctx (fun rd' ctx' _ => accounted ctx0 rd' ctx').
Proof.
  intros Hwf [Hs Ht]. destruct c; cbn [call].
  - apply returns_bind. eapply returns_mono; [by apply render_in_use|].
    intros [g' rd'] ctx' tr (_ & Hown & Hres). apply returns_ret.
    unfold ownership in Hown. injection Hown as _ _ _ Hvp _ _ HA HB _ _.
    unfold accounted, texturesSized, stats in *. by rewrite Hvp, HA, HB, Hres.
  - apply returns_bind. eapply returns_mono; [apply clear_returns|].
    intros [] ctx' tr (_ & _ & Hres). apply returns_ret.
    unfold accounted, texturesSized, stats in *. by rewrite Hres.
  - apply returns_ret.
    destruct (setProps_gpu props rd) as (_ & HA & HB & _ & _ & Hvp).
    unfold accounted, texturesSized in *. by rewrite Hvp, HA, HB.
  - eapply returns_mono; [by apply setViewport_effect|].
    intros rd' ctx' tr (_ & _ & _ & _ & _ & _ & _ & _ & _ & _ & Hst & _ & Hch).
    unfold accounted. rewrite Hst. split; [done|].
    destruct (viewportChanged x y width height (viewport rd)).
    + by destruct Hch as (_ & ? & _).
    + destruct Hch as (-> & Hres & _). unfold texturesSized in *. by rewrite Hres.
  - by apply returns_bind, returns_ret, returns_ret.
Qed.

End Sessions.

(** ** What the events of a render call have in common *)

Lemma renderEvent_within v sh vp u ks tr :
  Forall (renderEvent v sh vp u ks) tr -> Forall (withinViewport vp) tr.
Proof.
  intros Hf. eapply Forall_impl; [exact Hf|]. clear Hf. intros e He. destruct e; cbn in *; try done.
  - by destruct He as (_ & ? & ?).
  - by destruct He as (_ & _ & ? & _).
Qed.

Lemma renderEvent_noAllocation v sh vp u ks tr :
  Forall (renderEvent v sh vp u ks) tr -> Forall noAllocation tr.
Proof. intros Hf. eapply Forall_impl; [exact Hf|]. intros e He. by destruct e. Qed.

Lemma noAllocation_framebuffers tr :
  Forall noAllocation tr -> framebuffersCreated tr = [] /\ framebuffersDeleted tr = [].
Proof.
  induction 1 as [|e tr He _ [IH1 IH2]]; [done|].
  unfold framebuffersCreated, framebuffersDeleted in *.
  destruct e; cbn in *; done.
Qed.

Lemma renderEvent_uploads v sh vp u ks tr :
  Forall (renderEvent v sh vp u ks) tr -> Forall (fun u' => u' = u) (uniformsUploaded tr).
Proof.
  induction 1 as [|e tr He _ IH]; [by constructor|].
  unfold uniformsUploaded in *. destruct e; cbn in *; try done.
  by constructor.
Qed.

Lemma renderEvent_settings fd v sh vp u rs tr :
  Forall (renderEvent v sh vp u (map (kindOf fd v) rs)) tr ->
  Forall (drawSettings fd v sh rs) tr.
Proof.
  intros Hf. eapply Forall_impl; [exact Hf|]. clear Hf. intros e He. destruct e; cbn in *; try done.
  destruct He as (-> & -> & _ & s & Hin & Hd).
  apply list_elem_of_fmap in Hin as (r0 & Hk & Hin).
  unfold kindOf in Hk. injection Hk as -> -> Hf Hp.
  split_and!; [done..|]. by exists r0.
Qed.

(** ** Defines *)

Lemma definesOf_synced rd r : definesOf (synced rd r) = rendererDefines rd.
Proof.
  unfold definesOf, rendererDefines, synced, syncDefines.
  cbn [r_values fst dClipObjectCount dClipVariant dTransparencyVariant].
  destruct (Nat.eqb_spec (value (dClipObjectCount (r_values r))) (count (objects (clip rd))));
    destruct (String.eqb_spec (value (dClipVariant (r_values r))) (variant (clip rd)));
    destruct (String.eqb_spec (value (dTransparencyVariant (r_values r)))
                (transparencyVariant (p rd)));
    cbn; congruence.
Qed.

Lemma definesDiffer_false rd r :
  definesDiffer rd r = false <-> definesOf r = rendererDefines rd.
Proof.
  unfold definesDiffer, definesOf, rendererDefines, syncDefines. cbn [snd].
  destruct (Nat.eqb_spec (value (dClipObjectCount (r_values r))) (count (objects (clip rd))));
    destruct (String.eqb_spec (value (dClipVariant (r_values r))) (variant (clip rd)));
    destruct (String.eqb_spec (value (dTransparencyVariant (r_values r)))
                (transparencyVariant (p rd)));
    cbn; split; congruence.
Qed.

Lemma rendererDefines_ext rd rd' :
  p rd' = p rd -> clip rd' = clip rd -> rendererDefines rd' = rendererDefines rd.
Proof. unfold rendererDefines. by intros -> ->. Qed.

Lemma afterBucket_state sel v rd r : r_state (afterBucket sel v rd r) = r_state r.
Proof. unfold afterBucket. by destruct (sel (r_state r) && drawable v (r_state r)). Qed.

Lemma afterBucket_id sel v rd r : r_id (afterBucket sel v rd r) = r_id r.
Proof. unfold afterBucket. by destruct (sel (r_state r) && drawable v (r_state r)). Qed.

Lemma renderOrder_selects v rtp rs r :
  r ∈ renderOrder v rtp rs -> r ∈ rs /\ renderSelects v rtp (r_state r) = true.
Proof.
  unfold renderOrder, renderSelects, colorOrder. destruct (isColor v).
  - rewrite !elem_of_app, !list_elem_of_In, !filter_In. intuition done.
  - destruct rtp; [by intros ?%elem_of_nil|].
    rewrite !list_elem_of_In, filter_In. intuition done.
Qed.

Lemma filter_none {A} (f : A -> bool) l :
  (forall x, x ∈ l -> f x = false) -> List.filter f l = [].
Proof.
  induction l as [|x l IH]; intros Hf; [done|]. cbn.
  rewrite (Hf x) by left. apply IH. intros y Hy. apply Hf. by right.
Qed.

Lemma definesDiffer_ext rd rd' r :
  p rd' = p rd -> clip rd' = clip rd -> definesDiffer rd' r = definesDiffer rd r.
Proof. unfold definesDiffer, syncDefines. by intros -> ->. Qed.

(** Once a scene has been through a render call, none of the drawables that
    get their turn in a second call of the same variant differs from the
    renderer, unless the first call was a sub-pass of a variant other than
    color (which runs no loop) and the second is not. *)
Lemma rendered_in_step v rtp rtp2 rd rd' rs :
  isColor v || negb rtp || rtp2 = true ->
  p rd' = p rd -> clip rd' = clip rd ->
  List.filter (fun r => drawable v (r_state r) && definesDiffer rd' r)
    (renderOrder v rtp2 (map (afterBucket (renderSelects v rtp) v rd) rs)) = [].
Proof.
  intros Hcase Hp Hc. apply filter_none. intros r' [Hin Hsel2]%renderOrder_selects.
  apply list_elem_of_fmap in Hin as (r & -> & Hin).
  rewrite afterBucket_state in *.
  assert (renderSelects v rtp (r_state r) = true) as Hsel.
  { unfold renderSelects in *. by destruct (isColor v), rtp, rtp2. }
  destruct (drawable v (r_state r)) eqn:Hd; [|done]. cbn.
  apply definesDiffer_false. unfold afterBucket. rewrite Hsel, Hd. cbn.
  rewrite definesOf_synced. symmetry. by apply rendererDefines_ext.
Qed.

(** A sub-pass call of a variant other than color hands the scene back as it
    was. *)
Lemma subpass_untouched v rd rs :
  isColor v = false -> map (afterBucket (renderSelects v true) v rd) rs = rs.
Proof.
  intros Hv. etrans; [|apply map_id]. apply map_ext. intros r.
  unfold afterBucket, renderSelects. by rewrite Hv.
Qed.

(** ** The names and the camera values of the uniform block *)

Lemma alter_is_Some {A} (f : A -> A) (m : gmap string A) k k' :
  is_Some (alter f k m !! k') <-> is_Some (m !! k').
Proof.
  destruct (decide (k = k')) as [->|].
  - rewrite lookup_alter_eq. apply fmap_is_Some.
  - by rewrite lookup_alter_ne.
Qed.

Section Names.
Context `{MathLib}.

Lemma setProps_sameNames props rd : sameNames rd (setProps props rd).
Proof.
  change ((fun r => sameNames rd r) (setProps props rd)). stages.
  do 10 (first [ apply (whenChanged_inv (fun r => sameNames rd r))
               | apply (whenDefined_inv (fun r => sameNames rd r)) ];
         [ intros a r Ha Hm k; rewrite <- (Hm k); clear; normalise;
           by rewrite ?alter_is_Some
         | cbv beta; try match goal with y := _ |- _ => subst y end ]).
  by intros k.
Qed.

Lemma renderUniforms_names cam tb wb rd k :
  is_Some (renderUniforms cam tb wb rd !! k) <-> is_Some (globalUniforms rd !! k).
Proof.
  unfold renderUniforms, updateCameraUniforms, updateUniform, updateUniformIfChanged.
  destruct wb; cbn [globalUniforms set_globalUniforms]; by rewrite !alter_is_Some.
Qed.

Lemma cameraUniforms_names rd rd' : sameNames rd rd' -> cameraUniforms rd -> cameraUniforms rd'.
Proof.
  intros Hn Hc. unfold cameraUniforms in *. eapply Forall_impl; [exact Hc|].
  intros k. by rewrite (Hn k).
Qed.

Lemma create_cameraUniforms props ctx0 :
  returns (create props) ctx0 (fun rd _ _ => cameraUniforms rd).
Proof.
  eapply returns_mono; [apply create_effect|].
  intros rd ctx tr (_ & _ & _ & _ & _ & Hgu & _).
  unfold cameraUniforms. rewrite Hgu. repeat constructor; eexists; reflexivity.
Qed.

Lemma call_cameraUniforms c rd ctx :
  wf rd ctx -> cameraUniforms rd ->
  returns (call c rd) ctx (fun rd' _ _ => cameraUniforms rd').
Proof.
  intros Hwf Hc. destruct c; cbn [call].
  - apply returns_bind. eapply returns_mono; [apply render_full; by eapply wf_framebuffers|].
    intros [g' rd'] ctx' tr (_ & Hgu & _). apply returns_ret.
    revert Hc. apply cameraUniforms_names. intros k. rewrite Hgu.
    apply renderUniforms_names.
  - apply returns_bind. eapply returns_mono; [apply clear_returns|].
    intros [] ctx' tr _. by apply returns_ret.
  - apply returns_ret. revert Hc. apply cameraUniforms_names, setProps_sameNames.
  - eapply returns_mono; [by apply setViewport_effect|].
    intros rd' ctx' tr (_ & _ & _ & _ & _ & _ & _ & _ & _ & _ & _ & _ & Hch).
    destruct (viewportChanged x y width height (viewport rd)); [|by destruct Hch as [-> _]].
    destruct Hch as (Hgu & _). revert Hc. apply cameraUniforms_names. intros k. rewrite Hgu.
    unfold updateUniform. cbn [globalUniforms set_globalUniforms]. by rewrite !alter_is_Some.
  - by apply returns_bind, returns_ret, returns_ret.
Qed.

Lemma renderUniforms_camera cam tb wb rd :
  cameraUniforms rd -> cameraHeld cam tb wb (renderUniforms cam tb wb rd).
Proof.
  unfold cameraUniforms. rewrite !Forall_cons.
  intros ([c1 H1] & [c2 H2] & [c3 H3] & [c4 H4] & [c5 H5] & [c6 H6] & [c7 H7] & _).
  unfold renderUniforms, updateCameraUniforms, updateUniform, updateUniformIfChanged.
  destruct wb; unfold cameraHeld, blockSame, blockIs; normalise.
  all: split_and!; uniform_lookup.
  all: rewrite ?H1, ?H2, ?H3, ?H4, ?H5, ?H6, ?H7; cbn [fmap option_fmap option_map].
  all: eexists; (split; [reflexivity|]).
  all: unfold ValueCell.updateIfChanged, ValueCell.update; cbn [value].
  all: try reflexivity.
  all: match goal with |- context [if ?b then _ else _] => destruct b eqn:E end.
  all: cbn [value]; first [ by right | by left ].
Qed.

End Names.

(** ** [clear] *)

Lemma clear_exact tb rd ctx :
  returns (clear tb rd) ctx (fun _ ctx' tr =>
    tr = [EvBindFramebuffer DefaultFramebuffer; EvClear true true (state ctx') []] /\
    extensions ctx' = extensions ctx /\ resources ctx' = resources ctx /\
    pixelRatio ctx' = pixelRatio ctx /\
    state ctx'
    = set_clearColor (background (bgColor rd) tb)
        (set_colorMask allChannels
           (set_depthMask true
              (set_capability SCISSOR_TEST true (set_bound DefaultFramebuffer (state ctx)))))).
Proof.
  unfold clear, background. destruct (bgColor rd) as [[r g] b] eqn:Hbg.
  repeat step. done.
Qed.

(** ** The framebuffer that the first resize leaves behind *)

Section Orphan.
Context `{MathLib}.

Lemma create_last props ctx0 :
  returns (create props) ctx0 (fun rd ctx _ =>
    exists fb, last (wboitFramebuffers rd) = Some fb /\
      (fb ∉ take (replaced (extensions ctx0)) (wboitFramebuffers rd)) /\
      is_Some (framebuffers (resources ctx) !! fb) /\
      (fb < next_id (resources ctx))%nat).
Proof.
  unfold create, replaced.
  destruct (textureFloat (extensions ctx0) && colorBufferFloat (extensions ctx0)
            && depthTexture (extensions ctx0)) eqn:Hcap;
    destruct (drawBuffers (extensions ctx0)) eqn:Hdb.
  all: do 2 step; rewrite ?Hcap, ?Hdb.
  all: repeat step.
  all: rewrite ?Hdb, ?Hcap; normalise.
  all: eexists; split; [reflexivity|].
  all: split_and!; [cbn [take]; rewrite ?elem_of_cons, elem_of_nil; lia
                   |map_lookup; by eexists|lia].
Qed.

Lemma setViewport_spares fb x y w h rd ctx :
  wf rd ctx ->
  (fb ∉ take (replaced (extensions ctx)) (wboitFramebuffers rd)) ->
  is_Some (framebuffers (resources ctx) !! fb) ->
  (fb < next_id (resources ctx))%nat ->
  returns (setViewport x y w h rd) ctx (fun rd' ctx' tr =>
    is_Some (framebuffers (resources ctx') !! fb) /\
    (fb < next_id (resources ctx'))%nat /\
    (fb ∉ framebuffersDeleted tr) /\
    if viewportChanged x y w h (viewport rd) then fb ∉ wboitFramebuffers rd' else rd' = rd).
Proof.
  destruct rd as [p0 st0 so cl0 [[[vx vy] vw] vh] bg ew tA tB ev fbs gu gf].
  unfold wf, viewportChanged, replaced.
  cbn [enableWboit bgColor p clip wboitFramebuffers wboitATexture wboitBTexture
       evaluateWboitRenderable viewport].
  intros (Hew & Hbg & Hfbs & Hlf & Hlt & Hcnt) Hnot Halive Hold.
  destruct fbs as [|fb0 rest]; [done|]. destruct Hfbs as [Hrest Htex].
  destruct ew; [destruct Htex as (a & b & Hab & -> & -> & -> & Hfb)
                |destruct Htex as (-> & -> & ->)].
  all: unfold setViewport; repeat step.
  all: try (destruct rest as [|fb1 rest]; [by destruct Hrest|]; repeat step).
  all: unfold framebuffersDeleted; normalise.
  all: repeat match goal with Hd : drawBuffers _ = _ |- _ => rewrite Hd in *; clear Hd end.
  all: cbn [take omap] in *; rewrite ?elem_of_cons, ?elem_of_nil in *.
  all: split_and!; try done; try lia.
  all: map_lookup; first [ assumption | rewrite ?elem_of_cons, ?elem_of_nil; tauto ].
Qed.

Lemma call_orphaned fb c rd ctx :
  wf rd ctx -> orphaned fb rd ctx ->
  returns (call c rd) ctx (fun rd' ctx' tr =>
    orphaned fb rd' ctx' /\ (fb ∉ framebuffersDeleted tr)).
Proof.
  intros Hwf (Hnot & Halive & Hold). destruct c; cbn [call].
  - apply returns_bind. eapply returns_mono; [apply render_full; by eapply wf_framebuffers|].
    intros [g' rd'] ctx' tr (Hown & _ & _ & Hres & _ & _ & _ & _ & Hev & _).
    apply returns_ret. rewrite app_nil_r.
    apply renderEvent_noAllocation, noAllocation_framebuffers in Hev as [_ ->].
    unfold ownership in Hown. injection Hown as _ _ _ _ _ _ _ _ _ Hfbs.
    unfold orphaned. rewrite Hfbs, Hres. split_and!; try done. apply not_elem_of_nil.
  - apply returns_bind. eapply returns_mono; [apply clear_exact|].
    intros [] ctx' tr (-> & _ & Hres & _). apply returns_ret.
    unfold orphaned. rewrite Hres. split_and!; try done. apply not_elem_of_nil.
  - apply returns_ret. destruct (setProps_gpu props rd) as (_ & _ & _ & _ & Hfbs & _).
    unfold orphaned. rewrite Hfbs. split_and!; try done. apply not_elem_of_nil.
  - eapply returns_mono; [apply (setViewport_spares fb); try done|].
    + intros (i & Hi & _)%elem_of_take. apply Hnot. by eapply list_elem_of_lookup_2.
    + intros rd' ctx' tr (Ha & Ho & Hd & Hch). unfold orphaned. split_and!; try done.
      destruct (viewportChanged x y width height (viewport rd)); [done|by subst rd'].
  - apply returns_bind, returns_ret, returns_ret.
    unfold orphaned. split_and!; try done. apply not_elem_of_nil.
Qed.

Lemma calls_orphaned fb cs : forall rd ctx,
  wf rd ctx -> orphaned fb rd ctx ->
  returns (calls cs rd) ctx (fun rd' ctx' tr =>
    orphaned fb rd' ctx' /\ (fb ∉ framebuffersDeleted tr)).
Proof.
  induction cs as [|c cs IH]; intros rd ctx Hwf Ho; cbn [calls].
  - apply returns_ret. split; [done|apply not_elem_of_nil].
  - apply returns_bind.
    eapply returns_mono; [apply returns_conj; [by apply call_returns|by apply call_orphaned]|].
    intros rd' ctx' tr [[Hwf' _] [Ho' Hd]].
    eapply returns_mono; [by apply IH|].
    intros rd'' ctx'' tr' [Ho'' Hd']. split; [done|].
    unfold framebuffersDeleted in *. rewrite omap_app, not_elem_of_app. done.
Qed.

End Orphan.

(** * Further properties of the renderer *)

Section Further.
Context `{MathLib}.

(** A property that holds of a renderer in use and that every call keeps
    holds after any further calls. *)
Lemma calls_invariant (I : Renderer -> WebGLContext -> Prop) cs : forall rd ctx,
  (forall c rd ctx, wf rd ctx -> I rd ctx ->
     returns (call c rd) ctx (fun rd' ctx' _ => I rd' ctx')) ->
  wf rd ctx -> I rd ctx ->
  returns (calls cs rd) ctx (fun rd' ctx' _ => wf rd' ctx' /\ I rd' ctx').
Proof.
  induction cs as [|c cs IH]; intros rd ctx Hcall Hwf HI; cbn [calls].
  - by apply returns_ret.
  - apply returns_bind.
    eapply returns_mono; [apply returns_conj; [by apply call_returns|by apply Hcall]|].
    intros rd' ctx' tr' [[Hwf' _] HI']. cbv beta in HI'.
    eapply returns_mono; [by apply IH|].
    intros rd'' ctx'' tr'' H''. exact H''.
Qed.

(** The GL viewport and the scissor rectangle are those of the renderer. *)
Lemma call_rectangles c rd ctx :
  wf rd ctx ->
  st_viewport (state ctx) = viewport rd /\ st_scissor (state ctx) = viewport rd ->
  returns (call c rd) ctx (fun rd' ctx' _ =>
    st_viewport (state ctx') = viewport rd' /\ st_scissor (state ctx') = viewport rd').
Proof.
  intros Hwf [Hv Hs]. destruct c; cbn [call].
  - apply returns_bind. eapply returns_mono; [apply render_full; by eapply wf_framebuffers|].
    intros [g' rd'] ctx' tr (Hown & _ & _ & _ & _ & _ & Hrect & _).
    apply returns_ret. unfold ownership in Hown. injection Hown as _ _ _ Hvp _ _ _ _ _ _.
    unfold rectOf in Hrect. injection Hrect as _ _ Hv' Hs'. by rewrite Hvp.
  - apply returns_bind. eapply returns_mono; [apply clear_exact|].
    intros [] ctx' tr (_ & _ & _ & _ & Hst). apply returns_ret. by rewrite Hst.
  - apply returns_ret. destruct (setProps_gpu props rd) as (_ & _ & _ & _ & _ & Hvp).
    by rewrite Hvp.
  - eapply returns_mono; [by apply setViewport_returns|].
    intros rd' ctx' tr (_ & _ & Hvp & Hv' & Hs' & _). by rewrite Hvp.
  - by apply returns_bind, returns_ret, returns_ret.
Qed.

(** ** The clip state *)

(** X1: [getClip] writes the configured clip objects, in order, over the
    front of the arrays it starts from (those of the clip state handed in, or
    fresh ones of five slots), keeps whatever lies behind them, and lets the
    arrays grow when more objects are configured than they hold; the count
    and the variant are those of the parameters. *)
Theorem getClip_overwrites_front c old :
  let n := length (cp_objects c) in
  getClip c old
  = mkClip (cp_variant c)
      (mkClipObjects n
         (typeEntries (cp_objects c) ++ drop n (type (startArrays old)))
         (positionEntries (cp_objects c) ++ drop (n * 3) (position (startArrays old)))
         (rotationEntries (cp_objects c) ++ drop (n * 4) (rotation (startArrays old)))
         (scaleEntries (cp_objects c) ++ drop (n * 3) (scale (startArrays old)))).
Proof. apply getClip_splice. Qed.

(** X2: in every renderer in use, whatever the parameters it was created
    with and the calls made since, the clip state holds the current clip
    parameters: their number, their variant and, in the first slots of the
    four arrays, their types, positions, rotations and scales. *)
Theorem clip_state_follows_parameters props cs ctx0 :
  returns (session props cs) ctx0 (fun rd _ _ => clipHeld rd).
Proof.
  eapply returns_mono.
  - apply (session_invariant (fun rd _ => clipHeld rd)).
    + eapply returns_mono; [apply create_clipHeld|]. by intros rd ctx tr [Hh _].
    + intros c rd ctx Hwf _ Hh. by apply call_clipHeld.
  - by intros rd ctx tr (_ & _ & Hh).
Qed.

(** X3: the clip arrays of a renderer in use have room for some number [k]
    of objects, at least five and at least as many as are configured, and no
    call makes them shorter. *)
Theorem clip_arrays_never_shrink props cs ctx0 :
  returns (session props cs) ctx0 (fun rd ctx _ =>
    exists k, clipRoom k rd /\
      forall c, returns (call c rd) ctx (fun rd' _ _ =>
        exists k', clipRoom k' rd' /\ (k <= k')%nat)).
Proof.
  eapply returns_mono.
  - apply (session_invariant (fun rd _ => exists k, clipRoom k rd)).
    + eapply returns_mono; [apply create_clipHeld|]. by intros rd ctx tr [_ Hr].
    + intros c rd ctx Hwf _ [k Hr].
      eapply returns_mono; [by apply (call_clipRoom c rd ctx k)|].
      intros rd' ctx' tr (k' & Hr' & _). by exists k'.
  - intros rd ctx tr (Hwf & _ & k & Hr). exists k. split; [done|].
    intros c. by apply call_clipRoom.
Qed.

(** ** Uniforms *)

(** X6: in every renderer in use the global uniforms that mirror the
    parameters, the style, the clip state and the viewport hold what those
    hold, the style values are those of the style parameter, and the
    background color kept for clearing is the one of the parameters. *)
Theorem uniforms_mirror_parameters props cs ctx0 :
  returns (session props cs) ctx0 (fun rd _ _ =>
    mirrored rd /\ bgColor rd = Color_toVec3Normalized (backgroundColor (p rd))).
Proof.
  eapply returns_mono.
  - apply (session_invariant (fun rd _ => mirrored rd)).
    + apply create_mirrored.
    + intros c rd ctx Hwf _ Hm. by apply call_mirrored.
  - intros rd ctx tr ((_ & Hbg & _) & _ & Hm). done.
Qed.

(** ** Resources *)

(** X7: in a renderer in use the framebuffer list holds the elements that
    [setViewport] and [render] read without a test: [wboitFramebuffers[0]]
    and, without [drawBuffers], [wboitFramebuffers[1]], each of them alive;
    and [setViewport] and [clear] return whatever their arguments.  (This
    says nothing of [renderObject], which reads the values of the drawables
    it is given.) *)
Theorem framebuffer_reads_in_range props cs ctx0 :
  returns (session props cs) ctx0 (fun rd ctx _ =>
    (exists fb0, wboitFramebuffers rd !! 0%nat = Some fb0 /\
       is_Some (framebuffers (resources ctx) !! fb0)) /\
    (if drawBuffers (extensions ctx0) then True
     else exists fb1, wboitFramebuffers rd !! 1%nat = Some fb1 /\
            is_Some (framebuffers (resources ctx) !! fb1)) /\
    (forall x y w h, is_Some (setViewport x y w h rd ctx)) /\
    (forall tb, is_Some (clear tb rd ctx))).
Proof.
  eapply returns_mono; [apply session_returns|].
  intros rd ctx tr [Hwf Hext].
  pose proof Hwf as (_ & _ & Hfbs & Halive & _).
  destruct (wboitFramebuffers rd) as [|fb0 rest] eqn:Hl; [done|].
  destruct Hfbs as [Hrest _]. rewrite Hext in Hrest.
  apply Forall_cons in Halive as [H0 Hr].
  split_and!.
  - by exists fb0.
  - destruct (drawBuffers (extensions ctx0)); [done|].
    destruct rest as [|fb1 rest]; [by destruct Hrest|].
    apply Forall_cons in Hr as [H1 _]. by exists fb1.
  - intros x y w h. pose proof (setViewport_returns x y w h rd ctx Hwf) as Hc.
    unfold returns in Hc. by destruct (setViewport x y w h rd ctx).
  - intros tb. pose proof (clear_returns tb rd ctx) as Hc.
    unfold returns in Hc. by destruct (clear tb rd ctx).
Qed.

(** X8: the framebuffer and texture counts that [stats] reports for a
    renderer in use are those reached at construction: two or three
    framebuffers and two or no textures more than before, whatever calls were
    made since. *)
Theorem resource_counts_constant props cs ctx0 :
  returns (session props cs) ctx0 (fun _ ctx _ =>
    stats ctx
    = mkStats
        (framebufferCount (stats ctx0) + (if drawBuffers (extensions ctx0) then 2 else 3))
        (textureCount (stats ctx0) + (if wboitCapable (extensions ctx0) then 2 else 0))).
Proof.
  eapply returns_mono.
  - apply (session_invariant (accounted ctx0)).
    + apply create_accounted.
    + intros c rd ctx Hwf _ Ha. by apply call_accounted.
  - by intros rd ctx tr (_ & _ & [Hs _]).
Qed.

(** X9: the accumulation textures of a renderer in use have the width and
    the height of its viewport. *)
Theorem textures_follow_viewport props cs ctx0 :
  returns (session props cs) ctx0 (fun rd ctx _ => texturesSized rd ctx).
Proof.
  eapply returns_mono.
  - apply (session_invariant (accounted ctx0)).
    + apply create_accounted.
    + intros c rd ctx Hwf _ Ha. by apply call_accounted.
  - by intros rd ctx tr (_ & _ & [_ Ht]).
Qed.

(** With a [NaN] among its arguments the test of line 598 holds whatever the
    stored viewport is: every such call takes the branch that replaces the
    framebuffers. *)
Lemma viewportChanged_NaN x y w h vp :
  x = NaN \/ y = NaN \/ w = NaN \/ h = NaN -> viewportChanged x y w h vp = true.
Proof.
  destruct vp as [[[vx vy] vw] vh]. unfold viewportChanged.
  intros [-> | [-> | [-> | ->]]]; cbn; by rewrite ?orb_true_r.
Qed.

(** X10: [setViewport] with a rectangle other than the current one stores
    it, updates the two viewport uniforms, deletes the first one (with
    [drawBuffers]) or two framebuffers of the renderer and makes as many new
    ones, which are then all the renderer has; the counts of [stats] are the
    same afterwards.  With the current rectangle it changes nothing. *)
Theorem setViewport_replaces_framebuffers props cs ctx0 x y w h :
  returns (session props cs) ctx0 (fun rd ctx _ =>
    returns (setViewport x y w h rd) ctx (fun rd' ctx' tr =>
      viewport rd' = (x, y, w, h) /\ stats ctx' = stats ctx /\
      if viewportChanged x y w h (viewport rd) then
        globalUniforms rd'
        = globalUniforms
            (updateUniform "uViewport" (UVec [num_of_int x; num_of_int y; num_of_int w; num_of_int h])
               (updateUniform "uViewportHeight" (UNum (num_of_int h)) rd)) /\
        framebuffersDeleted tr = take (replaced (extensions ctx0)) (wboitFramebuffers rd) /\
        framebuffersCreated tr = wboitFramebuffers rd' /\
        length (wboitFramebuffers rd') = replaced (extensions ctx0)
      else
        rd' = rd /\ resources ctx' = resources ctx /\
        framebuffersDeleted tr = [] /\ framebuffersCreated tr = [])).
Proof.
  eapply returns_mono; [apply session_returns|].
  intros rd ctx tr [Hwf Hext].
  eapply returns_mono; [by apply setViewport_effect|].
  intros rd' ctx' tr' (_ & _ & _ & _ & _ & _ & _ & _ & _ & Hvp & Hst & _ & Hch).
  split_and!; [done..|]. rewrite <- Hext.
  destruct (viewportChanged x y w h (viewport rd)); [|done].
  by destruct Hch as (? & _ & ? & ? & ?).
Qed.

(** ** Render calls *)

(** X11: every event of a render call keeps to the viewport of the
    renderer: the GL viewport and the scissor rectangle are set to it, and
    every draw, every clear and the resolve quad run with the scissor test
    on, all color channels writable and both rectangles at it; a clear of the
    depth buffer runs with depth writes on.  The context is left in that
    state.  After [setViewport] the rectangle is the one given. *)
Theorem render_keeps_to_viewport props cs ctx0 rt g cam v clr tb dt rtp :
  returns (session props cs) ctx0 (fun rd ctx _ =>
    returns (render rt g cam v clr tb dt rtp rd) ctx (fun _ ctx' tr =>
      Forall (withinViewport (viewport rd)) tr /\
      rectOf (state ctx') = (true, allChannels, viewport rd, viewport rd)) /\
    forall x y w h,
      returns (setViewport x y w h rd) ctx (fun rd1 ctx1 _ =>
        returns (render rt g cam v clr tb dt rtp rd1) ctx1 (fun _ _ tr =>
          Forall (withinViewport (x, y, w, h)) tr))).
Proof.
  eapply returns_mono; [apply session_returns|].
  intros rd ctx tr [Hwf Hext]. split.
  - eapply returns_mono; [apply render_full; by eapply wf_framebuffers|].
    intros [g' rd'] ctx' tr' (_ & _ & _ & _ & _ & _ & Hrect & _ & Hev & _).
    split; [by eapply renderEvent_within|done].
  - intros x y w h. eapply returns_mono; [by apply setViewport_returns|].
    intros rd1 ctx1 tr1 (Hwf1 & _ & Hvp & _).
    eapply returns_mono; [apply render_full; by eapply wf_framebuffers|].
    intros [g' rd'] ctx' tr' (_ & _ & _ & _ & _ & _ & _ & _ & Hev & _).
    rewrite <- Hvp. by eapply renderEvent_within.
Qed.

(** X12: every draw call of a render call is that of a drawable of the
    scene that is visible (and, in a picking variant, pickable), with the
    program of the variant asked for, the shared textures of the call (the
    depth texture, if one was given) and the culling, winding, depth-test and
    depth-write settings that the drawable's own values call for. *)
Theorem draws_use_object_settings props cs ctx0 rt g cam v clr tb dt rtp :
  returns (session props cs) ctx0 (fun rd ctx _ =>
    returns (render rt g cam v clr tb dt rtp rd) ctx (fun _ _ tr =>
      Forall (drawSettings (fragDepth (extensions ctx0)) v (sharedTextures dt)
                (renderables g)) tr)).
Proof.
  eapply returns_mono; [apply session_returns|].
  intros rd ctx tr [Hwf Hext].
  eapply returns_mono; [apply render_full; by eapply wf_framebuffers|].
  intros [g' rd'] ctx' tr' (_ & _ & _ & _ & _ & _ & _ & _ & Hev & _).
  rewrite <- Hext. by eapply renderEvent_settings.
Qed.

(** X13: in a render call every draw finds the global uniforms uploaded to
    the program in use, whether or not the program was already current when
    the call began; every block uploaded is the one the renderer holds when
    the call returns, and it holds the camera's values, the background flag
    and the flag of the WBOIT pass. *)
Theorem draws_see_current_uniforms props cs ctx0 rt g cam v clr tb dt rtp :
  returns (session props cs) ctx0 (fun rd ctx _ =>
    returns (render rt g cam v clr tb dt rtp rd) ctx (fun '(_, rd') _ tr =>
      (forall fresh, uploadsBeforeDraws fresh tr = true) /\
      Forall (fun u => u = globalUniforms rd') (uniformsUploaded tr) /\
      cameraHeld cam tb (isColor v && enableWboit rd && rtp) (globalUniforms rd'))).
Proof.
  eapply returns_mono.
  - apply (session_invariant (fun rd _ => cameraUniforms rd)).
    + apply create_cameraUniforms.
    + intros c rd ctx Hwf _ Hc. by apply call_cameraUniforms.
  - intros rd ctx tr (Hwf & _ & Hc).
    eapply returns_mono; [apply render_full; by eapply wf_framebuffers|].
    intros [g' rd'] ctx' tr' (_ & Hgu & _ & _ & _ & _ & _ & _ & Hev & Hup & _).
    split_and!; [done|..].
    + rewrite Hgu. by eapply renderEvent_uploads.
    + rewrite Hgu. by apply renderUniforms_camera.
Qed.

(** X14: a render call hands back the scene with the three defines (clip
    object count, clip variant, transparency variant) of every drawable that
    got its turn and is visible brought in step with the renderer, and every
    other drawable as it was; it recompiles exactly the drawables whose
    defines differed, in the order of their turn.  A second render call of
    the same variant on the scene handed back recompiles none, whatever its
    other arguments, with one exception: after a sub-pass call of a variant
    other than color, which runs no loop, a call that is not a sub-pass
    recompiles what differed before. *)
Theorem defines_follow_renderer props cs ctx0 rt g cam v clr tb dt rtp
    rt2 cam2 clr2 tb2 dt2 rtp2 :
  returns (session props cs) ctx0 (fun rd ctx _ =>
    returns (render rt g cam v clr tb dt rtp rd) ctx (fun '(g', rd') ctx' tr =>
      renderables g' = map (afterBucket (renderSelects v rtp) v rd) (renderables g) /\
      Forall (fun r => renderSelects v rtp (r_state r) && drawable v (r_state r) = true ->
                definesOf r = rendererDefines rd) (renderables g') /\
      definesUpdated tr
      = map r_id (List.filter (fun r => drawable v (r_state r) && definesDiffer rd r)
                    (renderOrder v rtp (renderables g))) /\
      returns (render rt2 g' cam2 v clr2 tb2 dt2 rtp2 rd') ctx' (fun _ _ tr2 =>
        definesUpdated tr2
        = if isColor v || negb rtp || rtp2 then []
          else map r_id
                 (List.filter (fun r => drawable v (r_state r) && definesDiffer rd r)
                    (renderOrder v false (renderables g)))))).
Proof.
  eapply returns_mono; [apply session_returns|].
  intros rd ctx tr [Hwf Hext].
  eapply returns_mono;
    [apply returns_conj; [by apply render_wf|apply render_full; by eapply wf_framebuffers]|].
  intros [g' rd'] ctx' tr' [[Hwf' _] (Hown & _ & _ & _ & _ & _ & _ & Hrs & _ & _ & Hdef)].
  unfold ownership in Hown. injection Hown as Hp _ Hcl _ _ _ _ _ _ _.
  split_and!; [done| |done|].
  - rewrite Hrs. apply Forall_fmap, Forall_forall. intros r _. cbn.
    rewrite afterBucket_state. intros Hsel. unfold afterBucket. rewrite Hsel.
    apply definesOf_synced.
  - eapply returns_mono; [apply render_full; by eapply wf_framebuffers|].
    intros [g'' rd''] ctx'' tr'' (_ & _ & _ & _ & _ & _ & _ & _ & _ & _ & Hdef').
    rewrite Hdef', Hrs.
    destruct (isColor v || negb rtp || rtp2) eqn:Hcase.
    + by rewrite rendered_in_step.
    + destruct (isColor v) eqn:Hv, rtp, rtp2; try done.
      rewrite subpass_untouched by done. f_equal.
      apply filter_ext. intros r. f_equal. by apply definesDiffer_ext.
Qed.

(** X15: a render call changes nothing of the renderer but the uniform
    block, creates, deletes, resizes or attaches no framebuffer or texture,
    and leaves the target it was given bound (the canvas, if none), also
    after a WBOIT pass, which binds the accumulation framebuffer on the way. *)
Theorem render_leaves_resources props cs ctx0 rt g cam v clr tb dt rtp :
  returns (session props cs) ctx0 (fun rd ctx _ =>
    returns (render rt g cam v clr tb dt rtp rd) ctx (fun '(_, rd') ctx' tr =>
      ownership rd' = ownership rd /\
      extensions ctx' = extensions ctx /\ resources ctx' = resources ctx /\
      pixelRatio ctx' = pixelRatio ctx /\
      Forall noAllocation tr /\
      st_bound (state ctx') = targetBinding rt)).
Proof.
  eapply returns_mono; [apply session_returns|].
  intros rd ctx tr [Hwf Hext].
  eapply returns_mono; [apply render_full; by eapply wf_framebuffers|].
  intros [g' rd'] ctx' tr' (Hown & _ & He & Hr & Hp & Hb & _ & _ & Hev & _).
  split_and!; try done. by eapply renderEvent_noAllocation.
Qed.

(** X16: once [setViewport] has been called, every later [clear] binds the
    canvas and clears its color and depth buffers inside the renderer's
    viewport: with the scissor test on and the scissor rectangle at the
    viewport, all color channels writable and depth writes on, whatever
    render calls left behind. *)
Theorem clear_keeps_to_viewport props cs ctx0 x y w h tb :
  returns (session props (CallSetViewport x y w h :: cs)) ctx0 (fun rd ctx _ =>
    returns (clear tb rd) ctx (fun _ ctx' tr =>
      tr = [EvBindFramebuffer DefaultFramebuffer; EvClear true true (state ctx') []] /\
      st_bound (state ctx') = DefaultFramebuffer /\
      rectOf (state ctx') = (true, allChannels, viewport rd, viewport rd) /\
      st_depthMask (state ctx') = true)).
Proof.
  unfold session. apply returns_bind.
  eapply returns_mono; [apply create_returns|].
  intros rd0 ctx1 tr0 (Hwf0 & _). cbn [calls call]. apply returns_bind.
  eapply returns_mono; [by apply setViewport_returns|].
  intros rd1 ctx2 tr1 (Hwf1 & _ & Hvp & Hv & Hs & _).
  eapply returns_mono.
  - apply (calls_invariant
             (fun rd ctx => st_viewport (state ctx) = viewport rd
                            /\ st_scissor (state ctx) = viewport rd)); [|done|].
    + intros c rd ctx Hwf HI. by apply call_rectangles.
    + by rewrite Hvp.
  - intros rd ctx tr (Hwf & Hv' & Hs').
    eapply returns_mono; [apply clear_exact|].
    intros [] ctx' tr' (-> & _ & _ & _ & Hst).
    rewrite Hst. unfold rectOf. normalise. by rewrite Hv', Hs'.
Qed.

(** X17: the first [setViewport] that changes the viewport leaves the last
    framebuffer made at construction behind: it is no longer among the
    renderer's framebuffers, neither that call nor any later one deletes it,
    and it is still alive after any further calls. *)
Theorem first_resize_orphans_framebuffer props ctx0 x y w h cs :
  viewportChanged x y w h (Num 0, Num 0, Num 0, Num 0) = true ->
  returns (create props) ctx0 (fun rd ctx _ =>
    exists fb, last (wboitFramebuffers rd) = Some fb /\
      returns (calls (CallSetViewport x y w h :: cs) rd) ctx (fun rd' ctx' tr =>
        (fb ∉ wboitFramebuffers rd') /\ (fb ∉ framebuffersDeleted tr) /\
        is_Some (framebuffers (resources ctx') !! fb))).
Proof.
  intros Hch.
  eapply returns_mono;
    [apply returns_conj; [apply create_returns|
       apply returns_conj; [apply create_effect|apply create_last]]|].
  intros rd ctx tr [(Hwf & Hext & _) [(_ & _ & _ & Hvp & _) (fb & Hlast & Hnot & Ha & Ho)]].
  exists fb. split; [done|]. cbn [calls call]. apply returns_bind.
  eapply returns_mono;
    [apply returns_conj; [by apply setViewport_returns|
                          apply (setViewport_spares fb); try done; by rewrite Hext]|].
  intros rd1 ctx1 tr1 [(Hwf1 & _) (Ha1 & Ho1 & Hd1 & Hn1)].
  rewrite Hvp, Hch in Hn1.
  eapply returns_mono; [by apply (calls_orphaned fb)|].
  intros rd2 ctx2 tr2 [(Hn2 & Ha2 & _) Hd2]. split_and!; [done| |done].
  unfold framebuffersDeleted in *. rewrite omap_app, not_elem_of_app. done.
Qed.

End Further.

(** * Concrete runs *)

(** C1 on the mixed scene: opaque 2, 5, 6, then the depth-writing
    transparent 3, then 1; the invisible 4 is not drawn. *)
Example mixedScene_color_order :
  returns (session noProps []) (freshContext fullExtensions) (fun rd ctx _ =>
    returns (render None mixedScene sampleCamera "color" true false None false rd) ctx
      (fun _ _ tr => drawn tr = [2; 5; 6; 3; 1]%nat)).
Proof. vm_compute. reflexivity. Qed.

(** C2 as stated fails: with float textures missing, the two transparent
    drawables of [twoTransparent] are drawn under the same blend function. *)
Lemma C2_counterexample :
  returns (session noProps []) (freshContext noFloatExtensions) (fun rd ctx _ =>
    returns (render None twoTransparent sampleCamera "color" true false None false rd) ctx
      (fun _ _ tr =>
         blendOf 1 (passes tr) = Some (Some (SRC_ALPHA, ONE_MINUS_SRC_ALPHA, ONE, ONE)) /\
         blendOf 2 (passes tr) = Some (Some (SRC_ALPHA, ONE_MINUS_SRC_ALPHA, ONE, ONE)) /\
         ~ separateBlendFunctions (passes tr) 1 2)).
Proof.
  vm_compute. split_and!; [reflexivity|reflexivity|].
  intros (f2 & f3 & Hf2 & Hf3 & Hne & _). apply Hne. congruence.
Qed.

(** C4 at a concrete input: no draw buffers, a resized viewport, a WBOIT
    sub-pass. *)
Lemma C4_accumB_not_cleared_witness :
  wboitCapable (extensions (freshContext noDrawBuffersExtensions)) = true /\
  drawBuffers (extensions (freshContext noDrawBuffersExtensions)) = false /\
  returns (session noProps [CallSetViewport (Num 0) (Num 0) (Num 800) (Num 600)])
    (freshContext noDrawBuffersExtensions) (fun rd ctx _ =>
      returns (render None mixedScene sampleCamera "color" true false None true rd) ctx
        (fun _ _ tr =>
           exists a b,
             wboitATexture rd = Some a /\ wboitBTexture rd = Some b /\
             texturesCleared tr = [a] /\ (b ∉ texturesCleared tr) /\
             SResolve a b (targetBinding None) (Some RESOLVE) ∈ passes tr)).
Proof.
  split; [reflexivity|]. split; [reflexivity|].
  apply (C4_accumB_not_cleared noProps [CallSetViewport (Num 0) (Num 0) (Num 800) (Num 600)]
           (freshContext noDrawBuffersExtensions) None mixedScene sampleCamera true false None);
    reflexivity.
Defined.

(** C6 at a concrete input: the picking variant ['pickObject']. *)
Lemma C6_pick_depth_skips_witness :
  isColor "pickObject" = false /\
  returns (session noProps []) (freshContext fullExtensions) (fun rd ctx _ =>
    returns (render None mixedScene sampleCamera "pickObject" true false None true rd) ctx
      (fun _ _ tr => drawn tr = []) /\
    returns (render None mixedScene sampleCamera "pickObject" true false None false rd) ctx
      (fun _ _ tr =>
         drawn tr =
           map r_id
             (List.filter
                (fun r => visible (r_state r)
                          && (pickable (r_state r) || negb (isPick "pickObject")))
                (List.filter (fun r => negb (colorOnly (r_state r)))
                   (renderables mixedScene)))) /\
    forall v' rtp,
      returns (render None mixedScene sampleCamera v' true false None rtp rd) ctx
        (fun _ _ tr =>
           forall id, id ∈ drawn tr ->
             exists r, r ∈ renderables mixedScene /\ r_id r = id /\
               visible (r_state r) = true /\
               (isPick v' = true -> pickable (r_state r) = true))).
Proof.
  split; [reflexivity|].
  apply (C6_pick_depth_skips noProps [] (freshContext fullExtensions) None mixedScene
           sampleCamera "pickObject" true false None).
  reflexivity.
Defined.

(** C8 as stated fails at construction without clip objects: the unused
    slots hold the zero quaternion, not the identity. *)
Lemma C8_counterexample :
  returns (create noProps) (freshContext fullExtensions) (fun rd _ _ =>
    count (objects (clip rd)) = 0%nat /\
    slotRotation (objects (clip rd)) 0 = zeroQuat /\
    ~ neutralBeyondCount (objects (clip rd))).
Proof.
  eapply returns_mono; [apply create_returns|].
  intros rd ctx tr (_ & _ & Hp & Hclip & _).
  rewrite Hclip, Hp. split_and!; [reflexivity|reflexivity|].
  intros [_ Hn]. destruct (Hn 0%nat) as (_ & _ & Hrot); [cbn; lia|].
  vm_compute in Hrot. discriminate Hrot.
Qed.

(** C8 at a concrete input: one sphere configured in a renderer created
    with two. *)
Lemma C8_clip_slots_witness :
  let two := onlyClip (mkClipProps "instance" [sampleClipObject; sampleClipObject]) in
  let c := mkClipProps "pixel" [sampleClipObject] in
  clipBounded two /\ Forall callBounded [CallSetViewport (Num 0) (Num 0) (Num 800) (Num 600)] /\
  (length (cp_objects c) <= 5)%nat /\
  returns (create two) (freshContext fullExtensions) (fun rd _ _ =>
    count (objects (clip rd)) = length (cp_objects (props_clip (p rd))) /\
    defaultsBeyondCount (objects (clip rd))) /\
  returns (session two [CallSetViewport (Num 0) (Num 0) (Num 800) (Num 600)])
    (freshContext fullExtensions)
    (fun rd _ _ =>
      let rd' := setProps (onlyClip c) rd in
      (count (objects (clip rd)) = length (cp_objects (props_clip (p rd))) /\
       fiveSlots (objects (clip rd))) /\
      count (objects (clip rd')) = length (cp_objects c) /\
      fiveSlots (objects (clip rd')) /\
      keepsBeyondCount (objects (clip rd)) (objects (clip rd'))).
Proof.
  cbv zeta.
  assert (clipBounded
            (onlyClip (mkClipProps "instance" [sampleClipObject; sampleClipObject])))
    as Hb by (cbn; lia).
  assert (Forall callBounded [CallSetViewport (Num 0) (Num 0) (Num 800) (Num 600)]) as Hcs
    by (constructor; [exact I|constructor]).
  assert (length (cp_objects (mkClipProps "pixel" [sampleClipObject])) <= 5)%nat as Hn
    by (cbn; lia).
  split; [exact Hb|]. split; [exact Hcs|]. split; [exact Hn|].
  exact (C8_clip_slots _ _ _ _ Hb Hcs Hn).
Defined.

(** The stale slot of that update: slot 1 still holds the second sphere. *)
Example stale_slot_after_update :
  let old := getClip (mkClipProps "instance" [sampleClipObject; sampleClipObject]) None in
  let new := getClip (mkClipProps "pixel" [sampleClipObject]) (Some old) in
  count (objects new) = 1%nat /\
  slotType (objects new) 1 = [Some (Clipping_Type "sphere")] /\
  slotScale (objects new) 1
  = [Some (Num (inject_Z 2)); Some (Num (inject_Z 2)); Some (Num (inject_Z 2))].
Proof. vm_compute. done. Qed.

(** With a sixth clip object the arrays grow past their five slots. *)
Example six_clip_objects :
  let six := mkClipProps "instance" (replicate 6 sampleClipObject) in
  let o := objects (getClip six None) in
  count o = 6%nat /\ length (type o) = 6%nat /\ length (position o) = 18%nat /\
  length (rotation o) = 24%nat /\ length (scale o) = 18%nat.
Proof. vm_compute. done. Qed.

(** C9 at a concrete input: after [create] and [dispose] the two textures
    and the two framebuffers are still there and still counted. *)
Example dispose_leaves_everything :
  returns (session noProps [CallDispose]) (freshContext fullExtensions) (fun rd ctx tr =>
    framebuffersDeleted tr = [] /\
    stats ctx = mkStats 2 2 /\
    wboitFramebuffers rd = [2; 3]%nat /\
    is_Some (framebuffers (resources ctx) !! 2%nat) /\
    is_Some (framebuffers (resources ctx) !! 3%nat) /\
    is_Some (textures (resources ctx) !! 0%nat) /\
    is_Some (textures (resources ctx) !! 1%nat)).
Proof. vm_compute. split_and!; try reflexivity; by eexists. Qed.

(** C10 at a concrete input: without float textures the framebuffers are
    made all the same, and no texture. *)
Example create_without_float_textures :
  returns (create noProps) (freshContext noFloatExtensions) (fun rd ctx tr =>
    enableWboit rd = false /\ stats ctx = mkStats 2 0 /\
    framebuffersCreated tr = [0; 1]%nat).
Proof. vm_compute. done. Qed.

(** X17 at a concrete input: a renderer on a fresh context, resized to 800
    by 600 and then to 1024 by 768. *)
Lemma first_resize_orphans_framebuffer_witness :
  viewportChanged (Num 0) (Num 0) (Num 800) (Num 600) (Num 0, Num 0, Num 0, Num 0) = true /\
  returns (create noProps) (freshContext fullExtensions) (fun rd ctx _ =>
    exists fb, last (wboitFramebuffers rd) = Some fb /\
      returns (calls [CallSetViewport (Num 0) (Num 0) (Num 800) (Num 600);
                      CallSetViewport (Num 0) (Num 0) (Num 1024) (Num 768); CallDispose]
                 rd) ctx
        (fun rd' ctx' tr =>
           (fb ∉ wboitFramebuffers rd') /\ (fb ∉ framebuffersDeleted tr) /\
           is_Some (framebuffers (resources ctx') !! fb))).
Proof.
  split; [reflexivity|].
  apply (first_resize_orphans_framebuffer noProps (freshContext fullExtensions)
           (Num 0) (Num 0) (Num 800) (Num 600)
           [CallSetViewport (Num 0) (Num 0) (Num 1024) (Num 768); CallDispose]).
  reflexivity.
Defined.

(** C7 as stated fails for [NaN]: a second [setViewport] with the same
    arguments, the width being [NaN], deletes the framebuffer the first call
    made, makes another one and updates the viewport uniform again; the
    counters of [stats] stay what they were. *)
Lemma C7_counterexample :
  returns (session noProps []) (freshContext fullExtensions) (fun rd ctx _ =>
    returns (setViewport (Num 0) (Num 0) NaN (Num 600) rd) ctx (fun rd1 ctx1 _ =>
      returns (setViewport (Num 0) (Num 0) NaN (Num 600) rd1) ctx1 (fun rd2 ctx2 tr =>
        viewport rd1 = (Num 0, Num 0, NaN, Num 600) /\
        wboitFramebuffers rd1 = [4]%nat /\
        framebuffersDeleted tr = [4]%nat /\ framebuffersCreated tr = [5]%nat /\
        wboitFramebuffers rd2 = [5]%nat /\
        uniformVersion rd1 "uViewport" = Some 1%nat /\
        uniformVersion rd2 "uViewport" = Some 2%nat /\
        stats ctx2 = stats ctx1))).
Proof. vm_compute. done. Qed.

(** C7 at a concrete input: a viewport of 800 by 600 set twice. *)
Lemma C7_setViewport_idempotent_witness :
  (Num 0 : jsint) <> NaN /\ (Num 800 : jsint) <> NaN /\ (Num 600 : jsint) <> NaN /\
  returns (session noProps []) (freshContext fullExtensions) (fun rd ctx _ =>
    returns (setViewport (Num 0) (Num 0) (Num 800) (Num 600) rd) ctx (fun rd1 ctx1 _ =>
      returns (setViewport (Num 0) (Num 0) (Num 800) (Num 600) rd1) ctx1 (fun rd2 ctx2 tr =>
        tr = [EvViewport (Num 0, Num 0, Num 800, Num 600);
              EvScissor (Num 0, Num 0, Num 800, Num 600)] /\
        framebuffersCreated tr = [] /\ framebuffersDeleted tr = [] /\
        wboitFramebuffers rd2 = wboitFramebuffers rd1 /\
        wboitATexture rd2 = wboitATexture rd1 /\ wboitBTexture rd2 = wboitBTexture rd1 /\
        resources ctx2 = resources ctx1 /\
        framebufferCount (stats ctx2) = framebufferCount (stats ctx1) /\
        globalUniforms rd2 = globalUniforms rd1 /\
        rd2 = rd1 /\ ctx2 = ctx1))).
Proof.
  split; [discriminate|]. split; [discriminate|]. split; [discriminate|].
  apply (C7_setViewport_idempotent noProps [] (freshContext fullExtensions)
           (Num 0) (Num 0) (Num 800) (Num 600)); discriminate.
Defined.

(** X5 at a concrete input: a color, a threshold, a style and a clip object
    given twice. *)
Lemma setProps_idempotent_witness :
  let q :=
    mkPartial (Some (Num 16711680)) (Some (Num (3 # 10)%Q)) None None None None None None
      (Some glossy) (Some (mkClipProps "pixel" [sampleClipObject])) in
  props_defined q /\
  setProps q (setProps q (sampleRenderer matte)) = setProps q (sampleRenderer matte).
Proof.
  cbv zeta.
  assert (props_defined
            (mkPartial (Some (Num 16711680)) (Some (Num (3 # 10)%Q)) None None None None
               None None (Some glossy) (Some (mkClipProps "pixel" [sampleClipObject]))))
    as Hd.
  { unfold props_defined, given, style_defined, clipObject_defined, vec3_defined; cbn.
    split_and!; try exact I; try discriminate.
    constructor; [|constructor]. cbn. split_and!; discriminate. }
  split; [exact Hd|]. exact (setProps_idempotent _ _ Hd).
Defined.

(** Without the condition X5 fails: a threshold of [NaN] is taken for a
    change on every call, and the uniform is updated again. *)
Example setProps_NaN_updates_again :
  let q := onlyPickingAlphaThreshold NaN in
  let rd := sampleRenderer matte in
  uniformVersion rd "uPickingAlphaThreshold" = Some 0%nat /\
  uniformVersion (setProps q rd) "uPickingAlphaThreshold" = Some 1%nat /\
  uniformVersion (setProps q (setProps q rd)) "uPickingAlphaThreshold" = Some 2%nat.
Proof. vm_compute. done. Qed.

(** A renderer made with a custom style keeps the caller's object (here
    object 7) as its style object; [setProps] with another style overwrites
    that object in place, so that the caller finds the values of [flat] in
    it, while [p.style] is the new style. *)
Example style_object_overwritten :
  let mine := mkStyle n1 n0 n0 n1 n0 in
  returns (create (onlyStyle (custom 7 mine))) (freshContext fullExtensions) (fun rd _ _ =>
    let rd' := setProps (onlyStyle flat) rd in
    styleObject rd = Some 7%nat /\ style rd = mine /\
    styleObject rd' = Some 7%nat /\ style rd' = getStyle flat /\
    props_style (p rd') = flat).
Proof. vm_compute. done. Qed.


(** The exception of X14: a depth sub-pass call runs no loop and leaves the
    defines of drawable 7 as they were; the depth call that follows
    recompiles it. *)
Example defines_after_subpass :
  let values :=
    mkValues (ValueCell.create 0%nat) (ValueCell.create "pixel") (ValueCell.create "single")
      None None (ValueCell.create false) None in
  let r := mkRenderable 7 (mkRenderableState true true true true false) values (fun _ => 7) in
  returns (session noProps []) (freshContext fullExtensions) (fun rd ctx _ =>
    returns (render None (mkGroup [r]) sampleCamera "depth" true false None true rd) ctx
      (fun '(g', rd') ctx' tr =>
         definesUpdated tr = [] /\
         returns (render None g' sampleCamera "depth" true false None false rd') ctx'
           (fun _ _ tr2 => definesUpdated tr2 = [7]%nat))).
Proof. vm_compute. done. Qed.
